(** * Offline sync engine of nesttask-routine

    A shallow embedding of the client-side offline layer:
    - [src/utils/offlineStorage.ts]: the IndexedDB wrappers;
    - [src/hooks/useTasks.ts]: the tasks hook;
    - the routines hook ([useRoutines]) with its [syncOfflineChanges].

    JavaScript objects become records whose data properties are kept in a
    finite map from property name to value; the three sync markers
    [_isOffline], [_isOfflineUpdated], [_isOfflineDeleted] are record fields
    (an absent marker is [false]).  Asynchronous functions become
    computations in a state-and-rejection monad over a [World] holding the
    remote service, the IndexedDB stores and the React state of both hooks.

    The type declarations ([types/routine], [types/task]) and the task
    service are not part of the sources at hand: the objects passed as
    [newTask], [routine], [slot] and [updates] are taken to carry data
    properties only, and the task service is part of the remote service. *)

From stdpp Require Import gmap strings list fin_maps.

Open Scope string_scope.
Open Scope list_scope.

(** ** Data model *)

Inductive value := VStr (s : string) | VBool (b : bool).

#[global] Instance value_eq_dec : EqDecision value.
Proof. solve_decision. Defined.

(** The data properties of an object ([name], [title], [createdAt], ...). *)
Abbreviation Fields := (gmap string value).

(** [{...a, ...b}] on data properties: the right operand wins. *)
Definition spread (a b : Fields) : Fields := b ∪ a.

Module Slot.
Record t := mk {
  id : string;
  routineId : string;
  fields : Fields;
  _isOffline : bool;
  _isOfflineUpdated : bool;
  _isOfflineDeleted : bool }.

Definition with_fields (f : Fields) (s : t) : t :=
  mk (id s) (routineId s) f (_isOffline s) (_isOfflineUpdated s) (_isOfflineDeleted s).
Definition with_isOfflineUpdated (b : bool) (s : t) : t :=
  mk (id s) (routineId s) (fields s) (_isOffline s) b (_isOfflineDeleted s).
Definition with_isOfflineDeleted (b : bool) (s : t) : t :=
  mk (id s) (routineId s) (fields s) (_isOffline s) (_isOfflineUpdated s) b.
End Slot.

Module Routine.
Record t := mk {
  id : string;
  fields : Fields;
  slots : option (list Slot.t);
  _isOffline : bool;
  _isOfflineUpdated : bool;
  _isOfflineDeleted : bool }.

Definition with_fields (f : Fields) (r : t) : t :=
  mk (id r) f (slots r) (_isOffline r) (_isOfflineUpdated r) (_isOfflineDeleted r).
Definition with_slots (s : option (list Slot.t)) (r : t) : t :=
  mk (id r) (fields r) s (_isOffline r) (_isOfflineUpdated r) (_isOfflineDeleted r).
Definition with_isOfflineUpdated (b : bool) (r : t) : t :=
  mk (id r) (fields r) (slots r) (_isOffline r) b (_isOfflineDeleted r).
Definition with_isOfflineDeleted (b : bool) (r : t) : t :=
  mk (id r) (fields r) (slots r) (_isOffline r) (_isOfflineUpdated r) b.
End Routine.

Module Task.
Record t := mk {
  id : string;
  fields : Fields;
  userId : option string }.

Definition with_fields (f : Fields) (x : t) : t := mk (id x) f (userId x).
Definition with_userId (u : option string) (x : t) : t := mk (id x) (fields x) u.
End Task.

#[global] Instance slot_eq_dec : EqDecision Slot.t.
Proof. solve_decision. Defined.
#[global] Instance routine_eq_dec : EqDecision Routine.t.
Proof. solve_decision. Defined.
#[global] Instance task_eq_dec : EqDecision Task.t.
Proof. solve_decision. Defined.

(** ** The remote service

    The service functions are the boundary to the hosted backend.  A
    [Request] names one call with its arguments (for objects: their data
    properties); [Reply] is what the call resolves to.  From
    [routine.service.ts]: [fetchRoutines] builds each slot with the
    [routineId] of its routine, [createRoutine] returns [slots: []], and no
    result carries a sync marker. *)

Inductive Request :=
| TestConnection
| FetchTasks (userId : string)
| CreateTask (userId : string) (newTask : Fields)
| UpdateTask (taskId : string) (updates : Fields)
| DeleteTask (taskId : string)
| FetchRoutines
| CreateRoutine (routine : Fields)
| UpdateRoutine (id : string) (updates : Fields)
| DeleteRoutine (id : string)
| AddRoutineSlot (routineId : string) (slot : Fields)
| UpdateRoutineSlot (routineId slotId : string) (updates : Fields)
| DeleteRoutineSlot (routineId slotId : string).

#[global] Instance request_eq_dec : EqDecision Request.
Proof. solve_decision. Defined.

Abbreviation SlotRow := (string * Fields)%type.
Abbreviation RoutineRow := (string * Fields * option (list SlotRow))%type.

Definition Reply (q : Request) : Type :=
  match q with
  | TestConnection => bool
  | FetchTasks _ => list Task.t
  | CreateTask _ _ | UpdateTask _ _ => Task.t
  | FetchRoutines => list RoutineRow
  | CreateRoutine _ => (string * Fields)%type
  | AddRoutineSlot _ _ => (string * string * Fields)%type
  | DeleteTask _ | UpdateRoutine _ _ | DeleteRoutine _
  | UpdateRoutineSlot _ _ _ | DeleteRoutineSlot _ _ => unit
  end.

(** ** IndexedDB *)

(** How the database behaves when used: [indexedDB.open] may fail, or the
    database opens and the transaction or request on it fails. *)
Inductive IdbStatus :=
| Healthy
| OpenFails (error : string)
| RequestFails (error : string).

(** What [saveToIndexedDB] is given: one item or an array of items. *)
Inductive SaveData (A : Type) :=
| One (item : A)
| Many (items : list A).
Arguments One {A} item.
Arguments Many {A} items.

(** An object store with [keyPath: 'id']: [put] files the item under its id. *)
Definition put {A} (key : A → string) (m : gmap string A) (item : A) : gmap string A :=
  <[key item := item]> m.

Definition put_data {A} (key : A → string) (m : gmap string A) (data : SaveData A) : gmap string A :=
  match data with
  | One item => put key m item
  | Many items => foldl (put key) m items
  end.

(** [store.getAll()]: every stored item, once; the order is the one in which
    the map enumerates its keys, and no statement below depends on it. *)
Definition store_getAll {A} (m : gmap string A) : list A := (map_to_list m).*2.

(** ** The world an asynchronous function runs in *)

Record World (Srv : Type) := mkWorld {
  (* the remote service and the calls made to it, with whether each resolved *)
  srv : Srv;
  log : list (Request * bool);
  (* the database nestTaskOfflineDB with the stores STORES.TASKS and STORES.ROUTINES *)
  idb_status : IdbStatus;
  idb_tasks : gmap string Task.t;
  idb_routines : gmap string Routine.t;
  (* useTasks: const [tasks, setTasks], [loading, setLoading], [error, setError] *)
  tasks : list Task.t;
  tasksLoading : bool;
  tasksError : option string;
  (* useRoutines: const [routines, setRoutines], [loading, setLoading], [error, setError] *)
  routines : list Routine.t;
  routinesLoading : bool;
  routinesError : option string }.
Arguments mkWorld {Srv}.
Arguments srv {Srv}.
Arguments log {Srv}.
Arguments idb_status {Srv}.
Arguments idb_tasks {Srv}.
Arguments idb_routines {Srv}.
Arguments tasks {Srv}.
Arguments tasksLoading {Srv}.
Arguments tasksError {Srv}.
Arguments routines {Srv}.
Arguments routinesLoading {Srv}.
Arguments routinesError {Srv}.

Inductive Outcome (A : Type) :=
| Resolved (a : A)
| Rejected (message : string).
Arguments Resolved {A} a.
Arguments Rejected {A} message.

Definition is_resolved {A} (o : Outcome A) : bool :=
  match o with Resolved _ => true | Rejected _ => false end.

(** An [async] function: from the world it starts in to its settled promise
    and the world it leaves. *)
Definition Async (Srv A : Type) : Type := World Srv → Outcome A * World Srv.

Section Monad.
Context {Srv : Type}.
Implicit Types w : World Srv.

Definition ret {A} (a : A) : Async Srv A := λ w, (Resolved a, w).

Definition throw {A} (message : string) : Async Srv A := λ w, (Rejected message, w).

Definition bind {A B} (m : Async Srv A) (k : A → Async Srv B) : Async Srv B :=
  λ w, match m w with
       | (Resolved a, w') => k a w'
       | (Rejected e, w') => (Rejected e, w')
       end.

(** [try { body } catch (err) { handler err }] *)
Definition try_catch {A} (body : Async Srv A) (handler : string → Async Srv A) : Async Srv A :=
  λ w, match body w with
       | (Resolved a, w') => (Resolved a, w')
       | (Rejected e, w') => handler e w'
       end.

(** [try { body } finally { final }] *)
Definition try_finally {A} (body : Async Srv A) (final : Async Srv unit) : Async Srv A :=
  λ w, match body w with
       | (o, w') =>
           match final w' with
           | (Resolved _, w'') => (o, w'')
           | (Rejected e, w'') => (Rejected e, w'')
           end
       end.

Definition gets {A} (f : World Srv → A) : Async Srv A := λ w, (Resolved (f w), w).

Definition modify (f : World Srv → World Srv) : Async Srv unit := λ w, (Resolved tt, f w).

Definition set_srv (s : Srv) w : World Srv :=
  mkWorld s (log w) (idb_status w) (idb_tasks w) (idb_routines w)
    (tasks w) (tasksLoading w) (tasksError w)
    (routines w) (routinesLoading w) (routinesError w).
Definition set_log (l : list (Request * bool)) w : World Srv :=
  mkWorld (srv w) l (idb_status w) (idb_tasks w) (idb_routines w)
    (tasks w) (tasksLoading w) (tasksError w)
    (routines w) (routinesLoading w) (routinesError w).
Definition set_idb_status (s : IdbStatus) w : World Srv :=
  mkWorld (srv w) (log w) s (idb_tasks w) (idb_routines w)
    (tasks w) (tasksLoading w) (tasksError w)
    (routines w) (routinesLoading w) (routinesError w).
Definition set_idb_tasks (m : gmap string Task.t) w : World Srv :=
  mkWorld (srv w) (log w) (idb_status w) m (idb_routines w)
    (tasks w) (tasksLoading w) (tasksError w)
    (routines w) (routinesLoading w) (routinesError w).
Definition set_idb_routines (m : gmap string Routine.t) w : World Srv :=
  mkWorld (srv w) (log w) (idb_status w) (idb_tasks w) m
    (tasks w) (tasksLoading w) (tasksError w)
    (routines w) (routinesLoading w) (routinesError w).
Definition set_tasks (l : list Task.t) w : World Srv :=
  mkWorld (srv w) (log w) (idb_status w) (idb_tasks w) (idb_routines w)
    l (tasksLoading w) (tasksError w)
    (routines w) (routinesLoading w) (routinesError w).
Definition set_tasksLoading (b : bool) w : World Srv :=
  mkWorld (srv w) (log w) (idb_status w) (idb_tasks w) (idb_routines w)
    (tasks w) b (tasksError w)
    (routines w) (routinesLoading w) (routinesError w).
Definition set_tasksError (e : option string) w : World Srv :=
  mkWorld (srv w) (log w) (idb_status w) (idb_tasks w) (idb_routines w)
    (tasks w) (tasksLoading w) e
    (routines w) (routinesLoading w) (routinesError w).
Definition set_routines (l : list Routine.t) w : World Srv :=
  mkWorld (srv w) (log w) (idb_status w) (idb_tasks w) (idb_routines w)
    (tasks w) (tasksLoading w) (tasksError w)
    l (routinesLoading w) (routinesError w).
Definition set_routinesLoading (b : bool) w : World Srv :=
  mkWorld (srv w) (log w) (idb_status w) (idb_tasks w) (idb_routines w)
    (tasks w) (tasksLoading w) (tasksError w)
    (routines w) b (routinesError w).
Definition set_routinesError (e : option string) w : World Srv :=
  mkWorld (srv w) (log w) (idb_status w) (idb_tasks w) (idb_routines w)
    (tasks w) (tasksLoading w) (tasksError w)
    (routines w) (routinesLoading w) e.

End Monad.

Notation "'let*' x := m 'in' k" := (bind m (λ x, k))
  (at level 10, x name, m at level 100, k at level 200,
   format "'[v' 'let*'  x  :=  m  'in' '/' k ']'").
Notation "m ;;; k" := (bind m (λ _, k))
  (at level 100, k at level 200, right associativity,
   format "'[v' m  ;;; '/' k ']'").

(** [for (const x of xs) { acc = body acc x }], awaiting each turn. *)
Fixpoint for_of {Srv A B} (xs : list A) (body : B → A → Async Srv B) (acc : B) : Async Srv B :=
  match xs with
  | [] => ret acc
  | x :: xs' => let* acc' := body acc x in for_of xs' body acc'
  end.

(** [message || fallback] *)
Definition or_else (message fallback : string) : string :=
  if decide (message = "") then fallback else message.

(** The first element satisfying [p], with its index. *)
Fixpoint findEntry {A} (p : A → bool) (l : list A) : option (nat * A) :=
  match l with
  | [] => None
  | x :: l' => if p x then Some (0, x) else prod_map S id <$> findEntry p l'
  end.

(** [Array.prototype.findIndex]; [None] stands for -1. *)
Definition findIndex {A} (p : A → bool) (l : list A) : option nat := fst <$> findEntry p l.

(** [Array.prototype.find]; [None] stands for undefined. *)
Definition find {A} (p : A → bool) (l : list A) : option A := snd <$> findEntry p l.

Definition eqb_id (a b : string) : bool := bool_decide (a = b).

(** What the environment supplies to one call: [Date.now()], the base-36
    tail of [Math.random()], and [new Date().toISOString()]. *)
Record Clock := mkClock {
  dateNow : string;
  mathRandom : string;
  toISOString : string }.

(** A named object store of the database, as seen from the world. *)
Record Store (Srv A : Type) := mkStore {
  key : A → string;
  contents : World Srv → gmap string A;
  set_contents : gmap string A → World Srv → World Srv }.
Arguments key {Srv A}.
Arguments contents {Srv A}.
Arguments set_contents {Srv A}.

Section Engine.
Context {Srv : Type}.
(** The remote service: a state machine answering each request by a
    rejection (with its message) or a reply. *)
Context (serve : Srv → ∀ q : Request, Srv * (string + Reply q)).
Implicit Types w : World Srv.

(** *** offlineStorage.ts *)

Definition STORES_TASKS : Store Srv Task.t := mkStore Srv _ Task.id idb_tasks set_idb_tasks.
Definition STORES_ROUTINES : Store Srv Routine.t :=
  mkStore Srv _ Routine.id idb_routines set_idb_routines.

(** [indexedDB.open]: [onerror] rejects, [onsuccess] resolves. *)
Definition initDB : Async Srv unit :=
  λ w, match idb_status w with
       | OpenFails error => (Rejected error, w)
       | _ => (Resolved tt, w)
       end.

(** The promise around a readwrite transaction of [put]s: it resolves on
    [oncomplete] with every put applied, and rejects on [onerror] with none. *)
Definition transaction_put {A} (store : Store Srv A) (data : SaveData A) : Async Srv unit :=
  λ w, match idb_status w with
       | Healthy =>
           (Resolved tt, set_contents store (put_data (key store) (contents store w) data) w)
       | OpenFails error | RequestFails error => (Rejected error, w)
       end.

(** The promise around [store.getAll()]. *)
Definition request_getAll {A} (store : Store Srv A) : Async Srv (list A) :=
  λ w, match idb_status w with
       | Healthy => (Resolved (store_getAll (contents store w)), w)
       | OpenFails error | RequestFails error => (Rejected error, w)
       end.

(** The promise around [store.get(id)]; [None] is [undefined]. *)
Definition request_get {A} (store : Store Srv A) (id : string) : Async Srv (option A) :=
  λ w, match idb_status w with
       | Healthy => (Resolved (contents store w !! id), w)
       | OpenFails error | RequestFails error => (Rejected error, w)
       end.

(** The promise around [store.delete(id)]. *)
Definition request_delete {A} (store : Store Srv A) (id : string) : Async Srv unit :=
  λ w, match idb_status w with
       | Healthy => (Resolved tt, set_contents store (delete id (contents store w)) w)
       | OpenFails error | RequestFails error => (Rejected error, w)
       end.

(** In each wrapper the [try] block awaits [initDB()] and then executes
    [return new Promise(...)]: the promise leaves the block unawaited, so
    the [catch] clause sees a failed [initDB] only, and the function settles
    as the returned promise does. *)
Definition saveToIndexedDB {A} (store : Store Srv A) (data : SaveData A) : Async Srv unit :=
  let* promise :=
    try_catch (let* db := initDB in ret (transaction_put store data))
              (λ error, throw error) in
  promise.

Definition getAllFromIndexedDB {A} (store : Store Srv A) : Async Srv (list A) :=
  let* promise :=
    try_catch (let* db := initDB in ret (request_getAll store))
              (λ error, ret (ret [])) in
  promise.

Definition getByIdFromIndexedDB {A} (store : Store Srv A) (id : string) : Async Srv (option A) :=
  let* promise :=
    try_catch (let* db := initDB in ret (request_get store id))
              (λ error, ret (ret None)) in
  promise.

Definition deleteFromIndexedDB {A} (store : Store Srv A) (id : string) : Async Srv unit :=
  let* promise :=
    try_catch (let* db := initDB in ret (request_delete store id))
              (λ error, throw error) in
  promise.

(** *** Calls to the remote service *)

Definition call (q : Request) : Async Srv (Reply q) :=
  λ w, match serve (srv w) q with
       | (s, inl error) => (Rejected error, set_log (log w ++ [(q, false)]) (set_srv s w))
       | (s, inr reply) => (Resolved reply, set_log (log w ++ [(q, true)]) (set_srv s w))
       end.

Definition testConnection : Async Srv bool := call TestConnection.
Definition fetchTasks (userId : string) : Async Srv (list Task.t) := call (FetchTasks userId).
Definition createTask (userId : string) (newTask : Fields) : Async Srv Task.t :=
  call (CreateTask userId newTask).
Definition updateTask (taskId : string) (updates : Fields) : Async Srv Task.t :=
  call (UpdateTask taskId updates).
Definition deleteTask (taskId : string) : Async Srv unit := call (DeleteTask taskId).

Definition slot_of_row (routineId : string) (row : SlotRow) : Slot.t :=
  Slot.mk row.1 routineId row.2 false false false.

Definition routine_of_row (row : RoutineRow) : Routine.t :=
  Routine.mk row.1.1 row.1.2 (map (slot_of_row row.1.1) <$> row.2) false false false.

Definition fetchRoutines : Async Srv (list Routine.t) :=
  let* rows := call FetchRoutines in
  ret (map routine_of_row rows).

Definition createRoutineService (routine : Fields) : Async Srv Routine.t :=
  let* data := call (CreateRoutine routine) in
  ret (Routine.mk data.1 data.2 (Some []) false false false).

Definition updateRoutineService (id : string) (updates : Fields) : Async Srv unit :=
  call (UpdateRoutine id updates).

Definition deleteRoutineService (id : string) : Async Srv unit := call (DeleteRoutine id).

Definition addRoutineSlotService (routineId : string) (slot : Fields) : Async Srv Slot.t :=
  let* data := call (AddRoutineSlot routineId slot) in
  ret (Slot.mk data.1.1 data.1.2 data.2 false false false).

Definition updateRoutineSlotService (routineId slotId : string) (updates : Fields)
  : Async Srv unit :=
  call (UpdateRoutineSlot routineId slotId updates).

Definition deleteRoutineSlotService (routineId slotId : string) : Async Srv unit :=
  call (DeleteRoutineSlot routineId slotId).

(** *** useTasks.ts

    [userId] and [isOffline] are the values the hook closes over at the
    render in which the function was created. *)

Definition setTasks (f : list Task.t → list Task.t) : Async Srv unit :=
  modify (λ w, set_tasks (f (tasks w)) w).

(** [!userId] holds for [undefined] and for the empty string. *)
Definition truthy (userId : option string) : option string :=
  match userId with
  | Some u => if decide (u = "") then None else Some u
  | None => None
  end.

Definition ownedBy (userId : string) (task : Task.t) : bool :=
  bool_decide (Task.userId task = Some userId).

Definition loadTasks (userId : option string) (isOffline : bool) : Async Srv unit :=
  match truthy userId with
  | None => ret tt
  | Some uid =>
    try_finally
      (try_catch
        (modify (set_tasksLoading true);;;
         modify (set_tasksError None);;;
         if isOffline then
           let* offlineTasks := getAllFromIndexedDB STORES_TASKS in
           let userTasks := List.filter (ownedBy uid) offlineTasks in
           setTasks (λ _, userTasks)
         else
           let* isConnected := testConnection in
           if negb isConnected then throw "Unable to connect to database"
           else
             let* data := fetchTasks uid in
             setTasks (λ _, data);;;
             let tasksWithUserId := map (Task.with_userId (Some uid)) data in
             saveToIndexedDB STORES_TASKS (Many tasksWithUserId))
        (λ err,
           modify (set_tasksError (Some (or_else err "Failed to load tasks")));;;
           (* the retry timer only schedules a later invocation *)
           if negb isOffline then
             try_catch
               (let* offlineTasks := getAllFromIndexedDB STORES_TASKS in
                let userTasks := List.filter (ownedBy uid) offlineTasks in
                if bool_decide (0 < length userTasks) then
                  setTasks (λ _, userTasks);;;
                  modify (set_tasksError None)
                else ret tt)
               (λ offlineErr, ret tt)
           else ret tt))
      (modify (set_tasksLoading false))
  end.

Definition handleCreateTask (userId : option string) (isOffline : bool)
    (clock : Clock) (newTask : Fields) : Async Srv Task.t :=
  match truthy userId with
  | None => throw "User ID is required"
  | Some uid =>
    try_catch
      (modify (set_tasksError None);;;
       if isOffline then
         let tempId := "temp_" +:+ dateNow clock +:+ "_" +:+ mathRandom clock in
         let offlineTask :=
           Task.mk tempId
             (<["isAdminTask" := VBool false]>
               (<["status" := VStr "my-tasks"]>
                 (<["updatedAt" := VStr (toISOString clock)]>
                   (<["createdAt" := VStr (toISOString clock)]> newTask))))
             (Some uid) in
         saveToIndexedDB STORES_TASKS (One offlineTask);;;
         setTasks (λ prev, prev ++ [offlineTask]);;;
         ret offlineTask
       else
         let* result := createTask uid newTask in
         setTasks (λ prev, prev ++ [result]);;;
         let taskWithUserId := Task.with_userId (Some uid) result in
         saveToIndexedDB STORES_TASKS (One taskWithUserId);;;
         ret result)
      (λ err,
         modify (set_tasksError (Some (or_else err "Failed to create task")));;;
         throw err)
  end.

Definition handleUpdateTask (userId : option string) (isOffline : bool)
    (clock : Clock) (taskId : string) (updates : Fields) : Async Srv Task.t :=
  try_catch
    (modify (set_tasksError None);;;
     if isOffline then
       let* existingTask := getByIdFromIndexedDB STORES_TASKS taskId in
       match existingTask with
       | None => throw "Task not found"
       | Some existingTask =>
           let updatedTask :=
             Task.with_fields
               (<["updatedAt" := VStr (toISOString clock)]>
                  (spread (Task.fields existingTask) updates))
               existingTask in
           saveToIndexedDB STORES_TASKS (One updatedTask);;;
           setTasks (map (λ task, if eqb_id (Task.id task) taskId then updatedTask else task));;;
           ret updatedTask
       end
     else
       let* result := updateTask taskId updates in
       setTasks (map (λ task, if eqb_id (Task.id task) taskId then result else task));;;
       let taskWithUserId := Task.with_userId (Some (default "" userId)) result in
       saveToIndexedDB STORES_TASKS (One taskWithUserId);;;
       ret result)
    (λ err,
       modify (set_tasksError (Some (or_else err "Failed to update task")));;;
       throw err).

Definition handleDeleteTask (isOffline : bool) (taskId : string) : Async Srv bool :=
  try_catch
    (modify (set_tasksError None);;;
     (if isOffline then
        deleteFromIndexedDB STORES_TASKS taskId;;;
        setTasks (List.filter (λ task, negb (eqb_id (Task.id task) taskId)))
      else
        deleteTask taskId;;;
        setTasks (List.filter (λ task, negb (eqb_id (Task.id task) taskId)));;;
        deleteFromIndexedDB STORES_TASKS taskId);;;
     ret true)
    (λ err,
       modify (set_tasksError (Some (or_else err "Failed to delete task")));;;
       throw err).

(** The tasks hook has no replay of offline changes: [syncOfflineChanges]
    starts [loadTasks()] and does not look at how it settles. *)
Definition syncOfflineChanges_tasks (userId : option string) (isOffline : bool)
  : Async Srv unit :=
  λ w, (Resolved tt, (loadTasks userId isOffline w).2).

(** *** useRoutines *)

Definition setRoutines (f : list Routine.t → list Routine.t) : Async Srv unit :=
  modify (λ w, set_routines (f (routines w)) w).

Definition hasId (id : string) (routine : Routine.t) : bool := eqb_id (Routine.id routine) id.
Definition slotHasId (id : string) (slot : Slot.t) : bool := eqb_id (Slot.id slot) id.

(** [prev.map(routine => routine.id === id ? f(routine) : routine)] *)
Definition mapRoutine (id : string) (f : Routine.t → Routine.t) (l : list Routine.t)
  : list Routine.t :=
  map (λ routine, if hasId id routine then f routine else routine) l.

(** [routine.slots?.map(slot => slot.id === slotId ? f(slot) : slot)] *)
Definition mapSlot (slotId : string) (f : Slot.t → Slot.t) (routine : Routine.t)
  : option (list Slot.t) :=
  map (λ slot, if slotHasId slotId slot then f slot else slot) <$> Routine.slots routine.

(** [{ ...routine, slots: [...(routine.slots || []), newSlot] }] *)
Definition pushSlot (newSlot : Slot.t) (routine : Routine.t) : Routine.t :=
  Routine.with_slots (Some (default [] (Routine.slots routine) ++ [newSlot])) routine.

(** [{ ...routine, ...updates }] *)
Definition mergeRoutine (updates : Fields) (routine : Routine.t) : Routine.t :=
  Routine.with_fields (spread (Routine.fields routine) updates) routine.

(** [{ ...slot, ...updates }] *)
Definition mergeSlot (updates : Fields) (slot : Slot.t) : Slot.t :=
  Slot.with_fields (spread (Slot.fields slot) updates) slot.

Definition loadRoutines (isOffline : bool) : Async Srv unit :=
  try_finally
    (try_catch
      (modify (set_routinesLoading true);;;
       if isOffline then
         let* offlineRoutines := getAllFromIndexedDB STORES_ROUTINES in
         if bool_decide (0 < length offlineRoutines) then setRoutines (λ _, offlineRoutines)
         else setRoutines (λ _, [])
       else
         let* data := fetchRoutines in
         setRoutines (λ _, data);;;
         if bool_decide (0 < length data) then saveToIndexedDB STORES_ROUTINES (Many data)
         else ret tt)
      (λ err,
         modify (set_routinesError (Some err));;;
         if negb isOffline then
           try_catch
             (let* offlineRoutines := getAllFromIndexedDB STORES_ROUTINES in
              if bool_decide (0 < length offlineRoutines) then setRoutines (λ _, offlineRoutines)
              else ret tt)
             (λ offlineErr, ret tt)
         else ret tt))
    (modify (set_routinesLoading false)).

Definition createRoutine (isOffline : bool) (clock : Clock) (routine : Fields)
  : Async Srv Routine.t :=
  try_catch
    (modify (set_routinesError None);;;
     if isOffline then
       let tempId := "temp-" +:+ dateNow clock +:+ "-" +:+ mathRandom clock in
       let offlineRoutine :=
         Routine.mk tempId (<["createdAt" := VStr (toISOString clock)]> routine)
           (Some []) true false false in
       saveToIndexedDB STORES_ROUTINES (One offlineRoutine);;;
       setRoutines (λ prev, offlineRoutine :: prev);;;
       ret offlineRoutine
     else
       let* newRoutine := createRoutineService routine in
       setRoutines (λ prev, newRoutine :: prev);;;
       saveToIndexedDB STORES_ROUTINES (One newRoutine);;;
       ret newRoutine)
    (λ err, modify (set_routinesError (Some err));;; throw err).

Definition updateRoutine (isOffline : bool) (id : string) (updates : Fields)
  : Async Srv unit :=
  try_catch
    (modify (set_routinesError None);;;
     if isOffline then
       let* existingRoutines := getAllFromIndexedDB STORES_ROUTINES in
       match find (hasId id) existingRoutines with
       | Some routineToUpdate =>
           let updatedRoutine :=
             Routine.with_isOfflineUpdated true (mergeRoutine updates routineToUpdate) in
           saveToIndexedDB STORES_ROUTINES (One updatedRoutine);;;
           setRoutines (mapRoutine id (mergeRoutine updates))
       | None => ret tt
       end
     else
       updateRoutineService id updates;;;
       setRoutines (mapRoutine id (mergeRoutine updates));;;
       let* existingRoutines := getAllFromIndexedDB STORES_ROUTINES in
       match find (hasId id) existingRoutines with
       | Some routineToUpdate =>
           saveToIndexedDB STORES_ROUTINES (One (mergeRoutine updates routineToUpdate))
       | None => ret tt
       end)
    (λ err, modify (set_routinesError (Some err));;; throw err).

Definition deleteRoutine (isOffline : bool) (id : string) : Async Srv unit :=
  try_catch
    (modify (set_routinesError None);;;
     if isOffline then
       let* existingRoutines := getAllFromIndexedDB STORES_ROUTINES in
       match find (hasId id) existingRoutines with
       | Some routineToDelete =>
           saveToIndexedDB STORES_ROUTINES (One (Routine.with_isOfflineDeleted true routineToDelete))
       | None => ret tt
       end;;;
       setRoutines (List.filter (λ routine, negb (hasId id routine)))
     else
       deleteRoutineService id;;;
       setRoutines (List.filter (λ routine, negb (hasId id routine)));;;
       try_catch
         (let* existingRoutines := getAllFromIndexedDB STORES_ROUTINES in
          let updatedRoutines := List.filter (λ r, negb (hasId id r)) existingRoutines in
          saveToIndexedDB STORES_ROUTINES (Many updatedRoutines))
         (λ dbErr, ret tt))
    (λ err, modify (set_routinesError (Some err));;; throw err).

Definition addRoutineSlot (isOffline : bool) (clock : Clock) (routineId : string)
    (slot : Fields) : Async Srv Slot.t :=
  try_catch
    (modify (set_routinesError None);;;
     if isOffline then
       let tempId := "temp-slot-" +:+ dateNow clock +:+ "-" +:+ mathRandom clock in
       let newSlot :=
         Slot.mk tempId routineId (<["createdAt" := VStr (toISOString clock)]> slot)
           true false false in
       let* updatedRoutines := getAllFromIndexedDB STORES_ROUTINES in
       match findEntry (hasId routineId) updatedRoutines with
       | Some (routineIndex, routine) =>
           let updatedRoutine := pushSlot newSlot routine in
           let updatedRoutines := <[routineIndex := updatedRoutine]> updatedRoutines in
           saveToIndexedDB STORES_ROUTINES (Many updatedRoutines);;;
           setRoutines (mapRoutine routineId (pushSlot newSlot));;;
           ret newSlot
       | None => throw "Routine not found"
       end
     else
       let* newSlot := addRoutineSlotService routineId slot in
       setRoutines (mapRoutine routineId (pushSlot newSlot));;;
       try_catch
         (let* existingRoutines := getAllFromIndexedDB STORES_ROUTINES in
          match find (hasId routineId) existingRoutines with
          | Some routineToUpdate =>
              saveToIndexedDB STORES_ROUTINES (One (pushSlot newSlot routineToUpdate))
          | None => ret tt
          end)
         (λ dbErr, ret tt);;;
       ret newSlot)
    (λ err, modify (set_routinesError (Some err));;; throw err).

(** Write [f routine] over the stored routine [routineId], saving the whole
    array back, as the slot functions do. *)
Definition rewriteStored (routineId : string) (f : Routine.t → Routine.t) : Async Srv unit :=
  let* existingRoutines := getAllFromIndexedDB STORES_ROUTINES in
  match findEntry (hasId routineId) existingRoutines with
  | Some (routineIndex, routine) =>
      let updatedRoutine := f routine in
      let existingRoutines := <[routineIndex := updatedRoutine]> existingRoutines in
      saveToIndexedDB STORES_ROUTINES (Many existingRoutines)
  | None => ret tt
  end.

Definition updateRoutineSlot (isOffline : bool) (routineId slotId : string)
    (updates : Fields) : Async Srv unit :=
  let inView routine :=
    Routine.with_slots (mapSlot slotId (mergeSlot updates) routine) routine in
  try_catch
    (modify (set_routinesError None);;;
     if isOffline then
       let* existingRoutines := getAllFromIndexedDB STORES_ROUTINES in
       match findEntry (hasId routineId) existingRoutines with
       | Some (routineIndex, routine) =>
           let updatedRoutine :=
             Routine.with_slots
               (mapSlot slotId
                  (λ slot, Slot.with_isOfflineUpdated true (mergeSlot updates slot)) routine)
               routine in
           let existingRoutines := <[routineIndex := updatedRoutine]> existingRoutines in
           saveToIndexedDB STORES_ROUTINES (Many existingRoutines);;;
           setRoutines (mapRoutine routineId inView)
       | None => ret tt
       end
     else
       updateRoutineSlotService routineId slotId updates;;;
       setRoutines (mapRoutine routineId inView);;;
       try_catch (rewriteStored routineId inView) (λ dbErr, ret tt))
    (λ err, modify (set_routinesError (Some err));;; throw err).

Definition deleteRoutineSlot (isOffline : bool) (routineId slotId : string)
  : Async Srv unit :=
  let inView routine :=
    Routine.with_slots
      (List.filter (λ slot, negb (slotHasId slotId slot)) <$> Routine.slots routine)
      routine in
  try_catch
    (modify (set_routinesError None);;;
     if isOffline then
       let* existingRoutines := getAllFromIndexedDB STORES_ROUTINES in
       match findEntry (hasId routineId) existingRoutines with
       | Some (routineIndex, routine) =>
           (* a slot created offline is dropped, any other is marked *)
           let updatedSlots :=
             List.filter (λ slot, negb (slotHasId slotId slot && Slot._isOffline slot))
               <$> mapSlot slotId (Slot.with_isOfflineDeleted true) routine in
           let updatedRoutine := Routine.with_slots updatedSlots routine in
           let existingRoutines := <[routineIndex := updatedRoutine]> existingRoutines in
           saveToIndexedDB STORES_ROUTINES (Many existingRoutines)
       | None => ret tt
       end;;;
       setRoutines (mapRoutine routineId inView)
     else
       deleteRoutineSlotService routineId slotId;;;
       setRoutines (mapRoutine routineId inView);;;
       try_catch (rewriteStored routineId inView) (λ dbErr, ret tt))
    (λ err, modify (set_routinesError (Some err));;; throw err).

(** One turn of the inner loop of [syncOfflineChanges], over the slots of
    [routine]; [acc] is [(syncedSlots, slotsChanged)]. *)
Definition sync_slot (routine : Routine.t) (acc : list Slot.t * bool) (slot : Slot.t)
  : Async Srv (list Slot.t * bool) :=
  let syncedSlots := acc.1 in
  if Slot._isOfflineDeleted slot then
    try_catch
      (deleteRoutineSlotService (Routine.id routine) (Slot.id slot);;;
       match findIndex (slotHasId (Slot.id slot)) syncedSlots with
       | Some slotIndex => ret (delete slotIndex syncedSlots, true)
       | None => ret acc
       end)
      (λ err, ret acc)
  else if Slot._isOffline slot then
    try_catch
      (let slotData := delete "createdAt" (Slot.fields slot) in
       let* newSlot := addRoutineSlotService (Routine.id routine) slotData in
       match findIndex (slotHasId (Slot.id slot)) syncedSlots with
       | Some slotIndex => ret (<[slotIndex := newSlot]> syncedSlots, true)
       | None => ret acc
       end)
      (λ err, ret acc)
  else if Slot._isOfflineUpdated slot then
    try_catch
      (let slotData := Slot.with_isOfflineUpdated false slot in
       updateRoutineSlotService (Routine.id routine) (Slot.id slot) (Slot.fields slotData);;;
       match findIndex (slotHasId (Slot.id slot)) syncedSlots with
       | Some slotIndex =>
           let synced :=
             Slot.mk (Slot.id slot) (Routine.id routine) (Slot.fields slotData)
               (Slot._isOffline slotData) (Slot._isOfflineUpdated slotData)
               (Slot._isOfflineDeleted slotData) in
           ret (<[slotIndex := synced]> syncedSlots, true)
       | None => ret acc
       end)
      (λ err, ret acc)
  else ret acc.

(** One turn of the outer loop; [acc] is [(syncedRoutines, hasChanges)]. *)
Definition sync_routine (acc : list Routine.t * bool) (routine : Routine.t)
  : Async Srv (list Routine.t * bool) :=
  let syncedRoutines := acc.1 in
  if Routine._isOfflineDeleted routine then
    try_catch
      (deleteRoutineService (Routine.id routine);;;
       ret (List.filter (λ r, negb (hasId (Routine.id routine) r)) syncedRoutines, true))
      (λ err, ret acc)
  else if Routine._isOffline routine then
    try_catch
      (let routineData := Routine.fields routine in
       let* newRoutine := createRoutineService routineData in
       ret (List.filter (λ r, negb (hasId (Routine.id routine) r)) syncedRoutines
              ++ [newRoutine], true))
      (λ err, ret acc)
  else
    let* acc :=
      if Routine._isOfflineUpdated routine then
        try_catch
          (let routineData := Routine.with_isOfflineUpdated false routine in
           updateRoutineService (Routine.id routine) (Routine.fields routineData);;;
           match findIndex (hasId (Routine.id routine)) syncedRoutines with
           | Some index => ret (<[index := routineData]> syncedRoutines, true)
           | None => ret acc
           end)
          (λ err, ret acc)
      else ret acc in
    match Routine.slots routine with
    | Some slots =>
        if bool_decide (0 < length slots) then
          let* synced := for_of slots (sync_slot routine) (slots, false) in
          if synced.2 then
            match findEntry (hasId (Routine.id routine)) acc.1 with
            | Some (routineIndex, current) =>
                ret (<[routineIndex := Routine.with_slots (Some synced.1) current]> acc.1, true)
            | None => ret acc
            end
          else ret acc
        else ret acc
    | None => ret acc
    end.

Definition syncOfflineChanges (isOffline : bool) : Async Srv unit :=
  if isOffline then ret tt
  else
    try_catch
      (let* offlineRoutines := getAllFromIndexedDB STORES_ROUTINES in
       let* synced := for_of offlineRoutines sync_routine (offlineRoutines, false) in
       if synced.2 then
         saveToIndexedDB STORES_ROUTINES (Many synced.1);;;
         setRoutines (λ _, synced.1)
       else ret tt)
      (λ err, modify (set_routinesError (Some "Failed to sync offline changes"))).

End Engine.

(** ** Concrete services and worlds used to run the functions *)

(** A stateless service answering every request, except that it rejects
    the requests selected by [fails]; [serverTasks] and [serverRoutines]
    are what the two fetches return. *)
Definition scripted (fails : Request → bool) (serverTasks : list Task.t)
    (serverRoutines : list RoutineRow) (s : unit) (q : Request)
  : unit * (string + Reply q) :=
  if fails q then (s, inl "rejected by the server")
  else
    (s, inr
      match q as q0 return Reply q0 with
      | TestConnection => true
      | FetchTasks _ => serverTasks
      | CreateTask _ newTask => Task.mk "srv-task-1" newTask None
      | UpdateTask taskId updates => Task.mk taskId updates None
      | DeleteTask _ => tt
      | FetchRoutines => serverRoutines
      | CreateRoutine routine => ("srv-routine-1", routine)
      | UpdateRoutine _ _ => tt
      | DeleteRoutine _ => tt
      | AddRoutineSlot routineId slot => ("srv-slot-1", routineId, slot)
      | UpdateRoutineSlot _ _ _ => tt
      | DeleteRoutineSlot _ _ => tt
      end).

Definition never : Request → bool := λ _, false.

(** A fresh page: nothing stored, nothing shown, no call made yet. *)
Definition world0 : World unit :=
  mkWorld tt [] Healthy ∅ ∅ [] false None [] false None.

Definition clock0 : Clock := mkClock "1736500000000" "k3x9q2a" "2025-01-10T09:06:40.000Z".

Definition alice : option string := Some "alice".

Definition labReport : Fields :=
  <["title" := VStr "Lab report"]> (<["dueDate" := VStr "2025-01-10"]> ∅).

Definition srv7 : Routine.t :=
  Routine.mk "srv-7" (<["name" := VStr "Spring"]> ∅) (Some []) false false false.

Definition srv8 : Routine.t :=
  Routine.mk "srv-8" (<["name" := VStr "Autumn"]> ∅) (Some []) false false false.

(** The requests of a log, and the calls made since an earlier world. *)
Definition requests (l : list (Request * bool)) : list Request := l.*1.

Definition calls_since {Srv} (before after : World Srv) : list (Request * bool) :=
  drop (length (log before)) (log after).

(** ** Vocabulary of the statements *)

(** With [keyPath: 'id'] every stored item is filed under its own id. *)
Definition keyed {A} (key : A → string) (m : gmap string A) : Prop :=
  map_Forall (λ k item, key item = k) m.

(** The sync state of the design, and the markers that stand for it. *)
Inductive SyncTag := pendingCreate | pendingUpdate | pendingDelete.

Definition tags_held (r : Routine.t) : list SyncTag :=
  (if Routine._isOffline r then [pendingCreate] else [])
  ++ (if Routine._isOfflineUpdated r then [pendingUpdate] else [])
  ++ (if Routine._isOfflineDeleted r then [pendingDelete] else []).

Definition slot_tags_held (s : Slot.t) : list SyncTag :=
  (if Slot._isOffline s then [pendingCreate] else [])
  ++ (if Slot._isOfflineUpdated s then [pendingUpdate] else [])
  ++ (if Slot._isOfflineDeleted s then [pendingDelete] else []).

(** Every marker set on [a] is set on [b]. *)
Definition markers_kept (a b : Routine.t) : Prop :=
  (Routine._isOffline a → Routine._isOffline b)
  ∧ (Routine._isOfflineUpdated a → Routine._isOfflineUpdated b)
  ∧ (Routine._isOfflineDeleted a → Routine._isOfflineDeleted b).

Definition slot_markers_kept (a b : Slot.t) : Prop :=
  Slot.id a = Slot.id b
  ∧ (Slot._isOffline a → Slot._isOffline b)
  ∧ (Slot._isOfflineUpdated a → Slot._isOfflineUpdated b)
  ∧ (Slot._isOfflineDeleted a → Slot._isOfflineDeleted b).

(** No marker on the slot, resp. on the routine or any of its slots. *)
Definition slot_unmarked (s : Slot.t) : bool :=
  negb (Slot._isOffline s || Slot._isOfflineUpdated s || Slot._isOfflineDeleted s).

Definition unmarked (r : Routine.t) : bool :=
  negb (Routine._isOffline r || Routine._isOfflineUpdated r || Routine._isOfflineDeleted r)
  && forallb slot_unmarked (default [] (Routine.slots r)).

(** The calls one pass of [syncOfflineChanges] makes for a slot and for a
    routine, read off the markers alone. *)
Definition slot_requests (routine : Routine.t) (slot : Slot.t) : list Request :=
  if Slot._isOfflineDeleted slot then [DeleteRoutineSlot (Routine.id routine) (Slot.id slot)]
  else if Slot._isOffline slot then
    [AddRoutineSlot (Routine.id routine) (delete "createdAt" (Slot.fields slot))]
  else if Slot._isOfflineUpdated slot then
    [UpdateRoutineSlot (Routine.id routine) (Slot.id slot) (Slot.fields slot)]
  else [].

Definition routine_requests (routine : Routine.t) : list Request :=
  if Routine._isOfflineDeleted routine then [DeleteRoutine (Routine.id routine)]
  else if Routine._isOffline routine then [CreateRoutine (Routine.fields routine)]
  else
    (if Routine._isOfflineUpdated routine
     then [UpdateRoutine (Routine.id routine) (Routine.fields routine)] else [])
    ++ flat_map (slot_requests routine) (default [] (Routine.slots routine)).

(** The local mutations of the two hooks. *)
Inductive Mutation :=
| CreateTaskM (newTask : Fields)
| UpdateTaskM (taskId : string) (updates : Fields)
| DeleteTaskM (taskId : string)
| CreateRoutineM (routine : Fields)
| UpdateRoutineM (id : string) (updates : Fields)
| DeleteRoutineM (id : string)
| AddSlotM (routineId : string) (slot : Fields)
| UpdateSlotM (routineId slotId : string) (updates : Fields)
| DeleteSlotM (routineId slotId : string).

(** The service call a mutation makes when it is issued online by [uid]. *)
Definition request_of (uid : string) (m : Mutation) : Request :=
  match m with
  | CreateTaskM newTask => CreateTask uid newTask
  | UpdateTaskM taskId updates => UpdateTask taskId updates
  | DeleteTaskM taskId => DeleteTask taskId
  | CreateRoutineM routine => CreateRoutine routine
  | UpdateRoutineM id updates => UpdateRoutine id updates
  | DeleteRoutineM id => DeleteRoutine id
  | AddSlotM routineId slot => AddRoutineSlot routineId slot
  | UpdateSlotM routineId slotId updates => UpdateRoutineSlot routineId slotId updates
  | DeleteSlotM routineId slotId => DeleteRoutineSlot routineId slotId
  end.

(** The mutations that touch a record already stored. *)
Definition is_edit (m : Mutation) : bool :=
  match m with
  | UpdateRoutineM _ _ | DeleteRoutineM _ | UpdateSlotM _ _ _ | DeleteSlotM _ _ => true
  | _ => false
  end.

(** The delete of the routine [id]. *)
Definition deletes_routine (id : string) (m : Mutation) : bool :=
  match m with
  | DeleteRoutineM id' => eqb_id id' id
  | _ => false
  end.

Section Runs.
Context {Srv : Type} (serve : Srv → ∀ q : Request, Srv * (string + Reply q)).

(** Await [m] and keep only how it settled. *)
Definition settle {A} (m : Async Srv A) : Async Srv unit := let* _ := m in ret tt.

Definition run_mutation (userId : option string) (isOffline : bool) (clock : Clock)
    (m : Mutation) : Async Srv unit :=
  match m with
  | CreateTaskM newTask => settle (handleCreateTask serve userId isOffline clock newTask)
  | UpdateTaskM taskId updates =>
      settle (handleUpdateTask serve userId isOffline clock taskId updates)
  | DeleteTaskM taskId => settle (handleDeleteTask serve isOffline taskId)
  | CreateRoutineM routine => settle (createRoutine serve isOffline clock routine)
  | UpdateRoutineM id updates => updateRoutine serve isOffline id updates
  | DeleteRoutineM id => deleteRoutine serve isOffline id
  | AddSlotM routineId slot => settle (addRoutineSlot serve isOffline clock routineId slot)
  | UpdateSlotM routineId slotId updates =>
      updateRoutineSlot serve isOffline routineId slotId updates
  | DeleteSlotM routineId slotId => deleteRoutineSlot serve isOffline routineId slotId
  end.

(** Mutations issued one after the other, each awaited, while offline. *)
Definition run_offline (userId : option string) (clock : Clock) (ms : list Mutation)
    (w : World Srv) : World Srv :=
  foldl (λ w m, (run_mutation userId true clock m w).2) w ms.

(** The online load of tasks does not get its data: the connection test
    rejects or answers [false], or the fetch rejects. *)
Definition fetch_fails (uid : string) (w : World Srv) : bool :=
  match serve (srv w) TestConnection with
  | (_, inl _) => true
  | (_, inr false) => true
  | (s, inr true) =>
      match serve s (FetchTasks uid) with
      | (_, inl _) => true
      | (_, inr _) => false
      end
  end.

End Runs.

(** The stored routine after [updateRoutineSlot], resp. [deleteRoutineSlot],
    ran offline on it. *)
Definition markSlotUpdated (slotId : string) (updates : Fields) (routine : Routine.t)
  : Routine.t :=
  Routine.with_slots
    (mapSlot slotId (λ slot, Slot.with_isOfflineUpdated true (mergeSlot updates slot)) routine)
    routine.

Definition markSlotDeleted (slotId : string) (routine : Routine.t) : Routine.t :=
  Routine.with_slots
    (List.filter (λ slot, negb (slotHasId slotId slot && Slot._isOffline slot))
       <$> mapSlot slotId (Slot.with_isOfflineDeleted true) routine)
    routine.

(** [b] is a later state of the stored routine [a]: its markers are kept and
    every slot it still has comes from a slot of [a], markers kept. *)
Definition evolves (a b : Routine.t) : Prop :=
  markers_kept a b
  ∧ ∀ s', s' ∈ default [] (Routine.slots b) →
      ∃ s, s ∈ default [] (Routine.slots a) ∧ slot_markers_kept s s'.

(** How many times [q] occurs among the requests [l]. *)
Definition times (q : Request) (l : list Request) : nat :=
  length (List.filter (λ x, bool_decide (x = q)) l).

(** The two calls of a load of tasks. *)
Definition load_request (q : Request) : Prop :=
  q = TestConnection ∨ ∃ uid, q = FetchTasks uid.

(** [w'] is [w] after the calls [l]: only the service and the log moved. *)
Definition after_calls {Srv} (w : World Srv) (l : list (Request * bool)) (w' : World Srv)
  : Prop :=
  ∃ s, w' = set_log (log w ++ l) (set_srv s w).

(** After the routine created offline was confirmed: nothing under its
    provisional id is left among the synced routines, the confirmed record
    is among them, and a change is recorded. *)
Definition settled (tid : string) (confirmed : Routine.t) (acc : list Routine.t * bool) : Prop :=
  (∀ x, x ∈ acc.1 → Routine.id x ≠ tid) ∧ confirmed ∈ acc.1 ∧ acc.2 = true.

(** ** Scenarios *)

Definition online := scripted never [] [].
Definition unreachable := scripted (λ _, true) [] [].
Definition updatesRejected :=
  scripted (λ q, match q with UpdateRoutine _ _ => true | _ => false end) [] [].

Definition tempRoutineId : string := "temp-1736500000000-k3x9q2a".
Definition tempTaskId : string := "temp_1736500000000_k3x9q2a".

Definition spring : Fields := <["name" := VStr "Spring"]> ∅.
Definition autumn : Fields := <["name" := VStr "Autumn"]> ∅.

Definition task7 : Task.t := Task.mk "srv-7" labReport (Some "alice").
Definition staleTask : Task.t :=
  Task.mk "srv-1" (<["title" := VStr "Old essay"]> ∅) (Some "alice").
Definition freshTask : Task.t := Task.mk "srv-2" labReport None.
Definition bobsTask : Task.t :=
  Task.mk "srv-3" (<["title" := VStr "Quiz"]> ∅) (Some "bob").

(** One synced routine and one synced task, stored and shown. *)
Definition synced7 : World unit :=
  set_tasks [task7]
    (set_idb_tasks {[ "srv-7" := task7 ]}
       (set_routines [srv7] (set_idb_routines {[ "srv-7" := srv7 ]} world0))).

(** Offline create of a task, then reconnect. *)
Definition taskCreated : World unit :=
  (handleCreateTask online alice true clock0 labReport world0).2.
Definition taskReconciled : World unit :=
  (syncOfflineChanges_tasks online alice false taskCreated).2.

(** Offline create of a routine, then reconnect. *)
Definition routineCreated : World unit := (createRoutine online true clock0 spring world0).2.
Definition routineReconciled : World unit := (syncOfflineChanges online false routineCreated).2.

(** The routine created offline is edited before the connection returns. *)
Definition routineEdited : World unit :=
  (updateRoutine online true tempRoutineId autumn routineCreated).2.

(** A task cached earlier is no longer on the server. *)
Definition cached : World unit :=
  set_tasks [staleTask] (set_idb_tasks {[ "srv-1" := staleTask ]} world0).
Definition refetch :=
  scripted never [freshTask] [("srv-8", autumn, Some [("slot-1", spring)])].
Definition reloaded : World unit := (loadTasks refetch alice false cached).2.

(** Offline delete of the synced task and of the synced routine, then reconnect. *)
Definition task7Deleted : World unit := (handleDeleteTask online true "srv-7" synced7).2.
Definition task7Reconciled : World unit :=
  (syncOfflineChanges_tasks online alice false task7Deleted).2.
Definition routine7Deleted : World unit := (deleteRoutine online true "srv-7" synced7).2.
Definition routine7Reconciled : World unit :=
  (syncOfflineChanges online false routine7Deleted).2.

(** Local Store holding one routine marked for deletion. *)
Definition markedForDeletion : World unit :=
  set_idb_routines {[ "srv-7" := Routine.with_isOfflineDeleted true srv7 ]} world0.

(** Local Store holding a routine marked for deletion and one marked updated. *)
Definition twoMarked : World unit :=
  set_idb_routines
    (<["srv-7" := Routine.with_isOfflineDeleted true srv7]>
       (<["srv-8" := Routine.with_isOfflineUpdated true srv8]> ∅))
    world0.

(** What [createRoutine] returns offline at [clock0] for [spring]. *)
Definition createdOffline : Routine.t :=
  Routine.mk tempRoutineId (<["createdAt" := VStr (toISOString clock0)]> spring)
    (Some []) true false false.

(** Offline edits of the routine created offline. *)
Definition edits : list Mutation :=
  [UpdateRoutineM tempRoutineId autumn;
   DeleteSlotM tempRoutineId "slot-1";
   DeleteRoutineM tempRoutineId].

(** Local Store holding tasks of two users. *)
Definition sharedDevice : World unit :=
  set_idb_tasks (<["srv-7" := task7]> (<["srv-3" := bobsTask]> ∅)) world0.

(** ** Further functions of the sources *)

(** [obj.prop] read as a condition: absent, [false] and [''] are falsy. *)
Definition isTruthy (v : option value) : bool :=
  match v with
  | Some (VBool b) => b
  | Some (VStr s) => negb (bool_decide (s = ""))
  | None => false
  end.

Definition isActive (routine : Routine.t) : bool :=
  isTruthy (Routine.fields routine !! "isActive").

(** [{ isActive: b }] *)
Definition activeFlag (b : bool) : Fields := {[ "isActive" := VBool b ]}.

(** [{ ...routine, isActive: routine.id === routineId }], and when offline
    also [_needsActivationSync: routine.id === routineId ? true : undefined];
    a property set to [undefined] is kept as an absent one. *)
Definition setActive (offline : bool) (routineId : string) (routine : Routine.t)
  : Routine.t :=
  let active := hasId routineId routine in
  let fields := <["isActive" := VBool active]> (Routine.fields routine) in
  Routine.with_fields
    (if offline then
       if active then <["_needsActivationSync" := VBool true]> fields
       else delete "_needsActivationSync" fields
     else fields)
    routine.

(** [{ ...routine, isActive: routine.id === routineId ? false : routine.isActive }],
    and when offline also
    [_needsDeactivationSync: routine.id === routineId ? true : undefined]. *)
Definition setInactive (offline : bool) (routineId : string) (routine : Routine.t)
  : Routine.t :=
  let target := hasId routineId routine in
  let fields :=
    if target then <["isActive" := VBool false]> (Routine.fields routine)
    else Routine.fields routine in
  Routine.with_fields
    (if offline then
       if target then <["_needsDeactivationSync" := VBool true]> fields
       else delete "_needsDeactivationSync" fields
     else fields)
    routine.

Section Further.
Context {Srv : Type}.
Context (serve : Srv → ∀ q : Request, Srv * (string + Reply q)).

(** *** offlineStorage.ts, continued *)

(** The promise around [store.clear()]. *)
Definition request_clear {A} (store : Store Srv A) : Async Srv unit :=
  λ w, match idb_status w with
       | Healthy => (Resolved tt, set_contents store ∅ w)
       | OpenFails error | RequestFails error => (Rejected error, w)
       end.

Definition clearIndexedDBStore {A} (store : Store Srv A) : Async Srv unit :=
  let* promise :=
    try_catch (let* db := initDB in ret (request_clear store))
              (λ error, throw error) in
  promise.

(** *** useTasks.ts: [loadTasks] with its retry timer

    [loadTasks] once more, now resolving to the delay it passed to
    [setTimeout], if it set the timer; [retryCount] is the hook's state at
    the render in which the function was created, and the callback of the
    timer increments it. *)
Definition loadTasks_timed (userId : option string) (isOffline : bool) (retryCount : N)
  : Async Srv (option N) :=
  match truthy userId with
  | None => ret None
  | Some uid =>
    try_finally
      (try_catch
        (modify (set_tasksLoading true);;;
         modify (set_tasksError None);;;
         (if isOffline then
            let* offlineTasks := getAllFromIndexedDB STORES_TASKS in
            let userTasks := List.filter (ownedBy uid) offlineTasks in
            setTasks (λ _, userTasks)
          else
            let* isConnected := testConnection serve in
            if negb isConnected then throw "Unable to connect to database"
            else
              let* data := fetchTasks serve uid in
              setTasks (λ _, data);;;
              let tasksWithUserId := map (Task.with_userId (Some uid)) data in
              saveToIndexedDB STORES_TASKS (Many tasksWithUserId));;;
         ret None)
        (λ err,
           modify (set_tasksError (Some (or_else err "Failed to load tasks")));;;
           (if negb isOffline then
              try_catch
                (let* offlineTasks := getAllFromIndexedDB STORES_TASKS in
                 let userTasks := List.filter (ownedBy uid) offlineTasks in
                 if bool_decide (0 < length userTasks) then
                   setTasks (λ _, userTasks);;;
                   modify (set_tasksError None)
                 else ret tt)
                (λ offlineErr, ret tt)
            else ret tt);;;
           if negb isOffline && bool_decide (retryCount < 3)%N then
             let timeout := N.min (1000 * 2 ^ retryCount) 10000 in
             ret (Some timeout)
           else ret None))
      (modify (set_tasksLoading false))
  end.

(** *** routine.service.ts: activation *)

Definition activateRoutineService (routineId : string) : Async Srv unit :=
  try_catch
    (let* routines := fetchRoutines serve in
     for_of routines
       (λ _ routine,
          if isActive routine && negb (hasId routineId routine)
          then updateRoutineService serve (Routine.id routine) (activeFlag false)
          else ret tt)
       tt;;;
     updateRoutineService serve routineId (activeFlag true))
    (λ error, throw error).

Definition deactivateRoutineService (routineId : string) : Async Srv unit :=
  try_catch (updateRoutineService serve routineId (activeFlag false))
            (λ error, throw error).

(** *** useRoutines: activation *)

Definition activateRoutine (isOffline : bool) (routineId : string) : Async Srv unit :=
  try_catch
    (modify (set_routinesError None);;;
     if isOffline then
       setRoutines (map (setActive true routineId));;;
       let* existingRoutines := getAllFromIndexedDB STORES_ROUTINES in
       let updatedRoutines := map (setActive true routineId) existingRoutines in
       saveToIndexedDB STORES_ROUTINES (Many updatedRoutines)
     else
       activateRoutineService routineId;;;
       setRoutines (map (setActive false routineId));;;
       let* existingRoutines := getAllFromIndexedDB STORES_ROUTINES in
       let updatedRoutines := map (setActive false routineId) existingRoutines in
       saveToIndexedDB STORES_ROUTINES (Many updatedRoutines))
    (λ err, modify (set_routinesError (Some err));;; throw err).

Definition deactivateRoutine (isOffline : bool) (routineId : string) : Async Srv unit :=
  try_catch
    (modify (set_routinesError None);;;
     if isOffline then
       setRoutines (map (setInactive true routineId));;;
       let* existingRoutines := getAllFromIndexedDB STORES_ROUTINES in
       let updatedRoutines := map (setInactive true routineId) existingRoutines in
       saveToIndexedDB STORES_ROUTINES (Many updatedRoutines)
     else
       deactivateRoutineService routineId;;;
       setRoutines (map (setInactive false routineId));;;
       let* existingRoutines := getAllFromIndexedDB STORES_ROUTINES in
       let updatedRoutines := map (setInactive false routineId) existingRoutines in
       saveToIndexedDB STORES_ROUTINES (Many updatedRoutines))
    (λ err, modify (set_routinesError (Some err));;; throw err).

(** *** App.tsx: the reconnect handler *)

Definition syncAllOfflineChanges (userId : option string) (isOffline : bool)
  : Async Srv unit :=
  try_catch
    (syncOfflineChanges_tasks serve userId isOffline;;;
     syncOfflineChanges serve isOffline)
    (λ error, ret tt).

End Further.

(** *** App.tsx: what the home page derives from [tasks] *)

Definition hasStatus (status : string) (task : Task.t) : bool :=
  bool_decide (Task.fields task !! "status" = Some (VStr status)).

Definition inCategory (category : string) (task : Task.t) : bool :=
  bool_decide (Task.fields task !! "category" = Some (VStr category)).

Inductive StatFilter := AllTasks | Overdue | InProgress | Completed.

Record TaskStats := mkTaskStats {
  total : nat;
  inProgress : nat;
  completed : nat;
  overdue : nat }.

(** The property name under which [acc[task.category]] is filed. *)
Definition categoryKey (task : Task.t) : string :=
  match Task.fields task !! "category" with
  | Some (VStr category) => category
  | Some (VBool true) => "true"
  | Some (VBool false) => "false"
  | None => "undefined"
  end.

(** The names of the properties that the plain object [{}] inherits from
    [Object.prototype]: [__proto__] is an accessor, the others are
    functions. *)
Definition objectPrototypeKeys : list string :=
  ["__proto__"; "constructor"; "hasOwnProperty"; "isPrototypeOf";
   "propertyIsEnumerable"; "toLocaleString"; "toString"; "valueOf";
   "__defineGetter__"; "__defineSetter__"; "__lookupGetter__"; "__lookupSetter__"].

(** What [acc] holds under a key as its own property: a number, or a
    string, namely the text of an inherited function followed by [ones]
    times the digit 1. *)
Inductive Filed := Count (n : nat) | Text (ones : nat).

(** [acc[key] = (acc[key] || 0) + 1] on an object that began as [{}].  An
    own number is incremented; to an own string, which is truthy, [+ 1]
    appends a 1.  Where [acc] has no own property, [acc[key]] reads the
    inherited one if there is one: it is an object, hence truthy, and
    [+ 1] turns it into a string; the assignment then creates an own
    property, except under [__proto__], whose setter ignores a string. *)
Definition fileUnder (acc : gmap string Filed) (key : string) : gmap string Filed :=
  match acc !! key with
  | Some (Count n) => <[key := Count (n + 1)]> acc
  | Some (Text ones) => <[key := Text (ones + 1)]> acc
  | None =>
      if bool_decide (key = "__proto__") then acc
      else if bool_decide (key ∈ objectPrototypeKeys) then <[key := Text 1]> acc
      else <[key := Count 1]> acc
  end.

(** [tasks.reduce((acc, task) =>
      { acc[task.category] = (acc[task.category] || 0) + 1; return acc }, {})] *)
Definition categoryCounts (tasks : list Task.t) : gmap string Filed :=
  foldl (λ acc task, fileUnder acc (categoryKey task)) ∅ tasks.

Section Stats.
(** [isOverdue] of utils/dateUtils, applied to [task.dueDate]. *)
Context (isOverdue : option value → bool).

Definition overdueOpen (task : Task.t) : bool :=
  isOverdue (Task.fields task !! "dueDate") && negb (hasStatus "completed" task).

Definition getFilteredTasks (tasks : list Task.t) (selectedCategory : option string)
    (statFilter : StatFilter) : list Task.t :=
  let filtered :=
    match truthy selectedCategory with
    | Some category => List.filter (inCategory category) tasks
    | None => tasks
    end in
  match statFilter with
  | Overdue => List.filter overdueOpen filtered
  | InProgress => List.filter (hasStatus "in-progress") filtered
  | Completed => List.filter (hasStatus "completed") filtered
  | AllTasks => filtered
  end.

Definition taskStats (tasks : list Task.t) : TaskStats :=
  mkTaskStats (length tasks)
    (length (List.filter (hasStatus "in-progress") tasks))
    (length (List.filter (hasStatus "completed") tasks))
    (length (List.filter overdueOpen tasks)).

End Stats.

(** [store] behaves as an object store of the database: what is written to
    it is what it then contains, and writing does not change how the
    database behaves. *)
Definition object_store {Srv A} (store : Store Srv A) : Prop :=
  ∀ m w, contents store (set_contents store m w) = m
         ∧ idb_status (set_contents store m w) = idb_status w.

(** [m] makes no call to the remote service. *)
Definition quiet {Srv A} (m : Async Srv A) : Prop :=
  ∀ w, srv (m w).2 = srv w ∧ log (m w).2 = log w.

(** A logged call that the service rejected. *)
Definition rejected (c : Request * bool) : bool := negb c.2.

(** The calls by which [activateRoutine] of the service deactivates the
    other active routines among the fetched [routines], and the whole
    sequence of calls it sets out to make when the fetch returns [rows]. *)
Definition deactivations (routineId : string) (routines : list Routine.t) : list Request :=
  flat_map
    (λ routine,
       if isActive routine && negb (hasId routineId routine)
       then [UpdateRoutine (Routine.id routine) (activeFlag false)] else [])
    routines.

Definition activation_plan (routineId : string) (rows : list RoutineRow) : list Request :=
  FetchRoutines :: deactivations routineId (map routine_of_row rows)
    ++ [UpdateRoutine routineId (activeFlag true)].

(** The calls [l] made for [plan] by a function that awaits each call and
    gives up at the first rejection: all of [plan], accepted, when it
    resolved; otherwise an accepted part of [plan] and the rejected call
    after it. *)
Definition stops_at_first_rejection (plan : list Request) (resolved : bool)
    (l : list (Request * bool)) : Prop :=
  if resolved then l = map (λ q, (q, true)) plan
  else ∃ before q after,
         plan = before ++ q :: after ∧ l = map (λ q, (q, true)) before ++ [(q, false)].

(** The number a stat card of the home page shows; clicking the card
    selects the stat filter it is paired with here. *)
Definition cardCount (statFilter : StatFilter) (stats : TaskStats) : nat :=
  match statFilter with
  | AllTasks => total stats
  | Overdue => overdue stats
  | InProgress => inProgress stats
  | Completed => completed stats
  end.

(** ** Further scenarios *)

(** The database refuses every request. *)
Definition brokenDB : World unit := set_idb_status (RequestFails "QuotaExceededError") synced7.

(** A routine with a synced slot and a slot added offline, stored and shown. *)
Definition mondaySlot : Slot.t :=
  Slot.mk "slot-1" "srv-7" (<["day" := VStr "Monday"]> ∅) false false false.
Definition draftSlot : Slot.t :=
  Slot.mk "temp-slot-1736400000000-p0q1r2s" "srv-7" (<["day" := VStr "Friday"]> ∅)
    true false false.
Definition timetable : Routine.t := Routine.with_slots (Some [mondaySlot; draftSlot]) srv7.
Definition withTimetable : World unit :=
  set_routines [timetable] (set_idb_routines {[ "srv-7" := timetable ]} world0).

(** Offline edits of that routine and of its two slots. *)
Definition slotEdits : list Mutation :=
  [UpdateSlotM "srv-7" "slot-1" autumn;
   DeleteSlotM "srv-7" "slot-1";
   UpdateSlotM "srv-7" (Slot.id draftSlot) spring;
   UpdateRoutineM "srv-7" autumn;
   DeleteRoutineM "srv-7"].

(** Two routines, the first of them active: on the service, and cached. *)
Definition activeSpring : Fields := <["isActive" := VBool true]> spring.
Definition active7 : Routine.t := Routine.with_fields activeSpring srv7.
Definition twoOnServer :=
  scripted never [] [("srv-7", activeSpring, Some []); ("srv-8", autumn, Some [])].
Definition twoCached : World unit :=
  set_routines [active7; srv8]
    (set_idb_routines (<["srv-7" := active7]> (<["srv-8" := srv8]> ∅)) world0).

(** * Facts *)

Lemma elem_of_map {A B} (f : A → B) (l : list A) (x : B) :
  x ∈ map f l ↔ ∃ y, x = f y ∧ y ∈ l.
Proof. apply (list_elem_of_fmap f l x). Qed.

Section StoreFacts.
Context {A : Type} (key : A → string).
Implicit Types (m : gmap string A) (l : list A).

Lemma foldl_put_snoc m l x :
  foldl (put key) m (l ++ [x]) = <[key x := x]> (foldl (put key) m l).
Proof. by rewrite foldl_app. Qed.

Lemma lookup_foldl_put_notin m l k :
  k ∉ map key l → foldl (put key) m l !! k = m !! k.
Proof.
  revert m. induction l as [|x l IH]; intros m Hk; [done|].
  cbn in Hk. apply not_elem_of_cons in Hk as [Hne Hk].
  cbn. rewrite IH by done. unfold put. by rewrite lookup_insert_ne.
Qed.

Lemma lookup_foldl_put_in m l k :
  k ∈ map key l → ∃ x, x ∈ l ∧ key x = k ∧ foldl (put key) m l !! k = Some x.
Proof.
  revert m. induction l as [|x l IH]; intros m Hk; [by apply elem_of_nil in Hk|].
  destruct (decide (k ∈ map key l)) as [Hin|Hnot].
  - destruct (IH (put key m x) Hin) as (y & Hy & Hky & Hl).
    exists y. split; [by right|]. done.
  - cbn in Hk. apply elem_of_cons in Hk as [->|Hk]; [|done].
    exists x. split; [by left|]. split; [done|].
    cbn. rewrite lookup_foldl_put_notin by done. unfold put. by rewrite lookup_insert_eq.
Qed.

Lemma lookup_foldl_put_nodup m l x :
  NoDup (map key l) → x ∈ l → foldl (put key) m l !! key x = Some x.
Proof.
  revert m. induction l as [|y l IH]; intros m Hnd Hx; [by apply elem_of_nil in Hx|].
  cbn in Hnd. apply NoDup_cons in Hnd as [Hy Hnd].
  apply elem_of_cons in Hx as [->|Hx].
  - cbn. rewrite lookup_foldl_put_notin by done. unfold put. by rewrite lookup_insert_eq.
  - cbn. by apply IH.
Qed.

Lemma keyed_put m x : keyed key m → keyed key (put key m x).
Proof. intros Hm. unfold put. by apply map_Forall_insert_2. Qed.

Lemma keyed_foldl_put m l : keyed key m → keyed key (foldl (put key) m l).
Proof. revert m. induction l as [|x l IH]; intros m Hm; [done|]. cbn. by apply IH, keyed_put. Qed.

Lemma keyed_put_data m d : keyed key m → keyed key (put_data key m d).
Proof. destruct d; [apply keyed_put | apply keyed_foldl_put]. Qed.

Lemma keyed_delete m k : keyed key m → keyed key (delete k m).
Proof. intros Hm. by apply map_Forall_delete. Qed.

Lemma elem_of_getAll m x : x ∈ store_getAll m ↔ ∃ k, m !! k = Some x.
Proof.
  unfold store_getAll. rewrite list_elem_of_fmap. split.
  - intros ([k y] & -> & Hin). exists k. by apply elem_of_map_to_list.
  - intros (k & Hk). exists (k, x). split; [done|]. by apply elem_of_map_to_list.
Qed.

Lemma getAll_keys m : keyed key m → map key (store_getAll m) = (map_to_list m).*1.
Proof.
  intros Hm. unfold store_getAll. rewrite <-list_fmap_compose.
  apply list_fmap_ext. intros i [k x] Hi. cbn.
  apply (Hm k x). apply elem_of_map_to_list. by eapply list_elem_of_lookup_2.
Qed.

Lemma getAll_NoDup m : keyed key m → NoDup (map key (store_getAll m)).
Proof. intros Hm. rewrite getAll_keys by done. apply NoDup_fst_map_to_list. Qed.

Lemma getAll_lookup m x : keyed key m → x ∈ store_getAll m ↔ m !! key x = Some x.
Proof.
  intros Hm. rewrite elem_of_getAll. split.
  - intros (k & Hk). by rewrite (Hm k x Hk).
  - eauto.
Qed.

Lemma getAll_key_elem m k : keyed key m → k ∈ map key (store_getAll m) ↔ is_Some (m !! k).
Proof.
  intros Hm. change (map key (store_getAll m)) with (key <$> store_getAll m).
  rewrite list_elem_of_fmap. split.
  - intros (x & -> & Hx). apply getAll_lookup in Hx; eauto.
  - intros [x Hx]. exists x. split; [by rewrite (Hm k x Hx)|]. apply elem_of_getAll; eauto.
Qed.

Lemma findEntry_Some (p : A → bool) l i x :
  findEntry p l = Some (i, x) → l !! i = Some x ∧ p x = true.
Proof.
  revert i. induction l as [|y l IH]; intros i; [done|]. cbn.
  destruct (p y) eqn:Hp.
  - intros [= <- <-]. done.
  - destruct (findEntry p l) as [[j z]|]; [|done]. cbn. intros [= <- <-]. by apply IH.
Qed.

Lemma findEntry_None (p : A → bool) l :
  findEntry p l = None ↔ ∀ x, x ∈ l → p x = false.
Proof.
  induction l as [|y l IH]; cbn.
  - split; [intros _ x Hx; by apply elem_of_nil in Hx | done].
  - destruct (p y) eqn:Hp.
    + split; [done|]. intros H. specialize (H y (list_elem_of_here _ _)). congruence.
    + destruct (findEntry p l) as [[j z]|] eqn:Hf; cbn.
      * split; [done|]. intros H. exfalso.
        assert (Some (j, z) = None) as Habs; [|done].
        apply IH. intros x Hx. apply H. by right.
      * split; [|done]. intros _ x Hx. apply elem_of_cons in Hx as [->|Hx]; [done|].
        by apply IH.
Qed.

Lemma findEntry_unique (p : A → bool) l x :
  x ∈ l → p x = true → (∀ y, y ∈ l → p y = true → y = x) →
  ∃ i, findEntry p l = Some (i, x).
Proof.
  intros Hx Hp Huniq. destruct (findEntry p l) as [[i y]|] eqn:Hf.
  - apply findEntry_Some in Hf as [Hi Hy]. exists i.
    by rewrite (Huniq y (list_elem_of_lookup_2 _ _ _ Hi) Hy).
  - pose proof (proj1 (findEntry_None p l) Hf x Hx). congruence.
Qed.

Lemma findEntry_stored m k x :
  keyed key m → m !! k = Some x →
  ∃ i, findEntry (λ y, eqb_id (key y) k) (store_getAll m) = Some (i, x).
Proof.
  intros Hm Hk. apply findEntry_unique.
  - apply elem_of_getAll; eauto.
  - unfold eqb_id. apply bool_decide_eq_true. by apply (Hm k x).
  - intros y Hy Hyk. unfold eqb_id in Hyk. apply bool_decide_eq_true in Hyk.
    apply (getAll_lookup m y Hm) in Hy. rewrite Hyk in Hy. congruence.
Qed.

Lemma findEntry_not_stored m k :
  keyed key m → m !! k = None →
  findEntry (λ y, eqb_id (key y) k) (store_getAll m) = None.
Proof.
  intros Hm Hk. apply findEntry_None. intros y Hy.
  unfold eqb_id. apply bool_decide_eq_false. intros <-.
  apply (getAll_lookup m y Hm) in Hy. congruence.
Qed.

Lemma foldl_put_getAll_insert m i x x' :
  keyed key m → store_getAll m !! i = Some x → key x' = key x →
  foldl (put key) m (<[i := x']> (store_getAll m)) = <[key x := x']> m.
Proof.
  intros Hm Hi Hkey.
  assert (Hkeys : map key (<[i := x']> (store_getAll m)) = map key (store_getAll m)).
  { change (key <$> <[i:=x']> (store_getAll m) = key <$> store_getAll m).
    rewrite list_fmap_insert. apply list_insert_id.
    rewrite list_lookup_fmap, Hi. cbn. by rewrite Hkey. }
  assert (Hx' : x' ∈ <[i := x']> (store_getAll m)).
  { apply list_elem_of_lookup. exists i. apply list_lookup_insert_eq.
    by eapply lookup_lt_Some. }
  apply map_eq. intros k. destruct (decide (k = key x)) as [->|Hne].
  - rewrite lookup_insert_eq, <-Hkey. apply lookup_foldl_put_nodup; [|done].
    rewrite Hkeys. by apply getAll_NoDup.
  - rewrite lookup_insert_ne by done.
    destruct (decide (k ∈ map key (<[i := x']> (store_getAll m)))) as [Hin|Hnot].
    + destruct (lookup_foldl_put_in m _ k Hin) as (y & Hy & Hky & ->).
      apply list_elem_of_lookup in Hy as [j Hj].
      destruct (decide (i = j)) as [->|Hij].
      * rewrite list_lookup_insert_eq in Hj by (by eapply lookup_lt_Some).
        injection Hj as <-. congruence.
      * rewrite list_lookup_insert_ne in Hj by done.
        apply list_elem_of_lookup_2, (getAll_lookup m y Hm) in Hj. by rewrite <-Hky.
    + rewrite lookup_foldl_put_notin by done. done.
Qed.

Lemma foldl_put_is_Some m l k :
  is_Some (m !! k) → is_Some (foldl (put key) m l !! k).
Proof.
  revert m. induction l as [|x l IH]; intros m Hk; [done|]. cbn. apply IH.
  unfold put. rewrite lookup_insert. by case_decide.
Qed.

End StoreFacts.

Lemma times_app q l1 l2 : times q (l1 ++ l2) = times q l1 + times q l2.
Proof. unfold times. by rewrite List.filter_app, length_app. Qed.

Lemma times_slot_requests id routine slots :
  times (DeleteRoutine id) (flat_map (slot_requests routine) slots) = 0.
Proof.
  induction slots as [|s slots IH]; [done|]. cbn [flat_map]. rewrite times_app, IH.
  unfold slot_requests. by repeat case_match.
Qed.

Lemma times_delete_other id r :
  Routine.id r ≠ id → times (DeleteRoutine id) (routine_requests r) = 0.
Proof.
  intros Hne. unfold routine_requests.
  destruct (Routine._isOfflineDeleted r).
  { unfold times. cbn. case_bool_decide; [congruence|done]. }
  destruct (Routine._isOffline r); [done|].
  rewrite times_app, times_slot_requests. by destruct (Routine._isOfflineUpdated r).
Qed.

Lemma times_delete_others id l :
  (∀ x, x ∈ l → Routine.id x ≠ id) →
  times (DeleteRoutine id) (flat_map routine_requests l) = 0.
Proof.
  induction l as [|x l IH]; intros H; [done|]. cbn [flat_map].
  rewrite times_app, times_delete_other, IH; [done| |].
  - intros y Hy. apply H. by right.
  - apply H. by left.
Qed.

Lemma times_delete_marked id l r :
  NoDup (map Routine.id l) → r ∈ l → Routine.id r = id →
  Routine._isOfflineDeleted r = true →
  times (DeleteRoutine id) (flat_map routine_requests l) = 1.
Proof.
  intros Hnd Hr Hid Hdel. apply list_elem_of_split in Hr as (l1 & l2 & ->).
  rewrite map_app in Hnd. cbn in Hnd.
  apply NoDup_app in Hnd as (_ & Hdisj & Hnd2). apply NoDup_cons in Hnd2 as [Hr2 _].
  rewrite flat_map_app. cbn [flat_map]. rewrite !times_app.
  rewrite !times_delete_others.
  - unfold routine_requests. rewrite Hdel. unfold times. cbn. rewrite Hid.
    by rewrite bool_decide_eq_true_2.
  - intros x Hx Heq. apply Hr2. apply elem_of_map. exists x. split; [congruence|done].
  - intros x Hx Heq. apply (Hdisj (Routine.id x)).
    + apply elem_of_map. eauto.
    + rewrite Heq, <-Hid. by left.
Qed.

Lemma elem_of_insert_inv {A} (l : list A) i v x : x ∈ <[i := v]> l → x = v ∨ x ∈ l.
Proof.
  intros Hx. apply list_elem_of_lookup in Hx as [j Hj].
  destruct (decide (i = j)) as [->|Hne].
  - destruct (decide (j < length l)) as [Hlt|Hge].
    + rewrite list_lookup_insert_eq in Hj by done. left. congruence.
    + rewrite list_insert_ge in Hj by lia. right. by eapply list_elem_of_lookup_2.
  - rewrite list_lookup_insert_ne in Hj by done. right. by eapply list_elem_of_lookup_2.
Qed.

Lemma elem_of_insert_keep {A} (l : list A) i v z x :
  x ∈ l → l !! i = Some z → z ≠ x → x ∈ <[i := v]> l.
Proof.
  intros Hx Hi Hne. apply list_elem_of_lookup in Hx as [j Hj].
  apply list_elem_of_lookup. exists j. rewrite list_lookup_insert_ne; [done|].
  intros ->. congruence.
Qed.

Lemma findIndex_Some {A} (p : A → bool) l i :
  findIndex p l = Some i → ∃ z, l !! i = Some z ∧ p z = true.
Proof.
  unfold findIndex. destruct (findEntry p l) as [[j z]|] eqn:Hf; [|done].
  intros [= <-]. exists z. by apply findEntry_Some in Hf.
Qed.

Lemma settled_insert tid confirmed acc i z v :
  settled tid confirmed acc → acc.1 !! i = Some z →
  Routine.id v ≠ tid → Routine.id z ≠ Routine.id confirmed →
  settled tid confirmed (<[i := v]> acc.1, true).
Proof.
  intros (H1 & H2 & H3) Hi Hv Hz. split; [|split; [|done]]; cbn.
  - intros x Hx. apply elem_of_insert_inv in Hx as [->|Hx]; auto.
  - eapply elem_of_insert_keep; [done|done|]. congruence.
Qed.

Lemma settled_filter tid confirmed acc id extra :
  settled tid confirmed acc → id ≠ Routine.id confirmed →
  (∀ x, x ∈ extra → Routine.id x ≠ tid) →
  settled tid confirmed (List.filter (λ r, negb (hasId id r)) acc.1 ++ extra, true).
Proof.
  intros (H1 & H2 & H3) Hid Hextra. split; [|split; [|done]]; cbn.
  - intros x Hx. apply elem_of_app in Hx as [Hx|Hx]; [|by apply Hextra].
    apply list_elem_of_In, filter_In in Hx as [Hx _]. by apply H1, list_elem_of_In.
  - apply elem_of_app. left. apply list_elem_of_In, filter_In. split; [by apply list_elem_of_In|].
    apply negb_true_iff, bool_decide_eq_false. congruence.
Qed.

Section Proofs.
Context {Srv : Type} (serve : Srv → ∀ q : Request, Srv * (string + Reply q)).
Implicit Types w : World Srv.

Lemma getAll_open_failure {A} (store : Store Srv A) w e :
  idb_status w = OpenFails e →
  getAllFromIndexedDB store w = (Resolved [], w).
Proof.
  intros H. unfold getAllFromIndexedDB, bind, try_catch, initDB, ret. rewrite H. reflexivity.
Qed.

Lemma getAll_request_failure {A} (store : Store Srv A) w e :
  getAllFromIndexedDB store (set_idb_status (RequestFails e) w)
  = (Rejected e, set_idb_status (RequestFails e) w).
Proof. reflexivity. Qed.

Lemma getAll_healthy {A} (store : Store Srv A) w :
  idb_status w = Healthy →
  getAllFromIndexedDB store w = (Resolved (store_getAll (contents store w)), w).
Proof.
  intros H. unfold getAllFromIndexedDB, bind, try_catch, initDB, ret, request_getAll. rewrite H; cbn; rewrite H. reflexivity.
Qed.

Lemma save_healthy {A} (store : Store Srv A) data w :
  idb_status w = Healthy →
  saveToIndexedDB store data w
  = (Resolved tt, set_contents store (put_data (key store) (contents store w) data) w).
Proof.
  intros H. unfold saveToIndexedDB, bind, try_catch, initDB, ret, transaction_put. rewrite H; cbn; rewrite H. reflexivity.
Qed.


(** C6.  A create, update or delete issued while online whose service call
    rejects: the operation rejects with the service's error, and both
    object stores and both in-memory views are as they were before the
    call.  Stated for the nine mutations of the two hooks. *)
Theorem online_rejection_leaves_no_trace userId uid clock m w s e :
  truthy userId = Some uid →
  serve (srv w) (request_of uid m) = (s, inl e) →
  (run_mutation serve userId false clock m w).1 = Rejected e
  ∧ idb_tasks (run_mutation serve userId false clock m w).2 = idb_tasks w
  ∧ idb_routines (run_mutation serve userId false clock m w).2 = idb_routines w
  ∧ tasks (run_mutation serve userId false clock m w).2 = tasks w
  ∧ routines (run_mutation serve userId false clock m w).2 = routines w.
Proof.
  intros Hu Hq.
  destruct m; cbn in Hq;
    unfold run_mutation, settle, handleCreateTask, handleUpdateTask, handleDeleteTask,
      createRoutine, updateRoutine, deleteRoutine, addRoutineSlot, updateRoutineSlot,
      deleteRoutineSlot, createTask, updateTask, deleteTask, createRoutineService,
      updateRoutineService, deleteRoutineService, addRoutineSlotService,
      updateRoutineSlotService, deleteRoutineSlotService, call, bind, try_catch, modify, throw;
    rewrite ?Hu; cbn; rewrite Hq; cbn; auto.
Qed.


Lemma filter_ownedBy uid (l : list Task.t) :
  Forall (λ t, Task.userId t = Some uid ∧ t ∈ l) (List.filter (ownedBy uid) l).
Proof.
  apply Forall_forall. intros t Ht. apply list_elem_of_In, filter_In in Ht as [Hin Ho].
  split; [by apply bool_decide_eq_true in Ho | by apply list_elem_of_In].
Qed.

(** C10.  When [loadTasks] serves from Local Store (offline, or online after
    the connection test or the fetch failed), the view is either left as
    it was or consists only of stored tasks whose [userId] is the current
    user's; offline over a healthy database it is exactly the stored
    tasks of that user. *)
Theorem local_tasks_filtered_by_user userId uid isOffline w :
  truthy userId = Some uid →
  isOffline = true ∨ fetch_fails serve uid w = true →
  let w' := (loadTasks serve userId isOffline w).2 in
  let served := List.filter (ownedBy uid) (store_getAll (idb_tasks w)) in
  (tasks w' = tasks w
   ∨ Forall (λ t, Task.userId t = Some uid ∧ t ∈ store_getAll (idb_tasks w)) (tasks w'))
  ∧ (isOffline = true → idb_status w = Healthy → tasks w' = served).
Proof.
  intros Hu Hpath. cbn zeta.
  pose proof (filter_ownedBy uid (store_getAll (idb_tasks w))) as Hserved.
  unfold loadTasks. rewrite Hu.
  unfold fetch_fails in Hpath.
  destruct isOffline.
  - unfold try_finally, try_catch, bind, modify, setTasks, getAllFromIndexedDB, initDB,
      request_getAll, ret, bind, try_catch. cbn.
    destruct (idb_status w) eqn:Hst; cbn; rewrite ?Hst; cbn; split; auto; try discriminate.
  - destruct Hpath as [?|Hpath]; [discriminate|].
    unfold try_finally, try_catch, bind, modify, setTasks, getAllFromIndexedDB, initDB,
      request_getAll, ret, bind, try_catch, testConnection, fetchTasks, call, throw. cbn.
    split; [|discriminate].
    destruct (serve (srv w) TestConnection) as [s1 [e1|[|]]]; cbn.
    + destruct (idb_status w) eqn:Hst; cbn; rewrite ?Hst; cbn; auto;
        case_bool_decide; cbn; auto.
    + destruct (serve s1 (FetchTasks uid)) as [s2 [e2|data]]; [|discriminate]. cbn.
      destruct (idb_status w) eqn:Hst; cbn; rewrite ?Hst; cbn; auto;
        case_bool_decide; cbn; auto.
    + destruct (idb_status w) eqn:Hst; cbn; rewrite ?Hst; cbn; auto;
        case_bool_decide; cbn; auto.
Qed.


Lemma find_routine_stored (m : gmap string Routine.t) id r :
  keyed Routine.id m → m !! id = Some r →
  ∃ i, findEntry (hasId id) (store_getAll m) = Some (i, r).
Proof. apply (findEntry_stored Routine.id). Qed.

Lemma find_routine_not_stored (m : gmap string Routine.t) id :
  keyed Routine.id m → m !! id = None →
  findEntry (hasId id) (store_getAll m) = None.
Proof. apply (findEntry_not_stored Routine.id). Qed.

Lemma updateRoutine_offline w id updates r :
  idb_status w = Healthy → keyed Routine.id (idb_routines w) →
  idb_routines w !! id = Some r →
  updateRoutine serve true id updates w
  = (Resolved tt,
     set_routines (mapRoutine id (mergeRoutine updates) (routines w))
       (set_idb_routines
          (<[id := Routine.with_isOfflineUpdated true (mergeRoutine updates r)]> (idb_routines w))
          (set_routinesError None w))).
Proof.
  intros Hst Hk Hr. destruct (find_routine_stored _ _ _ Hk Hr) as [i Hi].
  unfold updateRoutine, try_catch, bind, modify.
  rewrite getAll_healthy by done. cbn -[store_getAll]. unfold find. rewrite Hi. cbn -[store_getAll].
  rewrite save_healthy by done. cbn. unfold put. cbn. by rewrite (Hk _ _ Hr).
Qed.


Lemma updateRoutine_offline_absent w id updates :
  idb_status w = Healthy → keyed Routine.id (idb_routines w) →
  idb_routines w !! id = None →
  updateRoutine serve true id updates w = (Resolved tt, set_routinesError None w).
Proof.
  intros Hst Hk Hr. pose proof (find_routine_not_stored _ _ Hk Hr) as Hf.
  unfold updateRoutine, try_catch, bind, modify.
  rewrite getAll_healthy by done. cbn -[store_getAll]. unfold find. by rewrite Hf.
Qed.

Lemma deleteRoutine_offline w id r :
  idb_status w = Healthy → keyed Routine.id (idb_routines w) →
  idb_routines w !! id = Some r →
  deleteRoutine serve true id w
  = (Resolved tt,
     set_routines (List.filter (λ routine, negb (hasId id routine)) (routines w))
       (set_idb_routines
          (<[id := Routine.with_isOfflineDeleted true r]> (idb_routines w))
          (set_routinesError None w))).
Proof.
  intros Hst Hk Hr. destruct (find_routine_stored _ _ _ Hk Hr) as [i Hi].
  unfold deleteRoutine, try_catch, bind, modify.
  rewrite getAll_healthy by done. cbn -[store_getAll]. unfold find. rewrite Hi. cbn -[store_getAll].
  rewrite save_healthy by done. cbn. unfold put. cbn. by rewrite (Hk _ _ Hr).
Qed.

Lemma deleteRoutine_offline_absent w id :
  idb_status w = Healthy → keyed Routine.id (idb_routines w) →
  idb_routines w !! id = None →
  deleteRoutine serve true id w
  = (Resolved tt,
     set_routines (List.filter (λ routine, negb (hasId id routine)) (routines w))
       (set_routinesError None w)).
Proof.
  intros Hst Hk Hr. pose proof (find_routine_not_stored _ _ Hk Hr) as Hf.
  unfold deleteRoutine, try_catch, bind, modify.
  rewrite getAll_healthy by done. cbn -[store_getAll]. unfold find. by rewrite Hf.
Qed.

Lemma updateRoutineSlot_offline w routineId slotId updates r :
  idb_status w = Healthy → keyed Routine.id (idb_routines w) →
  idb_routines w !! routineId = Some r →
  updateRoutineSlot serve true routineId slotId updates w
  = (Resolved tt,
     set_routines
       (mapRoutine routineId
          (λ routine, Routine.with_slots (mapSlot slotId (mergeSlot updates) routine) routine)
          (routines w))
       (set_idb_routines
          (<[routineId := markSlotUpdated slotId updates r]> (idb_routines w))
          (set_routinesError None w))).
Proof.
  intros Hst Hk Hr. destruct (find_routine_stored _ _ _ Hk Hr) as [i Hi].
  unfold updateRoutineSlot, try_catch, bind, modify.
  rewrite getAll_healthy by done. cbn -[store_getAll]. rewrite Hi. cbn -[store_getAll].
  rewrite save_healthy by done. cbn -[store_getAll].
  apply findEntry_Some in Hi as [Hi _].
  rewrite (foldl_put_getAll_insert Routine.id _ i r) by done.
  by rewrite (Hk _ _ Hr).
Qed.

Lemma updateRoutineSlot_offline_absent w routineId slotId updates :
  idb_status w = Healthy → keyed Routine.id (idb_routines w) →
  idb_routines w !! routineId = None →
  updateRoutineSlot serve true routineId slotId updates w
  = (Resolved tt, set_routinesError None w).
Proof.
  intros Hst Hk Hr. pose proof (find_routine_not_stored _ _ Hk Hr) as Hf.
  unfold updateRoutineSlot, try_catch, bind, modify.
  rewrite getAll_healthy by done. cbn -[store_getAll]. by rewrite Hf.
Qed.

Lemma deleteRoutineSlot_offline w routineId slotId r :
  idb_status w = Healthy → keyed Routine.id (idb_routines w) →
  idb_routines w !! routineId = Some r →
  deleteRoutineSlot serve true routineId slotId w
  = (Resolved tt,
     set_routines
       (mapRoutine routineId
          (λ routine,
             Routine.with_slots
               (List.filter (λ slot, negb (slotHasId slotId slot)) <$> Routine.slots routine)
               routine)
          (routines w))
       (set_idb_routines
          (<[routineId := markSlotDeleted slotId r]> (idb_routines w))
          (set_routinesError None w))).
Proof.
  intros Hst Hk Hr. destruct (find_routine_stored _ _ _ Hk Hr) as [i Hi].
  unfold deleteRoutineSlot, try_catch, bind, modify.
  rewrite getAll_healthy by done. cbn -[store_getAll]. rewrite Hi. cbn -[store_getAll].
  rewrite save_healthy by done. cbn -[store_getAll].
  apply findEntry_Some in Hi as [Hi _].
  rewrite (foldl_put_getAll_insert Routine.id _ i r) by done.
  by rewrite (Hk _ _ Hr).
Qed.

Lemma deleteRoutineSlot_offline_absent w routineId slotId :
  idb_status w = Healthy → keyed Routine.id (idb_routines w) →
  idb_routines w !! routineId = None →
  deleteRoutineSlot serve true routineId slotId w
  = (Resolved tt,
     set_routines
       (mapRoutine routineId
          (λ routine,
             Routine.with_slots
               (List.filter (λ slot, negb (slotHasId slotId slot)) <$> Routine.slots routine)
               routine)
          (routines w))
       (set_routinesError None w)).
Proof.
  intros Hst Hk Hr. pose proof (find_routine_not_stored _ _ Hk Hr) as Hf.
  unfold deleteRoutineSlot, try_catch, bind, modify.
  rewrite getAll_healthy by done. cbn -[store_getAll]. by rewrite Hf.
Qed.


Lemma slot_markers_kept_refl s : slot_markers_kept s s.
Proof. by repeat split. Qed.

Lemma evolves_refl a : evolves a a.
Proof. split; [by repeat split|]. intros s Hs. exists s. split; [done|apply slot_markers_kept_refl]. Qed.

Lemma evolves_trans a b c : evolves a b → evolves b c → evolves a c.
Proof.
  intros [(H1 & H2 & H3) Hs] [(H1' & H2' & H3') Hs']. split; [repeat split; auto|].
  intros s'' Hc. destruct (Hs' s'' Hc) as (s' & Hb & Hid' & K1' & K2' & K3').
  destruct (Hs s' Hb) as (s & Ha & Hid & K1 & K2 & K3).
  exists s. split; [done|]. repeat split; [congruence|auto..].
Qed.

Lemma evolves_markSlotUpdated slotId updates r : evolves r (markSlotUpdated slotId updates r).
Proof.
  split; [by repeat split|]. unfold markSlotUpdated, mapSlot. cbn.
  destruct (Routine.slots r) as [l|]; cbn; [|intros s Hs; by apply elem_of_nil in Hs].
  intros s' Hs'. apply elem_of_map in Hs' as (s & -> & Hs).
  exists s. split; [done|]. destruct (slotHasId slotId s); by repeat split.
Qed.

Lemma evolves_markSlotDeleted slotId r : evolves r (markSlotDeleted slotId r).
Proof.
  split; [by repeat split|]. unfold markSlotDeleted, mapSlot. cbn.
  destruct (Routine.slots r) as [l|]; cbn; [|intros s Hs; by apply elem_of_nil in Hs].
  intros s' Hs'. apply list_elem_of_In, filter_In in Hs' as [Hs' _].
  apply list_elem_of_In, elem_of_map in Hs' as (s & -> & Hs).
  exists s. split; [done|]. destruct (slotHasId slotId s); by repeat split.
Qed.

Lemma edit_step userId clock m w :
  is_edit m = true →
  idb_status w = Healthy → keyed Routine.id (idb_routines w) →
  let w' := (run_mutation serve userId true clock m w).2 in
  idb_status w' = Healthy ∧ keyed Routine.id (idb_routines w')
  ∧ ∀ id r, idb_routines w !! id = Some r →
      ∃ r', idb_routines w' !! id = Some r' ∧ evolves r r'.
Proof.
  intros Hm Hst Hk. destruct m; try discriminate; cbn [run_mutation].
  - destruct (idb_routines w !! id) as [r0|] eqn:Hr0.
    + rewrite (updateRoutine_offline _ _ _ r0) by done. cbn.
      split; [done|]. split.
      { apply map_Forall_insert_2; [|done]. cbn. by apply (Hk _ _ Hr0). }
      intros k r Hr. destruct (decide (id = k)) as [->|Hne].
      * rewrite lookup_insert_eq. eexists; split; [done|].
        assert (r = r0) as -> by congruence.
        split; [by repeat split|]. cbn. intros s Hs. exists s. split; [done|apply slot_markers_kept_refl].
      * rewrite lookup_insert_ne by done. exists r. split; [done|apply evolves_refl].
    + rewrite updateRoutine_offline_absent by done. cbn.
      split; [done|]. split; [done|]. intros k r Hr. exists r. split; [done|apply evolves_refl].
  - destruct (idb_routines w !! id) as [r0|] eqn:Hr0.
    + rewrite (deleteRoutine_offline _ _ r0) by done. cbn.
      split; [done|]. split.
      { apply map_Forall_insert_2; [|done]. cbn. by apply (Hk _ _ Hr0). }
      intros k r Hr. destruct (decide (id = k)) as [->|Hne].
      * rewrite lookup_insert_eq. eexists; split; [done|].
        assert (r = r0) as -> by congruence.
        split; [by repeat split|]. cbn. intros s Hs. exists s. split; [done|apply slot_markers_kept_refl].
      * rewrite lookup_insert_ne by done. exists r. split; [done|apply evolves_refl].
    + rewrite deleteRoutine_offline_absent by done. cbn.
      split; [done|]. split; [done|]. intros k r Hr. exists r. split; [done|apply evolves_refl].
  - destruct (idb_routines w !! routineId) as [r0|] eqn:Hr0.
    + rewrite (updateRoutineSlot_offline _ _ _ _ r0) by done. cbn.
      split; [done|]. split.
      { apply map_Forall_insert_2; [|done]. cbn. by apply (Hk _ _ Hr0). }
      intros k r Hr. destruct (decide (routineId = k)) as [->|Hne].
      * rewrite lookup_insert_eq. eexists; split; [done|].
        assert (r = r0) as -> by congruence. apply evolves_markSlotUpdated.
      * rewrite lookup_insert_ne by done. exists r. split; [done|apply evolves_refl].
    + rewrite updateRoutineSlot_offline_absent by done. cbn.
      split; [done|]. split; [done|]. intros k r Hr. exists r. split; [done|apply evolves_refl].
  - destruct (idb_routines w !! routineId) as [r0|] eqn:Hr0.
    + rewrite (deleteRoutineSlot_offline _ _ _ r0) by done. cbn.
      split; [done|]. split.
      { apply map_Forall_insert_2; [|done]. cbn. by apply (Hk _ _ Hr0). }
      intros k r Hr. destruct (decide (routineId = k)) as [->|Hne].
      * rewrite lookup_insert_eq. eexists; split; [done|].
        assert (r = r0) as -> by congruence. apply evolves_markSlotDeleted.
      * rewrite lookup_insert_ne by done. exists r. split; [done|apply evolves_refl].
    + rewrite deleteRoutineSlot_offline_absent by done. cbn.
      split; [done|]. split; [done|]. intros k r Hr. exists r. split; [done|apply evolves_refl].
Qed.

Lemma elem_of_markSlotUpdated slotId updates r slot :
  slot ∈ default [] (Routine.slots r) → Slot.id slot = slotId →
  Slot.with_isOfflineUpdated true (mergeSlot updates slot)
  ∈ default [] (Routine.slots (markSlotUpdated slotId updates r)).
Proof.
  intros Hin Hid. unfold markSlotUpdated, mapSlot. cbn.
  destruct (Routine.slots r) as [slots|]; cbn in *; [|by apply elem_of_nil in Hin].
  apply elem_of_map. exists slot. split; [|done].
  unfold slotHasId, eqb_id. by rewrite bool_decide_eq_true_2.
Qed.

Lemma elem_of_markSlotDeleted slotId r slot :
  slot ∈ default [] (Routine.slots r) → Slot.id slot = slotId →
  Slot._isOffline slot = false →
  Slot.with_isOfflineDeleted true slot
  ∈ default [] (Routine.slots (markSlotDeleted slotId r)).
Proof.
  intros Hin Hid Hoff. unfold markSlotDeleted, mapSlot. cbn.
  destruct (Routine.slots r) as [slots|]; cbn in *; [|by apply elem_of_nil in Hin].
  apply list_elem_of_In, filter_In. split.
  - apply in_map_iff. exists slot. split; [|by apply list_elem_of_In].
    unfold slotHasId, eqb_id. by rewrite bool_decide_eq_true_2.
  - cbn. rewrite Hoff. by rewrite andb_false_r.
Qed.

(** C5 (amended).  The sync markers are independent flags that accumulate.
    On a stored routine an offline update sets [_isOfflineUpdated], and an
    offline delete of a routine that was not created offline sets
    [_isOfflineDeleted], each leaving the other markers as they were.  On a
    slot of a stored routine an offline update sets [_isOfflineUpdated] on
    the slot, and an offline delete of a slot that was not created offline
    sets [_isOfflineDeleted] on it, the slot keeping its other markers.
    And over every sequence of offline updates and deletes of routines and
    slots -- the delete of a routine that was itself created offline apart
    -- a stored routine stays stored with every marker it had still set (so
    a routine created offline stays [_isOffline]), and each slot it still
    has comes from an earlier slot with its markers kept. *)
Theorem markers_accumulate userId clock ms w id r :
  idb_status w = Healthy → keyed Routine.id (idb_routines w) →
  forallb is_edit ms = true →
  idb_routines w !! id = Some r →
  negb (Routine._isOffline r) || forallb (λ m, negb (deletes_routine id m)) ms = true →
  (∀ updates,
     idb_routines (run_offline serve userId clock [UpdateRoutineM id updates] w) !! id
     = Some (Routine.with_isOfflineUpdated true (mergeRoutine updates r)))
  ∧ (Routine._isOffline r = false →
     idb_routines (run_offline serve userId clock [DeleteRoutineM id] w) !! id
     = Some (Routine.with_isOfflineDeleted true r))
  ∧ (∀ slotId updates slot,
       slot ∈ default [] (Routine.slots r) → Slot.id slot = slotId →
       ∃ r', idb_routines (run_offline serve userId clock [UpdateSlotM id slotId updates] w)
               !! id = Some r'
             ∧ Slot.with_isOfflineUpdated true (mergeSlot updates slot)
               ∈ default [] (Routine.slots r'))
  ∧ (∀ slotId slot,
       slot ∈ default [] (Routine.slots r) → Slot.id slot = slotId →
       Slot._isOffline slot = false →
       ∃ r', idb_routines (run_offline serve userId clock [DeleteSlotM id slotId] w)
               !! id = Some r'
             ∧ Slot.with_isOfflineDeleted true slot ∈ default [] (Routine.slots r'))
  ∧ ∃ r', idb_routines (run_offline serve userId clock ms w) !! id = Some r'
          ∧ markers_kept r r'
          ∧ (∀ s', s' ∈ default [] (Routine.slots r') →
               ∃ s, s ∈ default [] (Routine.slots r) ∧ slot_markers_kept s s').
Proof.
  intros Hst Hk Hms Hr _.
  split.
  { intros updates. cbn. rewrite (updateRoutine_offline w id updates r) by done.
    cbn. by rewrite lookup_insert_eq. }
  split.
  { intros _. cbn. rewrite (deleteRoutine_offline w id r) by done. cbn.
    by rewrite lookup_insert_eq. }
  split.
  { intros slotId updates slot Hin Hid. cbn.
    rewrite (updateRoutineSlot_offline w id slotId updates r) by done. cbn.
    rewrite lookup_insert_eq. eexists. split; [done|].
    by apply elem_of_markSlotUpdated. }
  split.
  { intros slotId slot Hin Hid Hoff. cbn.
    rewrite (deleteRoutineSlot_offline w id slotId r) by done. cbn.
    rewrite lookup_insert_eq. eexists. split; [done|].
    by apply elem_of_markSlotDeleted. }
  cut (∃ r', idb_routines (run_offline serve userId clock ms w) !! id = Some r' ∧ evolves r r').
  { intros (r' & Hr' & Hm & Hs). eauto. }
  revert w r Hst Hk Hr. induction ms as [|m ms IH]; intros w r Hst Hk Hr.
  - exists r. split; [done|apply evolves_refl].
  - cbn in Hms. apply andb_true_iff in Hms as [Hm Hms].
    destruct (edit_step userId clock m w Hm Hst Hk) as (Hst' & Hk' & Hstep).
    destruct (Hstep id r Hr) as (r1 & Hr1 & He1).
    destruct (IH Hms _ r1 Hst' Hk' Hr1) as (r' & Hr' & He').
    exists r'. split; [done|]. by eapply evolves_trans.
Qed.


Lemma after_calls_nil w : after_calls w [] w.
Proof. exists (srv w). destruct w; cbn. by rewrite app_nil_r. Qed.

Lemma after_calls_app w l1 w1 l2 w2 :
  after_calls w l1 w1 → after_calls w1 l2 w2 → after_calls w (l1 ++ l2) w2.
Proof.
  intros [s1 ->] [s2 ->]. exists s2. destruct w; cbn. by rewrite app_assoc.
Qed.

Lemma calls_since_after w l w' : after_calls w l w' → calls_since w w' = l.
Proof.
  intros [s ->]. unfold calls_since. cbn. by rewrite drop_app_length.
Qed.

Lemma call_spec q w :
  ∃ o, (call serve q w).1 = o
       ∧ after_calls w [(q, is_resolved o)] (call serve q w).2.
Proof.
  unfold call. destruct (serve (srv w) q) as [s [e|a]]; cbn; eexists; (split; [done|]);
    by exists s.
Qed.

Lemma bind_resolved {A B} (m : Async Srv A) (k : A → Async Srv B) w a w1 :
  m w = (Resolved a, w1) → bind m k w = k a w1.
Proof. intros H. unfold bind. by rewrite H. Qed.

Lemma for_of_spec {A B} (body : B → A → Async Srv B) (g : A → list Request) xs :
  (∀ acc x w, x ∈ xs → ∃ acc' l w',
      body acc x w = (Resolved acc', w') ∧ after_calls w l w' ∧ l.*1 = g x) →
  ∀ acc w, ∃ acc' l w',
    for_of xs body acc w = (Resolved acc', w')
    ∧ after_calls w l w' ∧ l.*1 = flat_map g xs.
Proof.
  induction xs as [|x xs IH]; intros Hbody acc w.
  - exists acc, [], w. cbn. split; [done|]. split; [apply after_calls_nil|done].
  - destruct (Hbody acc x w (list_elem_of_here _ _)) as (acc1 & l1 & w1 & Ho & Hw & Hl).
    cbn. rewrite (bind_resolved _ _ _ _ _ Ho).
    destruct (IH (λ a y v Hy, Hbody a y v (list_elem_of_further _ _ _ Hy)) acc1 w1)
      as (acc' & l2 & w2 & Ho' & Hw' & Hl').
    exists acc', (l1 ++ l2), w2. split; [done|]. split; [by eapply after_calls_app|].
    by rewrite fmap_app, Hl, Hl'.
Qed.

Lemma sync_slot_spec routine acc slot w :
  ∃ acc' l w',
    sync_slot serve routine acc slot w = (Resolved acc', w')
    ∧ after_calls w l w' ∧ l.*1 = slot_requests routine slot.
Proof.
  unfold sync_slot, slot_requests.
  destruct (Slot._isOfflineDeleted slot); [|destruct (Slot._isOffline slot);
    [|destruct (Slot._isOfflineUpdated slot)]].
  - unfold try_catch, bind, deleteRoutineSlotService, call, ret.
    destruct (serve (srv w) _) as [s [e|a]]; cbn;
      [|destruct (findIndex _ _)]; cbn; eexists _, [_], _; (split; [done|]);
      (split; [by exists s|done]).
  - unfold try_catch, bind, addRoutineSlotService, bind, call, ret.
    destruct (serve (srv w) _) as [s [e|a]]; cbn;
      [|destruct (findIndex _ _)]; cbn; eexists _, [_], _; (split; [done|]);
      (split; [by exists s|done]).
  - unfold try_catch, bind, updateRoutineSlotService, call, ret.
    destruct (serve (srv w) _) as [s [e|a]]; cbn;
      [|destruct (findIndex _ _)]; cbn; eexists _, [_], _; (split; [done|]);
      (split; [by exists s|done]).
  - exists acc, [], w. split; [done|]. split; [apply after_calls_nil|done].
Qed.

Lemma sync_routine_spec acc routine w :
  ∃ acc' l w',
    sync_routine serve acc routine w = (Resolved acc', w')
    ∧ after_calls w l w' ∧ l.*1 = routine_requests routine.
Proof.
  unfold sync_routine, routine_requests.
  destruct (Routine._isOfflineDeleted routine); [|destruct (Routine._isOffline routine)].
  - unfold try_catch, bind, deleteRoutineService, call, ret.
    destruct (serve (srv w) _) as [s [e|a]]; cbn; eexists _, [_], _; (split; [done|]);
      (split; [by exists s|done]).
  - unfold try_catch, bind, createRoutineService, bind, call, ret.
    destruct (serve (srv w) _) as [s [e|a]]; cbn; eexists _, [_], _; (split; [done|]);
      (split; [by exists s|done]).
  - set (first :=
      if Routine._isOfflineUpdated routine
      then try_catch _ _ else ret acc).
    assert (∃ acc1 l1 w1, first w = (Resolved acc1, w1) ∧ after_calls w l1 w1
        ∧ l1.*1 = (if Routine._isOfflineUpdated routine
                   then [UpdateRoutine (Routine.id routine) (Routine.fields routine)]
                   else [])) as (acc1 & l1 & w1 & Ho1 & Hw1 & Hl1).
    { subst first. destruct (Routine._isOfflineUpdated routine).
      - unfold try_catch, bind, updateRoutineService, call, ret.
        destruct (serve (srv w) _) as [s [e|a]]; cbn;
          [|destruct (findIndex _ _)]; cbn; eexists _, [_], _; (split; [done|]);
          (split; [by exists s|done]).
      - exists acc, [], w. split; [done|]. split; [apply after_calls_nil|done]. }
    rewrite (bind_resolved _ _ _ _ _ Ho1). rewrite <-Hl1.
    destruct (Routine.slots routine) as [slots|];
      [change (default [] (Some slots)) with slots
      |exists acc1, l1, w1; cbn; rewrite app_nil_r; done].
    case_bool_decide; [|destruct slots; [|cbn in *; lia];
                        exists acc1, l1, w1; cbn; rewrite app_nil_r; done].
    destruct (for_of_spec (sync_slot serve routine) (slot_requests routine) slots
                (λ a x v _, sync_slot_spec routine a x v) (slots, false) w1)
      as (synced & l2 & w2 & Ho2 & Hw2 & Hl2).
    rewrite (bind_resolved _ _ _ _ _ Ho2). rewrite <-Hl2, <-fmap_app.
    destruct (synced.2); [destruct (findEntry _ _) as [[i current]|]|];
      cbn; eexists _, (l1 ++ l2), _; (split; [done|]); (split; [by eapply after_calls_app|done]).
Qed.


Lemma after_calls_local w l w' :
  after_calls w l w' →
  idb_status w' = idb_status w ∧ idb_routines w' = idb_routines w
  ∧ idb_tasks w' = idb_tasks w ∧ routines w' = routines w ∧ tasks w' = tasks w
  ∧ log w' = log w ++ l.
Proof. by intros [s ->]. Qed.

(** One pass of [syncOfflineChanges] over a healthy database. *)
Lemma sync_pass w :
  idb_status w = Healthy →
  ∃ synced l w1,
    for_of (store_getAll (idb_routines w)) (sync_routine serve)
      (store_getAll (idb_routines w), false) w = (Resolved synced, w1)
    ∧ after_calls w l w1
    ∧ l.*1 = flat_map routine_requests (store_getAll (idb_routines w))
    ∧ (syncOfflineChanges serve false w).2
      = if synced.2
        then set_routines synced.1
               (set_idb_routines (foldl (put Routine.id) (idb_routines w) synced.1) w1)
        else w1.
Proof.
  intros Hst.
  destruct (for_of_spec (sync_routine serve) routine_requests (store_getAll (idb_routines w))
              (λ a x v _, sync_routine_spec a x v) (store_getAll (idb_routines w), false) w)
    as (synced & l & w1 & Hrun & Hw1 & Hl).
  exists synced, l, w1. split; [done|]. split; [done|]. split; [done|].
  destruct (after_calls_local _ _ _ Hw1) as (Hst1 & Hr1 & _).
  unfold syncOfflineChanges, try_catch.
  rewrite (bind_resolved _ _ _ _ _ (getAll_healthy _ _ Hst)).
  change (contents STORES_ROUTINES w) with (idb_routines w).
  rewrite (bind_resolved _ _ _ _ _ Hrun).
  destruct (synced.2); [|done].
  unfold bind. rewrite save_healthy by congruence. cbn. by rewrite Hr1.
Qed.

Lemma sync_pass_requests w :
  idb_status w = Healthy →
  requests (calls_since w (syncOfflineChanges serve false w).2)
  = flat_map routine_requests (store_getAll (idb_routines w)).
Proof.
  intros Hst. destruct (sync_pass w Hst) as (synced & l & w1 & _ & Hw1 & Hl & ->).
  rewrite <-Hl. unfold requests. f_equal.
  destruct (synced.2); [|by apply calls_since_after].
  destruct Hw1 as [s ->]. unfold calls_since. cbn. by rewrite drop_app_length.
Qed.


Lemma loadTasks_online_ok userId uid w s1 s2 data :
  idb_status w = Healthy → truthy userId = Some uid →
  serve (srv w) TestConnection = (s1, inr true) →
  serve s1 (FetchTasks uid) = (s2, inr data) →
  (loadTasks serve userId false w).2
  = set_tasksLoading false
      (set_idb_tasks
         (foldl (put Task.id) (idb_tasks w) (map (Task.with_userId (Some uid)) data))
         (set_tasks data
            (set_log ((log w ++ [(TestConnection, true)]) ++ [(FetchTasks uid, true)])
               (set_srv s2 (set_tasksError None (set_tasksLoading true w)))))).
Proof.
  intros Hst Hu H1 H2. unfold loadTasks. rewrite Hu.
  unfold try_finally, try_catch, bind, modify, testConnection, fetchTasks, call, setTasks.
  cbn. rewrite H1. cbn. rewrite H2. cbn.
  rewrite save_healthy by done. reflexivity.
Qed.

Lemma loadRoutines_online_ok w s rows :
  idb_status w = Healthy →
  serve (srv w) FetchRoutines = (s, inr rows) →
  (loadRoutines serve false w).2
  = set_routinesLoading false
      (set_idb_routines
         (foldl (put Routine.id) (idb_routines w) (map routine_of_row rows))
         (set_routines (map routine_of_row rows)
            (set_log (log w ++ [(FetchRoutines, true)])
               (set_srv s (set_routinesLoading true w))))).
Proof.
  intros Hst H1. unfold loadRoutines.
  unfold try_finally, try_catch, bind, modify, fetchRoutines, bind, call, setRoutines, ret.
  cbn. rewrite H1. cbn. case_bool_decide as Hlen.
  - rewrite save_healthy by done. reflexivity.
  - destruct rows; [|cbn in Hlen; rewrite length_map in Hlen; cbn in Hlen; lia].
    cbn. by destruct w.
Qed.

(** C2 (amended).  After an online load whose fetch succeeded, over a
    healthy database, the view is the fetched list, every fetched record is
    held in Local Store under its id (a task with the current [userId]
    added), and every id absent from the fetch holds what it held before:
    the store is upserted, not replaced. *)
Theorem online_load_upserts userId uid w s1 s2 data s3 rows :
  idb_status w = Healthy → truthy userId = Some uid →
  serve (srv w) TestConnection = (s1, inr true) →
  serve s1 (FetchTasks uid) = (s2, inr data) →
  serve (srv w) FetchRoutines = (s3, inr rows) →
  let wt := (loadTasks serve userId false w).2 in
  let wr := (loadRoutines serve false w).2 in
  let fetched := map routine_of_row rows in
  (tasks wt = data
   ∧ (∀ k, k ∉ map Task.id data → idb_tasks wt !! k = idb_tasks w !! k)
   ∧ (∀ k, k ∈ map Task.id data →
        ∃ t, t ∈ data ∧ Task.id t = k
             ∧ idb_tasks wt !! k = Some (Task.with_userId (Some uid) t)))
  ∧ (routines wr = fetched
     ∧ (∀ k, k ∉ map Routine.id fetched → idb_routines wr !! k = idb_routines w !! k)
     ∧ (∀ k, k ∈ map Routine.id fetched →
          ∃ r, r ∈ fetched ∧ Routine.id r = k ∧ idb_routines wr !! k = Some r)).
Proof.
  intros Hst Hu H1 H2 H3. cbn zeta.
  rewrite (loadTasks_online_ok _ _ _ _ _ _ Hst Hu H1 H2).
  rewrite (loadRoutines_online_ok _ _ _ Hst H3). cbn.
  assert (Hids : map Task.id (map (Task.with_userId (Some uid)) data) = map Task.id data).
  { rewrite map_map. by apply map_ext. }
  repeat split.
  - intros k Hk. apply lookup_foldl_put_notin. by rewrite Hids.
  - intros k Hk. rewrite <-Hids in Hk.
    destruct (lookup_foldl_put_in Task.id (idb_tasks w) _ k Hk) as (t' & Ht' & Hk' & Hl).
    apply elem_of_map in Ht' as (t & -> & Ht). exists t. done.
  - intros k Hk. by apply lookup_foldl_put_notin.
  - intros k Hk. by apply lookup_foldl_put_in.
Qed.


Ltac load_requests :=
  repeat (apply Forall_cons; split; [first [by left | right; by eexists]|]);
  by apply Forall_nil.

Lemma loadTasks_reloads_only userId isOffline w :
  let w' := (loadTasks serve userId isOffline w).2 in
  Forall load_request (requests (calls_since w w'))
  ∧ ∀ k, is_Some (idb_tasks w !! k) → is_Some (idb_tasks w' !! k).
Proof.
  cbn zeta. unfold loadTasks, calls_since, requests.
  destruct (truthy userId) as [uid|]; [|cbn; by rewrite drop_all].
  unfold try_finally, try_catch, bind, modify, testConnection, fetchTasks, call, setTasks,
    getAllFromIndexedDB, saveToIndexedDB, initDB, request_getAll, transaction_put, throw, ret,
    bind, try_catch.
  destruct isOffline; cbn.
  - destruct (idb_status w) eqn:Hst; cbn; rewrite ?Hst; cbn; by rewrite drop_all.
  - destruct (serve (srv w) TestConnection) as [s1 [e1|[|]]]; cbn.
    + destruct (idb_status w) eqn:Hst; cbn; rewrite ?Hst; cbn;
        try case_bool_decide; cbn; rewrite drop_app_length; cbn;
        (split; [load_requests|done]).
    + destruct (serve s1 (FetchTasks uid)) as [s2 [e2|data]]; cbn.
      * destruct (idb_status w) eqn:Hst; cbn; rewrite ?Hst; cbn;
          try case_bool_decide; cbn; rewrite <-(app_assoc (log w)), drop_app_length; cbn;
          (split; [load_requests|done]).
      * destruct (idb_status w) eqn:Hst; cbn; repeat (rewrite Hst; cbn);
          try case_bool_decide; cbn; rewrite <-(app_assoc (log w)), drop_app_length; cbn;
          (split; [load_requests|]);
          intros k Hk; first [done | by apply foldl_put_is_Some].
    + destruct (idb_status w) eqn:Hst; cbn; rewrite ?Hst; cbn;
        try case_bool_decide; cbn; rewrite drop_app_length; cbn;
        (split; [load_requests|done]).
Qed.


Lemma for_of_skip {A B} (body : B → A → Async Srv B) xs :
  (∀ x, x ∈ xs → ∀ acc w, body acc x w = (Resolved acc, w)) →
  ∀ acc w, for_of xs body acc w = (Resolved acc, w).
Proof.
  induction xs as [|x xs IH]; intros Hbody acc w; [done|].
  cbn. rewrite (bind_resolved _ _ _ _ _ (Hbody x (list_elem_of_here _ _) acc w)).
  apply IH. intros y Hy. apply Hbody. by right.
Qed.

Lemma for_of_app {A B} (body : B → A → Async Srv B) xs ys acc w :
  for_of (xs ++ ys) body acc w = bind (for_of xs body acc) (for_of ys body) w.
Proof.
  revert acc w. induction xs as [|x xs IH]; intros acc w; [done|].
  cbn. unfold bind. destruct (body acc x w) as [[acc1|e] w1]; [|done].
  rewrite IH. reflexivity.
Qed.

Lemma sync_slot_unmarked routine acc slot w :
  slot_unmarked slot = true → sync_slot serve routine acc slot w = (Resolved acc, w).
Proof.
  unfold slot_unmarked, sync_slot. intros H.
  apply negb_true_iff, orb_false_iff in H as [H H3]. apply orb_false_iff in H as [H1 H2].
  by rewrite H1, H2, H3.
Qed.

Lemma sync_routine_unmarked acc routine w :
  unmarked routine = true → sync_routine serve acc routine w = (Resolved acc, w).
Proof.
  unfold unmarked, sync_routine. intros H.
  apply andb_true_iff in H as [H Hslots].
  apply negb_true_iff, orb_false_iff in H as [H H3]. apply orb_false_iff in H as [H1 H2].
  rewrite H1, H2, H3. unfold bind at 1. cbn.
  destruct (Routine.slots routine) as [slots|]; [|done]. cbn in Hslots.
  case_bool_decide; [|done].
  rewrite (bind_resolved _ _ w (slots, false) w).
  - done.
  - apply for_of_skip. intros x Hx a v. apply sync_slot_unmarked.
    rewrite forallb_forall in Hslots. by apply Hslots, list_elem_of_In.
Qed.

Lemma createRoutine_offline w clock routine :
  idb_status w = Healthy →
  let tempId := "temp-" +:+ dateNow clock +:+ "-" +:+ mathRandom clock in
  let r := Routine.mk tempId (<["createdAt" := VStr (toISOString clock)]> routine)
             (Some []) true false false in
  createRoutine serve true clock routine w
  = (Resolved r,
     set_routines (r :: routines w)
       (set_idb_routines (<[tempId := r]> (idb_routines w)) (set_routinesError None w))).
Proof.
  intros Hst. cbn zeta. unfold createRoutine, try_catch, bind, modify.
  by rewrite save_healthy.
Qed.

(** A pass over a store whose only marked routine is one created offline. *)
Lemma sync_single_create w tid r s row :
  idb_status w = Healthy → keyed Routine.id (idb_routines w) →
  idb_routines w !! tid = Some r →
  Routine._isOffline r = true → Routine._isOfflineDeleted r = false →
  (∀ k x, idb_routines w !! k = Some x → k ≠ tid → unmarked x = true) →
  serve (srv w) (CreateRoutine (Routine.fields r)) = (s, inr row) →
  let synced :=
    List.filter (λ x, negb (hasId tid x)) (store_getAll (idb_routines w))
    ++ [Routine.mk row.1 row.2 (Some []) false false false] in
  (syncOfflineChanges serve false w).2
  = set_routines synced
      (set_idb_routines (foldl (put Routine.id) (idb_routines w) synced)
         (set_log (log w ++ [(CreateRoutine (Routine.fields r), true)]) (set_srv s w))).
Proof.
  intros Hst Hk Hr Hoff Hdel Hothers Hserve. cbn zeta.
  destruct (sync_pass w Hst) as (synced & l & w1 & Hrun & _ & _ & ->).
  assert (Hin : r ∈ store_getAll (idb_routines w)) by (apply elem_of_getAll; eauto).
  pose proof (getAll_NoDup Routine.id _ Hk) as Hnd.
  pose proof (Hk _ _ Hr) as Hid.
  revert Hrun. generalize (store_getAll (idb_routines w)) at 2 3 4 as L. intros L.
  apply list_elem_of_split in Hin as (l1 & l2 & HL). revert Hnd. rewrite HL.
  intros Hnd Hrun. rewrite map_app in Hnd. cbn in Hnd.
  apply NoDup_app in Hnd as (_ & Hdisj & Hnd2). apply NoDup_cons in Hnd2 as [Hr2 _].
  assert (Hskip : ∀ x, x ∈ l1 ++ l2 → ∀ acc v,
            sync_routine serve acc x v = (Resolved acc, v)).
  { intros x Hx acc v. apply sync_routine_unmarked.
    apply (Hothers (Routine.id x)).
    - apply (getAll_lookup Routine.id _ x Hk). rewrite HL.
      apply elem_of_app in Hx as [Hx|Hx]; apply elem_of_app; [by left|right; by right].
    - intros Heq. apply elem_of_app in Hx as [Hx|Hx].
      + apply (Hdisj tid); [|rewrite <-Hid; by left]. apply elem_of_map. eauto.
      + apply Hr2. rewrite Hid. apply elem_of_map. eauto. }
  rewrite for_of_app in Hrun.
  rewrite (bind_resolved _ _ _ _ _
             (for_of_skip _ l1 (λ x Hx, Hskip x (proj2 (elem_of_app l1 l2 x) (or_introl Hx))) _ _)) in Hrun.
  cbn [for_of] in Hrun. unfold bind at 1 in Hrun.
  unfold sync_routine at 1 in Hrun. rewrite Hdel, Hoff in Hrun.
  unfold try_catch, bind, createRoutineService, bind, call, ret in Hrun.
  rewrite Hserve in Hrun. cbn -[for_of] in Hrun.
  change (λ w0, (Resolved ?a, w0)) with (@ret Srv _ a) in Hrun.
  rewrite (for_of_skip _ l2 (λ x Hx, Hskip x (proj2 (elem_of_app l1 l2 x) (or_intror Hx)))) in Hrun.
  injection Hrun as <- <-. cbn. by rewrite Hid.
Qed.


Lemma handleCreateTask_offline userId uid w clock newTask :
  idb_status w = Healthy → truthy userId = Some uid →
  let tempId := "temp_" +:+ dateNow clock +:+ "_" +:+ mathRandom clock in
  let t :=
    Task.mk tempId
      (<["isAdminTask" := VBool false]>
        (<["status" := VStr "my-tasks"]>
          (<["updatedAt" := VStr (toISOString clock)]>
            (<["createdAt" := VStr (toISOString clock)]> newTask))))
      (Some uid) in
  handleCreateTask serve userId true clock newTask w
  = (Resolved t,
     set_tasks (tasks w ++ [t])
       (set_idb_tasks (<[tempId := t]> (idb_tasks w)) (set_tasksError None w))).
Proof.
  intros Hst Hu. cbn zeta. unfold handleCreateTask. rewrite Hu.
  unfold try_catch, bind, modify, setTasks. by rewrite save_healthy.
Qed.

Lemma delete_healthy {A} (store : Store Srv A) id w :
  idb_status w = Healthy →
  deleteFromIndexedDB store id w
  = (Resolved tt, set_contents store (delete id (contents store w)) w).
Proof.
  intros H. unfold deleteFromIndexedDB, bind, try_catch, initDB, ret, request_delete.
  rewrite H; cbn; rewrite H. reflexivity.
Qed.

Lemma handleDeleteTask_offline w taskId :
  idb_status w = Healthy →
  handleDeleteTask serve true taskId w
  = (Resolved true,
     set_tasks (List.filter (λ task, negb (eqb_id (Task.id task) taskId)) (tasks w))
       (set_idb_tasks (delete taskId (idb_tasks w)) (set_tasksError None w))).
Proof.
  intros Hst. unfold handleDeleteTask, try_catch, bind, modify, setTasks.
  by rewrite delete_healthy.
Qed.

Lemma for_of_invariant {A B} (body : B → A → Async Srv B) (I : B → Prop) xs :
  (∀ acc x w acc' w', x ∈ xs → body acc x w = (Resolved acc', w') → I acc → I acc') →
  ∀ acc w acc' w', for_of xs body acc w = (Resolved acc', w') → I acc → I acc'.
Proof.
  induction xs as [|x xs IH]; intros Hbody acc w acc' w'; cbn.
  - by intros [= <- <-].
  - unfold bind. destruct (body acc x w) as [[acc1|e] w1] eqn:Hb; [|done].
    intros Hrun Hacc. eapply IH; [|exact Hrun|].
    + intros a y v a' v' Hy. apply Hbody. by right.
    + eapply Hbody; [by left|exact Hb|done].
Qed.

Lemma sync_routine_settled tid confirmed acc y w acc' w' :
  (∀ s0 f s' row, serve s0 (CreateRoutine f) = (s', inr row) → row.1 ≠ tid) →
  Routine.id y ≠ tid → Routine.id y ≠ Routine.id confirmed →
  sync_routine serve acc y w = (Resolved acc', w') →
  settled tid confirmed acc → settled tid confirmed acc'.
Proof.
  intros Hfresh Hy Hyc. unfold sync_routine.
  destruct (Routine._isOfflineDeleted y); [|destruct (Routine._isOffline y)].
  - unfold try_catch, bind, deleteRoutineService, call, ret.
    destruct (serve (srv w) _) as [s [e|a]]; cbn; intros [= <- <-] Hs; [done|].
    rewrite <-(app_nil_r (List.filter _ _)). apply settled_filter; [done|done|].
    intros x Hx. by apply elem_of_nil in Hx.
  - unfold try_catch, bind, createRoutineService, bind, call, ret.
    destruct (serve (srv w) _) as [s [e|a]] eqn:Hserve; cbn; intros [= <- <-] Hs; [done|].
    apply settled_filter; [done|done|].
    intros x Hx. apply list_elem_of_singleton in Hx as ->. cbn. by eapply Hfresh.
  - set (first := if Routine._isOfflineUpdated y then try_catch _ _ else ret acc).
    unfold bind at 1. destruct (first w) as [[acc1|e] w1] eqn:Hfirst; [|done].
    intros Hrest Hs.
    assert (Hs1 : settled tid confirmed acc1).
    { subst first. destruct (Routine._isOfflineUpdated y); [|by injection Hfirst as <- <-].
      revert Hfirst. unfold try_catch, bind, updateRoutineService, call, ret.
      destruct (serve (srv w) _) as [s [e|a]]; cbn; [by intros [= <- <-]|].
      destruct (findIndex _ _) as [index|] eqn:Hidx; intros [= <- <-]; [|done].
      apply findIndex_Some in Hidx as (z & Hz & Hpz).
      apply bool_decide_eq_true in Hpz.
      eapply settled_insert; [done|done|done|congruence]. }
    revert Hrest. destruct (Routine.slots y) as [slots|]; [|by intros [= <- <-]].
    case_bool_decide; [|by intros [= <- <-]].
    unfold bind. destruct (for_of slots _ _ w1) as [[synced|e] w2]; [|done].
    destruct (synced.2); [|by intros [= <- <-]].
    destruct (findEntry _ _) as [[i current]|] eqn:Hf; intros [= <- <-]; [|done].
    apply findEntry_Some in Hf as [Hi Hp]. apply bool_decide_eq_true in Hp.
    eapply settled_insert; [done|done|cbn; congruence|congruence].
Qed.


(** C1 (amended).  A routine created offline is returned at once with a
    'temp-' id and the [_isOffline] marker, stored and shown.  The next
    [syncOfflineChanges] makes the calls of the stored routines one after
    the other, among them, at this record's place, one [CreateRoutine] with
    the record's data fields; when the service accepts that create and
    issues ids that are new to Local Store, the view afterwards holds the
    confirmed record and nothing under the provisional id.  For tasks,
    [syncOfflineChanges] only reloads: it makes no call but the connection
    test and the fetch, and the task created offline keeps its 'temp_' id
    in Local Store. *)
Theorem offline_create_then_reconcile clock routine newTask userId uid w :
  idb_status w = Healthy → keyed Routine.id (idb_routines w) →
  truthy userId = Some uid →
  (∀ s0, ∃ s' row,
     serve s0 (CreateRoutine (<["createdAt" := VStr (toISOString clock)]> routine))
     = (s', inr row)) →
  (∀ s0 f s' row, serve s0 (CreateRoutine f) = (s', inr row) →
     idb_routines w !! row.1 = None
     ∧ row.1 ≠ "temp-" +:+ dateNow clock +:+ "-" +:+ mathRandom clock) →
  let tempId := "temp-" +:+ dateNow clock +:+ "-" +:+ mathRandom clock in
  let r := Routine.mk tempId (<["createdAt" := VStr (toISOString clock)]> routine)
             (Some []) true false false in
  let w1 := (createRoutine serve true clock routine w).2 in
  let w2 := (syncOfflineChanges serve false w1).2 in
  let tempTaskId := "temp_" +:+ dateNow clock +:+ "_" +:+ mathRandom clock in
  let v1 := (handleCreateTask serve userId true clock newTask w).2 in
  let v2 := (syncOfflineChanges_tasks serve userId false v1).2 in
  ((createRoutine serve true clock routine w).1 = Resolved r
   ∧ idb_routines w1 !! tempId = Some r
   ∧ routines w1 = r :: routines w
   ∧ (∃ before after,
        store_getAll (idb_routines w1) = before ++ r :: after
        ∧ (∀ x, x ∈ before ++ after → Routine.id x ≠ tempId)
        ∧ requests (calls_since w1 w2)
          = flat_map routine_requests before
            ++ CreateRoutine (Routine.fields r) :: flat_map routine_requests after)
   ∧ (tempId ∉ map Routine.id (routines w2))
   ∧ (∃ s0 s' row,
        serve s0 (CreateRoutine (Routine.fields r)) = (s', inr row)
        ∧ Routine.mk row.1 row.2 (Some []) false false false ∈ routines w2))
  ∧ (is_Some (idb_tasks v1 !! tempTaskId)
     ∧ Forall load_request (requests (calls_since v1 v2))
     ∧ is_Some (idb_tasks v2 !! tempTaskId)).
Proof.
  intros Hst Hk Hu Haccept Hfresh. cbn zeta. split.
  - rewrite (createRoutine_offline w clock routine Hst). cbn [fst snd].
    set (tempId := "temp-" +:+ dateNow clock +:+ "-" +:+ mathRandom clock) in *.
    set (r := Routine.mk tempId _ _ _ _ _).
    set (w1 := set_routines _ _).
    assert (Hst1 : idb_status w1 = Healthy) by done.
    assert (Hm1 : idb_routines w1 = <[tempId := r]> (idb_routines w)) by done.
    assert (Hk1 : keyed Routine.id (idb_routines w1)).
    { rewrite Hm1. by apply map_Forall_insert_2. }
    assert (Hr1 : idb_routines w1 !! tempId = Some r).
    { rewrite Hm1. by rewrite lookup_insert_eq. }
    split; [done|]. split; [done|]. split; [done|].
    assert (Hin : r ∈ store_getAll (idb_routines w1)) by (apply elem_of_getAll; eauto).
    pose proof (getAll_NoDup Routine.id _ Hk1) as Hnd.
    pose proof (λ x, proj1 (getAll_lookup Routine.id (idb_routines w1) x Hk1)) as Hstored.
    destruct (sync_pass w1 Hst1) as (synced & l & wz & Hrun & _ & _ & Hfinal).
    pose proof (sync_pass_requests w1 Hst1) as Hreq.
    revert Hnd Hstored Hrun Hreq.
    apply list_elem_of_split in Hin as (l1 & l2 & ->).
    intros Hnd Hstored Hrun Hreq.
    rewrite map_app in Hnd. cbn in Hnd.
    apply NoDup_app in Hnd as (_ & Hdisj & Hnd2). apply NoDup_cons in Hnd2 as [Hr2 _].
    assert (Hothers : ∀ x, x ∈ l1 ++ l2 → Routine.id x ≠ tempId).
    { intros x Hx Heq. apply elem_of_app in Hx as [Hx|Hx].
      - apply (Hdisj tempId); [|by left]. apply elem_of_map. eauto.
      - apply Hr2. apply elem_of_map. eauto. }
    split.
    { exists l1, l2. split; [done|]. split; [done|].
      rewrite Hreq, flat_map_app. done. }
    rewrite for_of_app in Hrun.
    destruct (for_of_spec (sync_routine serve) routine_requests l1
                (λ a x v _, sync_routine_spec a x v)
                (l1 ++ r :: l2, false) w1) as (acc1 & c1 & wa & Hrun1 & _ & _).
    rewrite (bind_resolved _ _ _ _ _ Hrun1) in Hrun.
    cbn [for_of] in Hrun. unfold bind at 1 in Hrun.
    destruct (Haccept (srv wa)) as (s' & row & Hserve).
    unfold sync_routine at 1 in Hrun. cbn [Routine._isOfflineDeleted Routine._isOffline r] in Hrun.
    unfold try_catch, bind, createRoutineService, bind, call, ret in Hrun.
    cbn [Routine.fields Routine.id r] in Hrun. rewrite Hserve in Hrun. cbn -[for_of] in Hrun.
    destruct (Hfresh _ _ _ _ Hserve) as [Hnew Hne].
    set (confirmed := Routine.mk row.1 row.2 (Some []) false false false) in *.
    assert (Hs : settled tempId confirmed synced).
    { eapply (for_of_invariant (sync_routine serve) (settled tempId confirmed) l2);
        [|exact Hrun|].
      - intros acc y v acc' v' Hy. apply sync_routine_settled.
        + intros s0 f s1 row' Hrow'. by destruct (Hfresh _ _ _ _ Hrow').
        + apply Hothers, elem_of_app. by right.
        + intros Heq. cbn in Heq.
          assert (Hy' : y ∈ l1 ++ r :: l2) by (apply elem_of_app; right; by right).
          apply Hstored in Hy'. rewrite Heq, Hm1, lookup_insert_ne in Hy' by done.
          congruence.
      - split; [|split; [|done]]; cbn.
        + intros x Hx. apply elem_of_app in Hx as [Hx|Hx].
          * apply list_elem_of_In, filter_In in Hx as [_ Hx].
            apply negb_true_iff, bool_decide_eq_false in Hx. done.
          * apply list_elem_of_singleton in Hx as ->. done.
        + apply elem_of_app. right. by left. }
    destruct Hs as (H1 & H2 & H3). rewrite H3 in Hfinal. rewrite Hfinal.
    cbn [routines set_routines]. split.
    + intros Hx. apply elem_of_map in Hx as (x & Hid & Hx). by apply (H1 x Hx).
    + by exists (srv wa), s', row.
  - rewrite (handleCreateTask_offline userId uid w clock newTask Hst Hu). cbn [fst snd].
    set (v1 := set_tasks _ _).
    assert (Hv1 : is_Some (idb_tasks v1 !! ("temp_" +:+ dateNow clock +:+ "_" +:+ mathRandom clock))).
    { subst v1. cbn. rewrite lookup_insert_eq. eauto. }
    split; [done|].
    destruct (loadTasks_reloads_only userId false v1) as [Hcalls Hgrow].
    split; [done|]. by apply Hgrow.
Qed.


(** C3 (amended).  An offline delete of a stored routine that is synced --
    it holds no marker -- takes it out of the view and keeps it in Local
    Store, where it now holds [_isOfflineDeleted] and no other marker; the
    [syncOfflineChanges] that runs next, on that state, calls
    [DeleteRoutine] for it exactly once.  An offline delete of a task
    removes it from the view and from Local Store at once, and the tasks'
    [syncOfflineChanges] makes no call but the connection test and the
    fetch. *)
Theorem offline_delete_then_reconcile id r taskId userId w :
  idb_status w = Healthy → keyed Routine.id (idb_routines w) →
  idb_routines w !! id = Some r → tags_held r = [] →
  let w1 := (deleteRoutine serve true id w).2 in
  let w2 := (syncOfflineChanges serve false w1).2 in
  let v1 := (handleDeleteTask serve true taskId w).2 in
  let v2 := (syncOfflineChanges_tasks serve userId false v1).2 in
  (routines w1 = List.filter (λ x, negb (hasId id x)) (routines w)
   ∧ idb_routines w1 !! id = Some (Routine.with_isOfflineDeleted true r)
   ∧ tags_held <$> (idb_routines w1 !! id) = Some [pendingDelete]
   ∧ times (DeleteRoutine id) (requests (calls_since w1 w2)) = 1)
  ∧ (tasks v1 = List.filter (λ task, negb (eqb_id (Task.id task) taskId)) (tasks w)
     ∧ idb_tasks v1 !! taskId = None
     ∧ Forall load_request (requests (calls_since v1 v2))).
Proof.
  intros Hst Hk Hr Hsynced. cbn zeta. split.
  - rewrite (deleteRoutine_offline w id r Hst Hk Hr). cbn [snd].
    set (w1 := set_routines _ _).
    assert (Hst1 : idb_status w1 = Healthy) by done.
    assert (Hk1 : keyed Routine.id (idb_routines w1)).
    { subst w1. cbn. apply map_Forall_insert_2; [|done]. cbn. by apply (Hk _ _ Hr). }
    assert (Hr1 : idb_routines w1 !! id = Some (Routine.with_isOfflineDeleted true r)).
    { subst w1. cbn. by rewrite lookup_insert_eq. }
    split; [done|]. split; [done|]. split.
    { rewrite Hr1. cbn [fmap option_fmap option_map]. f_equal.
      revert Hsynced. unfold tags_held. cbn.
      by destruct (Routine._isOffline r), (Routine._isOfflineUpdated r),
        (Routine._isOfflineDeleted r). }
    rewrite (sync_pass_requests w1 Hst1).
    apply (times_delete_marked id _ (Routine.with_isOfflineDeleted true r)).
    + by apply getAll_NoDup.
    + apply elem_of_getAll; eauto.
    + cbn. by apply (Hk _ _ Hr).
    + done.
  - rewrite (handleDeleteTask_offline w taskId Hst). cbn [snd].
    split; [done|]. split; [cbn; by rewrite lookup_delete_eq|].
    apply loadTasks_reloads_only.
Qed.


(** C9 (the code at the failing input).  A routine created offline and
    deleted while still offline stays in Local Store, now also marked
    [_isOfflineDeleted], and the next [syncOfflineChanges] calls
    [DeleteRoutine] with its provisional id. *)
Theorem deleted_provisional_routine_is_replayed clock routine w :
  idb_status w = Healthy → keyed Routine.id (idb_routines w) →
  let tempId := "temp-" +:+ dateNow clock +:+ "-" +:+ mathRandom clock in
  let r := Routine.mk tempId (<["createdAt" := VStr (toISOString clock)]> routine)
             (Some []) true false false in
  let w1 := (createRoutine serve true clock routine w).2 in
  let w2 := (deleteRoutine serve true tempId w1).2 in
  let w3 := (syncOfflineChanges serve false w2).2 in
  idb_routines w2 !! tempId = Some (Routine.with_isOfflineDeleted true r)
  ∧ times (DeleteRoutine tempId) (requests (calls_since w2 w3)) = 1.
Proof.
  intros Hst Hk. cbn zeta.
  rewrite (createRoutine_offline w clock routine Hst). cbn [snd].
  set (tempId := "temp-" +:+ dateNow clock +:+ "-" +:+ mathRandom clock).
  set (r := Routine.mk tempId _ _ _ _ _).
  set (w1 := set_routines _ _).
  assert (Hst1 : idb_status w1 = Healthy) by done.
  assert (Hk1 : keyed Routine.id (idb_routines w1)).
  { subst w1. cbn. by apply map_Forall_insert_2. }
  assert (Hr1 : idb_routines w1 !! tempId = Some r).
  { subst w1. cbn. by rewrite lookup_insert_eq. }
  rewrite (deleteRoutine_offline w1 tempId r Hst1 Hk1 Hr1). cbn [snd].
  set (w2 := set_routines _ _).
  assert (Hst2 : idb_status w2 = Healthy) by done.
  assert (Hk2 : keyed Routine.id (idb_routines w2)).
  { subst w2. cbn. by apply map_Forall_insert_2. }
  assert (Hr2 : idb_routines w2 !! tempId = Some (Routine.with_isOfflineDeleted true r)).
  { subst w2. cbn. by rewrite lookup_insert_eq. }
  split; [done|]. rewrite (sync_pass_requests w2 Hst2).
  apply (times_delete_marked tempId _ (Routine.with_isOfflineDeleted true r)); try done.
  - by apply getAll_NoDup.
  - apply elem_of_getAll; eauto.
Qed.

Lemma getAll_singleton {A} (k : string) (x : A) : store_getAll ({[k := x]} : gmap string A) = [x].
Proof. unfold store_getAll. by rewrite map_to_list_singleton. Qed.

(** C4 (the code at the failing input).  Local Store holds one routine
    marked for deletion; the first pass deletes it on the service, which
    accepts; the save that follows only puts, so the routine is still
    stored with its marker, and a second pass calls [DeleteRoutine] again. *)
Theorem second_pass_repeats_delete w id r s :
  idb_status w = Healthy →
  idb_routines w = {[id := r]} → Routine.id r = id →
  Routine._isOfflineDeleted r = true →
  serve (srv w) (DeleteRoutine id) = (s, inr tt) →
  let w1 := (syncOfflineChanges serve false w).2 in
  let w2 := (syncOfflineChanges serve false w1).2 in
  calls_since w w1 = [(DeleteRoutine id, true)]
  ∧ idb_routines w1 !! id = Some r
  ∧ requests (calls_since w1 w2) = [DeleteRoutine id].
Proof.
  intros Hst Hm Hid Hdel Hserve. cbn zeta.
  assert (Hw1 : (syncOfflineChanges serve false w).2
                = set_routines [] (set_log (log w ++ [(DeleteRoutine id, true)]) (set_srv s w))).
  { unfold syncOfflineChanges, try_catch.
    rewrite (bind_resolved _ _ _ _ _ (getAll_healthy _ _ Hst)).
    change (contents STORES_ROUTINES w) with (idb_routines w).
    rewrite Hm, getAll_singleton. cbn [for_of].
    unfold sync_routine. rewrite Hdel.
    unfold try_catch, bind, deleteRoutineService, call, ret. rewrite Hid, Hserve. cbn.
    unfold hasId, eqb_id. rewrite Hid, bool_decide_eq_true_2 by done. cbn.
    unfold saveToIndexedDB, try_catch, bind, initDB, transaction_put, ret, setRoutines, modify.
    cbn. rewrite Hst. cbn. rewrite Hst. cbn. destruct w; cbn in *. by subst. }
  rewrite Hw1. split.
  { unfold calls_since. cbn. by rewrite drop_app_length. }
  split; [cbn; by rewrite Hm, lookup_singleton_eq|].
  rewrite sync_pass_requests by done. cbn [idb_routines set_routines set_log set_srv].
  rewrite Hm, getAll_singleton. cbn. unfold routine_requests. by rewrite Hdel, Hid.
Qed.

(** C7 (the code at the failing input).  When the database opens but the
    request on it fails, [getAllFromIndexedDB] and [getByIdFromIndexedDB]
    reject with the request's error: the promise is returned from the [try]
    block without being awaited, so the [catch] clause does not see it. *)
Theorem read_request_failure_rejects {A} (store : Store Srv A) (id : string) w e :
  let w' := set_idb_status (RequestFails e) w in
  getAllFromIndexedDB store w' = (Rejected e, w')
  ∧ getByIdFromIndexedDB store id w' = (Rejected e, w').
Proof. done. Qed.

(** Only a failure to open the database is degraded to an empty result. *)
Lemma read_open_failure_degrades {A} (store : Store Srv A) (id : string) w e :
  let w' := set_idb_status (OpenFails e) w in
  getAllFromIndexedDB store w' = (Resolved [], w')
  ∧ getByIdFromIndexedDB store id w' = (Resolved None, w').
Proof. done. Qed.

End Proofs.

(** * The scenarios, run *)

(** C8 (the code at the failing input).  One pass over a routine marked for
    deletion and a routine marked updated, with the service accepting the
    delete and rejecting the update: both calls are made and the failed
    update keeps its marker, but the routine whose delete succeeded is still
    in Local Store with [_isOfflineDeleted] set. *)
Theorem purged_routine_keeps_its_marker :
  let w1 := (syncOfflineChanges updatesRejected false twoMarked).2 in
  calls_since twoMarked w1
  = [(DeleteRoutine "srv-7", true); (UpdateRoutine "srv-8" (Routine.fields srv8), false)]
  ∧ idb_routines w1 !! "srv-8" = Some (Routine.with_isOfflineUpdated true srv8)
  ∧ idb_routines w1 !! "srv-7" = Some (Routine.with_isOfflineDeleted true srv7).
Proof. cbn zeta. repeat split; by vm_compute. Qed.

(** C1 as stated fails: after the offline create of a task and a reconnect,
    the only calls are the connection test and the fetch (no create at
    all), the view is the fetched, empty list, and the provisional id is
    still in Local Store; for a routine the create is replayed and accepted,
    yet the provisional id is still in Local Store afterwards. *)
Lemma offline_created_task_is_never_replayed :
  requests (calls_since taskCreated taskReconciled) = [TestConnection; FetchTasks "alice"]
  ∧ tasks taskReconciled = []
  ∧ is_Some (idb_tasks taskReconciled !! tempTaskId)
  ∧ requests (calls_since routineCreated routineReconciled)
    = [CreateRoutine (<["createdAt" := VStr (toISOString clock0)]> spring)]
  ∧ Forall (λ c, c.2 = true) (calls_since routineCreated routineReconciled)
  ∧ is_Some (idb_routines routineReconciled !! tempRoutineId).
Proof.
  split; [by vm_compute|]. split; [by vm_compute|].
  split; [apply (bool_decide_unpack _); by vm_compute|].
  split; [by vm_compute|].
  split; [apply (bool_decide_unpack _); by vm_compute|].
  apply (bool_decide_unpack _); by vm_compute.
Qed.

(** C2 as stated fails: the fetch returns one task, the view shows it, and
    the task stored before, absent from the fetch, is still in Local Store. *)
Lemma online_load_keeps_absent_record :
  tasks reloaded = [freshTask]
  ∧ ("srv-1" ∉ map Task.id (tasks reloaded))
  ∧ idb_tasks reloaded !! "srv-1" = Some staleTask.
Proof.
  split; [by vm_compute|]. split; [|by vm_compute].
  apply (bool_decide_unpack _); by vm_compute.
Qed.

(** C3 as stated fails: the task deleted offline is not retained in Local
    Store, and the reconnect makes no delete call for it; for the routine
    the delete is replayed once and accepted, yet the record is still in
    Local Store, marked, afterwards. *)
Lemma offline_task_delete_is_not_retained :
  idb_tasks task7Deleted !! "srv-7" = None
  ∧ requests (calls_since task7Deleted task7Reconciled) = [TestConnection; FetchTasks "alice"]
  ∧ calls_since routine7Deleted routine7Reconciled = [(DeleteRoutine "srv-7", true)]
  ∧ idb_routines routine7Reconciled !! "srv-7"
    = Some (Routine.with_isOfflineDeleted true srv7).
Proof. repeat split; by vm_compute. Qed.

(** C5 as stated fails: the routine created offline and then updated offline
    holds two tags at once. *)
Lemma markers_stack :
  tags_held <$> (idb_routines routineEdited !! tempRoutineId)
  = Some [pendingCreate; pendingUpdate].
Proof. by vm_compute. Qed.

(** * The statements at the scenarios *)

Lemma online_rejection_leaves_no_trace_witness :
  let run := run_mutation unreachable alice false clock0 (UpdateTaskM "srv-7" autumn) synced7 in
  run.1 = Rejected "rejected by the server"
  ∧ idb_tasks run.2 = idb_tasks synced7
  ∧ idb_routines run.2 = idb_routines synced7
  ∧ tasks run.2 = tasks synced7
  ∧ routines run.2 = routines synced7.
Proof.
  apply (online_rejection_leaves_no_trace unreachable alice "alice" clock0
           (UpdateTaskM "srv-7" autumn) synced7 tt "rejected by the server");
    reflexivity.
Defined.

Lemma local_tasks_filtered_by_user_witness :
  let w' := (loadTasks online alice true sharedDevice).2 in
  let served := List.filter (ownedBy "alice") (store_getAll (idb_tasks sharedDevice)) in
  (tasks w' = tasks sharedDevice
   ∨ Forall (λ t, Task.userId t = Some "alice" ∧ t ∈ store_getAll (idb_tasks sharedDevice))
       (tasks w'))
  ∧ (true = true → idb_status sharedDevice = Healthy → tasks w' = served).
Proof.
  apply (local_tasks_filtered_by_user online alice "alice" true sharedDevice);
    [reflexivity | left; reflexivity].
Defined.

Lemma markers_accumulate_witness :
  (∀ updates,
     idb_routines (run_offline online alice clock0 [UpdateRoutineM "srv-7" updates]
                     withTimetable) !! "srv-7"
     = Some (Routine.with_isOfflineUpdated true (mergeRoutine updates timetable)))
  ∧ (Routine._isOffline timetable = false →
     idb_routines (run_offline online alice clock0 [DeleteRoutineM "srv-7"] withTimetable)
       !! "srv-7"
     = Some (Routine.with_isOfflineDeleted true timetable))
  ∧ (∀ slotId updates slot,
       slot ∈ default [] (Routine.slots timetable) → Slot.id slot = slotId →
       ∃ r', idb_routines (run_offline online alice clock0 [UpdateSlotM "srv-7" slotId updates]
                             withTimetable) !! "srv-7" = Some r'
             ∧ Slot.with_isOfflineUpdated true (mergeSlot updates slot)
               ∈ default [] (Routine.slots r'))
  ∧ (∀ slotId slot,
       slot ∈ default [] (Routine.slots timetable) → Slot.id slot = slotId →
       Slot._isOffline slot = false →
       ∃ r', idb_routines (run_offline online alice clock0 [DeleteSlotM "srv-7" slotId]
                             withTimetable) !! "srv-7" = Some r'
             ∧ Slot.with_isOfflineDeleted true slot ∈ default [] (Routine.slots r'))
  ∧ ∃ r', idb_routines (run_offline online alice clock0 slotEdits withTimetable) !! "srv-7"
          = Some r'
          ∧ markers_kept timetable r'
          ∧ (∀ s', s' ∈ default [] (Routine.slots r') →
               ∃ s, s ∈ default [] (Routine.slots timetable) ∧ slot_markers_kept s s').
Proof.
  apply (markers_accumulate online alice clock0 slotEdits withTimetable "srv-7" timetable).
  - reflexivity.
  - unfold keyed. compute_done.
  - reflexivity.
  - by vm_compute.
  - reflexivity.
Defined.

Lemma online_load_upserts_witness :
  let wt := (loadTasks refetch alice false cached).2 in
  let wr := (loadRoutines refetch false cached).2 in
  let fetched := map routine_of_row [("srv-8", autumn, Some [("slot-1", spring)])] in
  (tasks wt = [freshTask]
   ∧ (∀ k, k ∉ map Task.id [freshTask] → idb_tasks wt !! k = idb_tasks cached !! k)
   ∧ (∀ k, k ∈ map Task.id [freshTask] →
        ∃ t, t ∈ [freshTask] ∧ Task.id t = k
             ∧ idb_tasks wt !! k = Some (Task.with_userId (Some "alice") t)))
  ∧ (routines wr = fetched
     ∧ (∀ k, k ∉ map Routine.id fetched → idb_routines wr !! k = idb_routines cached !! k)
     ∧ (∀ k, k ∈ map Routine.id fetched →
          ∃ r, r ∈ fetched ∧ Routine.id r = k ∧ idb_routines wr !! k = Some r)).
Proof.
  apply (online_load_upserts refetch alice "alice" cached tt tt [freshTask] tt
           [("srv-8", autumn, Some [("slot-1", spring)])]);
    reflexivity.
Defined.

Lemma offline_create_then_reconcile_witness :
  let tempId := "temp-" +:+ dateNow clock0 +:+ "-" +:+ mathRandom clock0 in
  let r := Routine.mk tempId (<["createdAt" := VStr (toISOString clock0)]> autumn)
             (Some []) true false false in
  let w1 := (createRoutine online true clock0 autumn synced7).2 in
  let w2 := (syncOfflineChanges online false w1).2 in
  let tempTask := "temp_" +:+ dateNow clock0 +:+ "_" +:+ mathRandom clock0 in
  let v1 := (handleCreateTask online alice true clock0 labReport synced7).2 in
  let v2 := (syncOfflineChanges_tasks online alice false v1).2 in
  ((createRoutine online true clock0 autumn synced7).1 = Resolved r
   ∧ idb_routines w1 !! tempId = Some r
   ∧ routines w1 = r :: routines synced7
   ∧ (∃ before after,
        store_getAll (idb_routines w1) = before ++ r :: after
        ∧ (∀ x, x ∈ before ++ after → Routine.id x ≠ tempId)
        ∧ requests (calls_since w1 w2)
          = flat_map routine_requests before
            ++ CreateRoutine (Routine.fields r) :: flat_map routine_requests after)
   ∧ (tempId ∉ map Routine.id (routines w2))
   ∧ (∃ s0 s' row,
        online s0 (CreateRoutine (Routine.fields r)) = (s', inr row)
        ∧ Routine.mk row.1 row.2 (Some []) false false false ∈ routines w2))
  ∧ (is_Some (idb_tasks v1 !! tempTask)
     ∧ Forall load_request (requests (calls_since v1 v2))
     ∧ is_Some (idb_tasks v2 !! tempTask)).
Proof.
  refine (offline_create_then_reconcile online clock0 autumn labReport alice "alice" synced7
            _ _ _ _ _).
  - reflexivity.
  - unfold keyed. compute_done.
  - reflexivity.
  - intros s0. eexists _, _. reflexivity.
  - intros s0 f s' row [= _ <-]. split; [reflexivity | discriminate].
Defined.

Lemma offline_delete_then_reconcile_witness :
  let w1 := (deleteRoutine online true "srv-7" synced7).2 in
  let w2 := (syncOfflineChanges online false w1).2 in
  let v1 := (handleDeleteTask online true "srv-7" synced7).2 in
  let v2 := (syncOfflineChanges_tasks online alice false v1).2 in
  (routines w1 = List.filter (λ x, negb (hasId "srv-7" x)) (routines synced7)
   ∧ idb_routines w1 !! "srv-7" = Some (Routine.with_isOfflineDeleted true srv7)
   ∧ tags_held <$> (idb_routines w1 !! "srv-7") = Some [pendingDelete]
   ∧ times (DeleteRoutine "srv-7") (requests (calls_since w1 w2)) = 1)
  ∧ (tasks v1 = List.filter (λ task, negb (eqb_id (Task.id task) "srv-7")) (tasks synced7)
     ∧ idb_tasks v1 !! "srv-7" = None
     ∧ Forall load_request (requests (calls_since v1 v2))).
Proof.
  apply (offline_delete_then_reconcile online "srv-7" srv7 "srv-7" alice synced7).
  - reflexivity.
  - unfold keyed. compute_done.
  - by vm_compute.
  - reflexivity.
Defined.

Lemma deleted_provisional_routine_is_replayed_witness :
  let w1 := (createRoutine online true clock0 spring world0).2 in
  let w2 := (deleteRoutine online true tempRoutineId w1).2 in
  let w3 := (syncOfflineChanges online false w2).2 in
  idb_routines w2 !! tempRoutineId = Some (Routine.with_isOfflineDeleted true createdOffline)
  ∧ times (DeleteRoutine tempRoutineId) (requests (calls_since w2 w3)) = 1.
Proof.
  apply (deleted_provisional_routine_is_replayed online clock0 spring world0).
  - reflexivity.
  - unfold keyed. compute_done.
Defined.

Lemma second_pass_repeats_delete_witness :
  let w1 := (syncOfflineChanges online false markedForDeletion).2 in
  let w2 := (syncOfflineChanges online false w1).2 in
  calls_since markedForDeletion w1 = [(DeleteRoutine "srv-7", true)]
  ∧ idb_routines w1 !! "srv-7" = Some (Routine.with_isOfflineDeleted true srv7)
  ∧ requests (calls_since w1 w2) = [DeleteRoutine "srv-7"].
Proof.
  apply (second_pass_repeats_delete online markedForDeletion "srv-7"
           (Routine.with_isOfflineDeleted true srv7) tt);
    reflexivity.
Defined.

(** * Further properties of the code *)

Lemma object_store_tasks {Srv} : object_store (@STORES_TASKS Srv).
Proof. by intros m w. Qed.

Lemma object_store_routines {Srv} : object_store (@STORES_ROUTINES Srv).
Proof. by intros m w. Qed.

Lemma lookup_foldl_put_last {A} (key : A → string) (m : gmap string A) before x after :
  key x ∉ map key after →
  foldl (put key) m (before ++ x :: after) !! key x = Some x.
Proof.
  intros Hlast. rewrite foldl_app. cbn.
  rewrite lookup_foldl_put_notin by done. unfold put. by rewrite lookup_insert_eq.
Qed.

Section Storage.
Context {Srv A : Type} (store : Store Srv A).
Implicit Types w : World Srv.

Lemma getById_healthy id w :
  idb_status w = Healthy →
  getByIdFromIndexedDB store id w = (Resolved (contents store w !! id), w).
Proof.
  intros H. unfold getByIdFromIndexedDB, bind, try_catch, initDB, ret, request_get.
  rewrite H; cbn; rewrite H. reflexivity.
Qed.

Lemma clear_healthy w :
  idb_status w = Healthy →
  clearIndexedDBStore store w = (Resolved tt, set_contents store ∅ w).
Proof.
  intros H. unfold clearIndexedDBStore, bind, try_catch, initDB, ret, request_clear.
  rewrite H; cbn; rewrite H. reflexivity.
Qed.

(** X1.  Round trip of one write.  After [saveToIndexedDB] has put an item
    into a healthy database, [getByIdFromIndexedDB] under the item's id
    returns that item, and every other id reads as it did before. *)
Theorem save_then_get x w :
  object_store store → idb_status w = Healthy →
  let w' := (saveToIndexedDB store (One x) w).2 in
  (getByIdFromIndexedDB store (key store x) w').1 = Resolved (Some x)
  ∧ ∀ id, id ≠ key store x →
      (getByIdFromIndexedDB store id w').1 = (getByIdFromIndexedDB store id w).1.
Proof.
  intros Hos Hst. cbn zeta. rewrite save_healthy by done. cbn [snd].
  destruct (Hos (put_data (key store) (contents store w) (One x)) w) as [Hc Hs].
  split.
  - rewrite getById_healthy by congruence. cbn [fst]. rewrite Hc. cbn. unfold put.
    by rewrite lookup_insert_eq.
  - intros id Hid. rewrite !getById_healthy by congruence. cbn [fst]. rewrite Hc. cbn.
    unfold put. by rewrite lookup_insert_ne.
Qed.

(** X2.  A batch write puts its items in order.  Ids that no item of the
    batch carries read as before; under an id of the batch the last item
    carrying it is read. *)
Theorem save_batch_then_get items w :
  object_store store → idb_status w = Healthy →
  let w' := (saveToIndexedDB store (Many items) w).2 in
  (∀ id, id ∉ map (key store) items →
     (getByIdFromIndexedDB store id w').1 = (getByIdFromIndexedDB store id w).1)
  ∧ (∀ before x after,
       items = before ++ x :: after → key store x ∉ map (key store) after →
       (getByIdFromIndexedDB store (key store x) w').1 = Resolved (Some x)).
Proof.
  intros Hos Hst. cbn zeta. rewrite save_healthy by done. cbn [snd].
  destruct (Hos (put_data (key store) (contents store w) (Many items)) w) as [Hc Hs].
  split.
  - intros id Hid. rewrite !getById_healthy by congruence. cbn [fst]. rewrite Hc. cbn.
    by rewrite lookup_foldl_put_notin.
  - intros before x after -> Hlast. rewrite getById_healthy by congruence.
    cbn [fst]. rewrite Hc. cbn. by rewrite lookup_foldl_put_last.
Qed.

(** X3.  On a database that does not open or that fails its requests,
    [saveToIndexedDB], [deleteFromIndexedDB] and [clearIndexedDBStore] reject
    with the error of the database and change nothing. *)
Theorem writes_propagate_failure data id w :
  idb_status w ≠ Healthy →
  ∃ error,
    (idb_status w = OpenFails error ∨ idb_status w = RequestFails error)
    ∧ saveToIndexedDB store data w = (Rejected error, w)
    ∧ deleteFromIndexedDB store id w = (Rejected error, w)
    ∧ clearIndexedDBStore store w = (Rejected error, w).
Proof.
  intros Hst.
  unfold saveToIndexedDB, deleteFromIndexedDB, clearIndexedDBStore, bind, try_catch, initDB,
    ret, throw, transaction_put, request_delete, request_clear.
  destruct (idb_status w) as [|e|e] eqn:Hs; [done| |]; exists e; cbn; rewrite ?Hs; auto.
Qed.

(** X4.  [deleteFromIndexedDB] on a healthy database resolves; the id then
    reads as absent, every other id reads as before, and deleting an id that
    was not stored leaves the store as it was. *)
Theorem delete_then_get id w :
  object_store store → idb_status w = Healthy →
  let w' := (deleteFromIndexedDB store id w).2 in
  (deleteFromIndexedDB store id w).1 = Resolved tt
  ∧ (getByIdFromIndexedDB store id w').1 = Resolved None
  ∧ (∀ id', id' ≠ id →
       (getByIdFromIndexedDB store id' w').1 = (getByIdFromIndexedDB store id' w).1)
  ∧ (contents store w !! id = None → contents store w' = contents store w).
Proof.
  intros Hos Hst. cbn zeta. rewrite delete_healthy by done. cbn [fst snd].
  destruct (Hos (delete id (contents store w)) w) as [Hc Hs].
  split; [done|]. split; [|split].
  - rewrite getById_healthy by congruence. cbn [fst]. by rewrite Hc, lookup_delete_eq.
  - intros id' Hid. rewrite !getById_healthy by congruence. cbn [fst].
    by rewrite Hc, lookup_delete_ne.
  - intros Hnone. rewrite Hc. by apply delete_id.
Qed.

(** X5.  After [clearIndexedDBStore] on a healthy database the store lists
    nothing and every id reads as absent. *)
Theorem clear_then_getAll w :
  object_store store → idb_status w = Healthy →
  let w' := (clearIndexedDBStore store w).2 in
  (getAllFromIndexedDB store w').1 = Resolved []
  ∧ ∀ id, (getByIdFromIndexedDB store id w').1 = Resolved None.
Proof.
  intros Hos Hst. cbn zeta. rewrite clear_healthy by done. cbn [snd].
  destruct (Hos ∅ w) as [Hc Hs]. split.
  - rewrite getAll_healthy by congruence. cbn [fst]. rewrite Hc.
    unfold store_getAll. by rewrite map_to_list_empty.
  - intros id. rewrite getById_healthy by congruence. cbn [fst]. by rewrite Hc.
Qed.

(** X6.  Over a store whose items are filed under their own ids,
    [getAllFromIndexedDB] lists each stored item once: no two listed items
    share an id, and an item is listed exactly when reading its id returns
    it. *)
Theorem getAll_agrees_with_getById w :
  idb_status w = Healthy → keyed (key store) (contents store w) →
  ∃ items,
    (getAllFromIndexedDB store w).1 = Resolved items
    ∧ NoDup (map (key store) items)
    ∧ ∀ x, x ∈ items ↔ (getByIdFromIndexedDB store (key store x) w).1 = Resolved (Some x).
Proof.
  intros Hst Hk. exists (store_getAll (contents store w)).
  rewrite getAll_healthy by done. split; [done|]. split; [by apply getAll_NoDup|].
  intros x. rewrite getById_healthy by done. cbn [fst].
  rewrite (getAll_lookup (key store) _ x Hk). split; [by intros ->|by intros [= ->]].
Qed.

(** X7.  The three writing functions keep every item filed under its own id,
    whatever the state of the database. *)
Theorem writes_keep_items_keyed data id w :
  object_store store → keyed (key store) (contents store w) →
  keyed (key store) (contents store (saveToIndexedDB store data w).2)
  ∧ keyed (key store) (contents store (deleteFromIndexedDB store id w).2)
  ∧ keyed (key store) (contents store (clearIndexedDBStore store w).2).
Proof.
  intros Hos Hk.
  assert (idb_status w = Healthy ∨ idb_status w ≠ Healthy) as [Hst|Hst].
  { destruct (idb_status w); [by left|by right..]. }
  - rewrite save_healthy, delete_healthy, clear_healthy by done. cbn [snd].
    rewrite !(proj1 (Hos _ w)).
    split; [by apply keyed_put_data|]. split; [by apply keyed_delete|].
    apply map_Forall_empty.
  - unfold saveToIndexedDB, deleteFromIndexedDB, clearIndexedDBStore, bind, try_catch, initDB,
      ret, throw, transaction_put, request_delete, request_clear.
    destruct (idb_status w) as [|e|e] eqn:Hs; [done|..]; cbn; rewrite ?Hs; done.
Qed.

End Storage.

Section Quiet.
Context {Srv : Type}.
Implicit Types w : World Srv.

Lemma quiet_ret {A} (a : A) : quiet (@ret Srv A a).
Proof. by intros w. Qed.

Lemma quiet_throw {A} e : quiet (@throw Srv A e).
Proof. by intros w. Qed.

Lemma quiet_bind {A B} (m : Async Srv A) (k : A → Async Srv B) :
  quiet m → (∀ a, quiet (k a)) → quiet (bind m k).
Proof.
  intros Hm Hk w. unfold bind. destruct (Hm w) as [H1 H2].
  destruct (m w) as [[a|e] w1]; cbn in *; [|done].
  destruct (Hk a w1) as [H3 H4]. split; congruence.
Qed.

Lemma quiet_try_catch {A} (m : Async Srv A) (h : string → Async Srv A) :
  quiet m → (∀ e, quiet (h e)) → quiet (try_catch m h).
Proof.
  intros Hm Hh w. unfold try_catch. destruct (Hm w) as [H1 H2].
  destruct (m w) as [[a|e] w1]; cbn in *; [done|].
  destruct (Hh e w1) as [H3 H4]. split; congruence.
Qed.

Lemma quiet_modify (f : World Srv → World Srv) :
  (∀ w, srv (f w) = srv w ∧ log (f w) = log w) → quiet (modify f).
Proof. intros Hf w. apply Hf. Qed.

Lemma quiet_storage {A} (store : Store Srv A) data id :
  (∀ m w, srv (set_contents store m w) = srv w ∧ log (set_contents store m w) = log w) →
  quiet (saveToIndexedDB store data) ∧ quiet (deleteFromIndexedDB store id)
  ∧ quiet (getAllFromIndexedDB store) ∧ quiet (getByIdFromIndexedDB store id).
Proof.
  intros Hset.
  split; [|split; [|split]]; intros v;
    unfold saveToIndexedDB, deleteFromIndexedDB, getAllFromIndexedDB, getByIdFromIndexedDB,
      bind, try_catch, initDB, ret, throw, transaction_put, request_delete, request_getAll,
      request_get;
    destruct (idb_status v) eqn:Hs; cbn; rewrite ?Hs; cbn; auto; apply Hset.
Qed.

End Quiet.

Ltac quiet_step :=
  first
    [ match goal with
      | |- quiet (saveToIndexedDB ?s ?d) => apply (quiet_storage s d ""); by intros ? ?
      | |- quiet (deleteFromIndexedDB ?s ?i) =>
          apply (quiet_storage s (Many []) i); by intros ? ?
      | |- quiet (getByIdFromIndexedDB ?s ?i) =>
          apply (quiet_storage s (Many []) i); by intros ? ?
      | |- quiet (getAllFromIndexedDB ?s) =>
          apply (quiet_storage s (Many []) ""); by intros ? ?
      | |- quiet (modify _) => apply quiet_modify; by intros ?
      | |- quiet (match ?x with _ => _ end) => destruct x
      end
    | apply quiet_ret | apply quiet_throw
    | apply quiet_bind; [|intros ?]
    | apply quiet_try_catch; [|intros ?] ].

Section Offline.
Context {Srv : Type} (serve : Srv → ∀ q : Request, Srv * (string + Reply q)).
Implicit Types w : World Srv.

(** X8.  While offline no mutation of the two hooks calls the remote service:
    whichever of the nine mutations runs, in whatever world, the state of the
    service and the log of calls are left as they were. *)
Theorem offline_mutations_make_no_call userId clock m w :
  let w' := (run_mutation serve userId true clock m w).2 in
  srv w' = srv w ∧ log w' = log w.
Proof.
  revert w. change (quiet (run_mutation serve userId true clock m)).
  destruct m; cbn [run_mutation]; unfold settle, handleCreateTask, handleUpdateTask,
    handleDeleteTask, createRoutine, updateRoutine, deleteRoutine, addRoutineSlot,
    updateRoutineSlot, deleteRoutineSlot, setTasks, setRoutines;
    repeat quiet_step.
Qed.


(** X9.  [loadTasks] never rejects, whatever the user, the mode, the service
    and the database do.  With a user it ends with the loading flag down;
    without one it leaves the flag alone. *)
Theorem loadTasks_settles userId isOffline w :
  let run := loadTasks serve userId isOffline w in
  run.1 = Resolved tt
  ∧ tasksLoading run.2
    = match truthy userId with Some _ => false | None => tasksLoading w end.
Proof.
  cbn zeta. unfold loadTasks. destruct (truthy userId) as [uid|]; [|done].
  unfold try_finally, try_catch, bind, modify, testConnection, fetchTasks, call, setTasks,
    getAllFromIndexedDB, saveToIndexedDB, initDB, request_getAll, transaction_put, throw, ret,
    bind, try_catch.
  destruct isOffline; cbn.
  - destruct (idb_status w) eqn:Hst; cbn; repeat (rewrite Hst; cbn); done.
  - destruct (serve (srv w) TestConnection) as [s1 [e1|[|]]]; cbn.
    + destruct (idb_status w) eqn:Hst; cbn; repeat (rewrite Hst; cbn);
        try case_bool_decide; done.
    + destruct (serve s1 (FetchTasks uid)) as [s2 [e2|data]]; cbn;
        destruct (idb_status w) eqn:Hst; cbn; repeat (rewrite Hst; cbn);
        try case_bool_decide; done.
    + destruct (idb_status w) eqn:Hst; cbn; repeat (rewrite Hst; cbn);
        try case_bool_decide; done.
Qed.

(** X10.  An online load whose connection test or fetch fails falls back to
    the Local Store, which it leaves as it is.  If the store holds tasks of
    the user, these become the view and the error is cleared; if it holds
    none, the view is kept and the error stays set. *)
Theorem load_falls_back_to_cache userId uid w :
  truthy userId = Some uid → idb_status w = Healthy →
  fetch_fails serve uid w = true →
  let w' := (loadTasks serve userId false w).2 in
  let own := List.filter (ownedBy uid) (store_getAll (idb_tasks w)) in
  idb_tasks w' = idb_tasks w
  ∧ (own ≠ [] → tasks w' = own ∧ tasksError w' = None)
  ∧ (own = [] → tasks w' = tasks w ∧ is_Some (tasksError w')).
Proof.
  intros Hu Hst Hfail. cbn zeta. unfold loadTasks. rewrite Hu.
  unfold fetch_fails in Hfail.
  unfold try_finally, try_catch, bind, modify, testConnection, fetchTasks, call, setTasks,
    getAllFromIndexedDB, saveToIndexedDB, initDB, request_getAll, transaction_put, throw, ret,
    bind, try_catch.
  cbn.
  destruct (serve (srv w) TestConnection) as [s1 [e1|[|]]]; cbn;
    [|destruct (serve s1 (FetchTasks uid)) as [s2 [e2|data]]; [|discriminate]; cbn|];
    repeat (rewrite Hst; cbn);
    (destruct (List.filter (ownedBy uid) (store_getAll (idb_tasks w))) as [|task own];
     (case_bool_decide as Hlen; cbn in Hlen |- *; [|try lia]; try lia);
     (split; [done|]); split; intros Hown; try done; (split; [done|by eexists])).
Qed.

(** X11.  [handleUpdateTask] while offline.  For a task that is not stored it
    rejects with 'Task not found', records that message and changes nothing
    else.  For a stored task it resolves to that task with the updates laid
    over its properties and a fresh [updatedAt], id and owner kept; the
    result is written under the same id and replaces the task in the view. *)
Theorem offline_update_of_task userId clock taskId updates w :
  idb_status w = Healthy →
  let run := handleUpdateTask serve userId true clock taskId updates w in
  match idb_tasks w !! taskId with
  | None =>
      run = (Rejected "Task not found", set_tasksError (Some "Task not found") w)
  | Some existing =>
      ∃ updated,
        run.1 = Resolved updated
        ∧ Task.id updated = Task.id existing
        ∧ Task.userId updated = Task.userId existing
        ∧ Task.fields updated !! "updatedAt" = Some (VStr (toISOString clock))
        ∧ (∀ k, k ≠ "updatedAt" →
             Task.fields updated !! k
             = match updates !! k with
               | Some v => Some v
               | None => Task.fields existing !! k
               end)
        ∧ idb_tasks run.2 = <[Task.id existing := updated]> (idb_tasks w)
        ∧ tasks run.2
          = map (λ task, if eqb_id (Task.id task) taskId then updated else task) (tasks w)
  end.
Proof.
  intros Hst. cbn zeta. unfold handleUpdateTask, try_catch, bind, modify.
  rewrite (getById_healthy STORES_TASKS) by done. cbn -[getByIdFromIndexedDB].
  destruct (idb_tasks w !! taskId) as [existing|]; [|done].
  rewrite save_healthy by done. cbn.
  eexists. split; [done|]. split; [done|]. split; [done|].
  unfold Task.with_fields. cbn [Task.fields].
  split; [by rewrite lookup_insert_eq|]. split; [|done].
  intros k Hk. rewrite lookup_insert_ne by done. unfold spread.
  rewrite lookup_union. destruct (updates !! k), (Task.fields existing !! k); done.
Qed.

(** X12.  After [handleDeleteTask] -- offline, or online with the service
    accepting the delete -- the call has resolved to [true], the task is
    neither stored nor shown, and every other task is stored and shown as
    before. *)
Theorem deleted_task_is_gone isOffline taskId w s :
  idb_status w = Healthy →
  (isOffline = false → serve (srv w) (DeleteTask taskId) = (s, inr tt)) →
  let run := handleDeleteTask serve isOffline taskId w in
  run.1 = Resolved true
  ∧ idb_tasks run.2 !! taskId = None
  ∧ (taskId ∉ map Task.id (tasks run.2))
  ∧ (∀ id, id ≠ taskId → idb_tasks run.2 !! id = idb_tasks w !! id)
  ∧ (∀ task, Task.id task ≠ taskId → (task ∈ tasks run.2) ↔ (task ∈ tasks w)).
Proof.
  intros Hst Hok. cbn zeta.
  assert (Hview : ∀ l : list Task.t,
            (taskId ∉ map Task.id (List.filter (λ task, negb (eqb_id (Task.id task) taskId)) l))
            ∧ ∀ task, Task.id task ≠ taskId →
                (task ∈ List.filter (λ task, negb (eqb_id (Task.id task) taskId)) l) ↔ (task ∈ l)).
  { intros l. split.
    - intros Hin. apply elem_of_map in Hin as (t & -> & Hin).
      apply list_elem_of_In, filter_In in Hin as [_ Hin].
      apply negb_true_iff, bool_decide_eq_false in Hin. done.
    - intros task Hne. rewrite !list_elem_of_In, filter_In. split; [by intros []|].
      intros Hin. split; [done|]. apply negb_true_iff, bool_decide_eq_false. done. }
  destruct isOffline.
  - rewrite handleDeleteTask_offline by done. cbn.
    split; [done|]. split; [by rewrite lookup_delete_eq|].
    split; [apply Hview|]. split; [|apply Hview].
    intros id Hid. by rewrite lookup_delete_ne.
  - specialize (Hok eq_refl).
    unfold handleDeleteTask, try_catch, bind, modify, setTasks, deleteTask, call.
    cbn. rewrite Hok. cbn. rewrite delete_healthy by done. cbn.
    split; [done|]. split; [by rewrite lookup_delete_eq|].
    split; [apply Hview|]. split; [|apply Hview].
    intros id Hid. by rewrite lookup_delete_ne.
Qed.

(** X13.  A task created offline survives an offline reload.  The create
    resolves to a task under the provisional id [temp_<now>_<random>], which
    is shown at once; after [loadTasks] has run offline it is still shown,
    and it is stored under its provisional id. *)
Theorem offline_created_task_survives_reload userId uid clock newTask w :
  idb_status w = Healthy → truthy userId = Some uid →
  let created := handleCreateTask serve userId true clock newTask w in
  let reloaded := (loadTasks serve userId true created.2).2 in
  ∃ task,
    created.1 = Resolved task
    ∧ Task.id task = "temp_" +:+ dateNow clock +:+ "_" +:+ mathRandom clock
    ∧ task ∈ tasks created.2
    ∧ task ∈ tasks reloaded
    ∧ idb_tasks reloaded !! Task.id task = Some task.
Proof.
  intros Hst Hu. cbn zeta.
  rewrite (handleCreateTask_offline serve userId uid) by done. cbn zeta. cbn [fst snd].
  eexists. split; [done|]. split; [done|].
  split; [cbn; apply elem_of_app; right; by left|].
  unfold loadTasks. rewrite Hu.
  unfold try_finally, try_catch, bind, modify, setTasks.
  cbn -[store_getAll]. rewrite getAll_healthy by done. cbn -[store_getAll].
  split; [|by rewrite lookup_insert_eq].
  apply list_elem_of_In, filter_In. split.
  - apply list_elem_of_In, elem_of_getAll. eexists. by rewrite lookup_insert_eq.
  - unfold ownedBy. by apply bool_decide_eq_true.
Qed.

End Offline.

Lemma foldl_put_stored {A} (key : A → string) (m : gmap string A) l :
  (∀ x, x ∈ l → m !! key x = Some x) → foldl (put key) m l = m.
Proof.
  induction l as [|x l IH]; intros Hl; [done|]. cbn.
  unfold put at 2. rewrite insert_id by (apply Hl; by left).
  apply IH. intros y Hy. apply Hl. by right.
Qed.

Lemma foldl_put_fmap {A} (key : A → string) (f : A → A) (m : gmap string A) :
  keyed key m → (∀ x, key (f x) = key x) →
  foldl (put key) m (map f (store_getAll m)) = f <$> m.
Proof.
  intros Hm Hf.
  assert (Hkeys : map key (map f (store_getAll m)) = map key (store_getAll m)).
  { rewrite map_map. apply map_ext. done. }
  apply map_eq. intros k. rewrite lookup_fmap.
  destruct (m !! k) as [x|] eqn:Hk; cbn.
  - rewrite <-(Hm k x Hk), <-(Hf x). apply lookup_foldl_put_nodup.
    + rewrite Hkeys. by apply getAll_NoDup.
    + apply elem_of_map. exists x. split; [done|]. apply elem_of_getAll; eauto.
  - rewrite lookup_foldl_put_notin; [done|].
    rewrite Hkeys. intros Hin. apply (getAll_key_elem key m k Hm) in Hin as [x Hx]. congruence.
Qed.

Section Sync.
Context {Srv : Type} (serve : Srv → ∀ q : Request, Srv * (string + Reply q)).
Implicit Types w : World Srv.

Lemma sync_resolves isOffline w : (syncOfflineChanges serve isOffline w).1 = Resolved tt.
Proof.
  destruct isOffline; [done|]. unfold syncOfflineChanges, try_catch.
  by destruct (bind _ _ w) as [[[]|e] w1].
Qed.

Lemma for_of_rejected {A B} (body : B → A → Async Srv B) (g : A → list Request) xs :
  (∀ acc x w, x ∈ xs → ∃ acc' l w',
      body acc x w = (Resolved acc', w') ∧ after_calls w l w' ∧ l.*1 = g x
      ∧ (Forall (λ c, rejected c = true) l → acc' = acc)) →
  ∀ acc w, ∃ acc' l w',
    for_of xs body acc w = (Resolved acc', w')
    ∧ after_calls w l w' ∧ l.*1 = flat_map g xs
    ∧ (Forall (λ c, rejected c = true) l → acc' = acc).
Proof.
  induction xs as [|x xs IH]; intros Hbody acc w.
  - exists acc, [], w. cbn. split; [done|]. split; [apply after_calls_nil|done].
  - destruct (Hbody acc x w (list_elem_of_here _ _)) as (acc1 & l1 & w1 & Ho & Hw & Hl & Hr).
    destruct (IH (λ a y v Hy, Hbody a y v (list_elem_of_further _ _ _ Hy)) acc1 w1)
      as (acc2 & l2 & w2 & Ho2 & Hw2 & Hl2 & Hr2).
    exists acc2, (l1 ++ l2), w2. cbn [for_of flat_map].
    rewrite (bind_resolved _ _ _ _ _ Ho). split; [done|].
    split; [by eapply after_calls_app|]. split; [by rewrite fmap_app, Hl, Hl2|].
    intros [H1 H2]%Forall_app. rewrite Hr2, Hr; done.
Qed.

Ltac one_call s :=
  cbn; eexists _, [_], _; (split; [done|]); (split; [by exists s|]); (split; [done|]);
  try done; by intros [? _]%Forall_cons.

Lemma sync_slot_rejected routine acc slot w :
  ∃ acc' l w',
    sync_slot serve routine acc slot w = (Resolved acc', w')
    ∧ after_calls w l w' ∧ l.*1 = slot_requests routine slot
    ∧ (Forall (λ c, rejected c = true) l → acc' = acc).
Proof.
  unfold sync_slot, slot_requests.
  destruct (Slot._isOfflineDeleted slot); [|destruct (Slot._isOffline slot);
    [|destruct (Slot._isOfflineUpdated slot)]].
  - unfold try_catch, bind, deleteRoutineSlotService, call, ret.
    destruct (serve (srv w) _) as [s [e|a]]; cbn; [|destruct (findIndex _ _)]; one_call s.
  - unfold try_catch, bind, addRoutineSlotService, bind, call, ret.
    destruct (serve (srv w) _) as [s [e|a]]; cbn; [|destruct (findIndex _ _)]; one_call s.
  - unfold try_catch, bind, updateRoutineSlotService, call, ret.
    destruct (serve (srv w) _) as [s [e|a]]; cbn; [|destruct (findIndex _ _)]; one_call s.
  - exists acc, [], w. split; [done|]. split; [apply after_calls_nil|done].
Qed.

Lemma sync_routine_rejected acc routine w :
  ∃ acc' l w',
    sync_routine serve acc routine w = (Resolved acc', w')
    ∧ after_calls w l w' ∧ l.*1 = routine_requests routine
    ∧ (Forall (λ c, rejected c = true) l → acc' = acc).
Proof.
  unfold sync_routine, routine_requests.
  destruct (Routine._isOfflineDeleted routine); [|destruct (Routine._isOffline routine)].
  - unfold try_catch, bind, deleteRoutineService, call, ret.
    destruct (serve (srv w) _) as [s [e|a]]; one_call s.
  - unfold try_catch, bind, createRoutineService, bind, call, ret.
    destruct (serve (srv w) _) as [s [e|a]]; one_call s.
  - set (first :=
      if Routine._isOfflineUpdated routine
      then try_catch _ _ else ret acc).
    assert (∃ acc1 l1 w1, first w = (Resolved acc1, w1) ∧ after_calls w l1 w1
        ∧ l1.*1 = (if Routine._isOfflineUpdated routine
                   then [UpdateRoutine (Routine.id routine) (Routine.fields routine)]
                   else [])
        ∧ (Forall (λ c, rejected c = true) l1 → acc1 = acc)) as (acc1 & l1 & w1 & Ho1 & Hw1 & Hl1 & Hr1).
    { subst first. destruct (Routine._isOfflineUpdated routine).
      - unfold try_catch, bind, updateRoutineService, call, ret.
        destruct (serve (srv w) _) as [s [e|a]]; cbn; [|destruct (findIndex _ _)]; one_call s.
      - exists acc, [], w. split; [done|]. split; [apply after_calls_nil|done]. }
    rewrite (bind_resolved _ _ _ _ _ Ho1). rewrite <-Hl1.
    destruct (Routine.slots routine) as [slots|];
      [change (default [] (Some slots)) with slots
      |exists acc1, l1, w1; cbn; rewrite app_nil_r; done].
    case_bool_decide; [|destruct slots; [|cbn in *; lia];
                        exists acc1, l1, w1; cbn; rewrite app_nil_r; done].
    destruct (for_of_rejected (sync_slot serve routine) (slot_requests routine) slots
                (λ a x v _, sync_slot_rejected routine a x v) (slots, false) w1)
      as (synced & l2 & w2 & Ho2 & Hw2 & Hl2 & Hr2).
    rewrite (bind_resolved _ _ _ _ _ Ho2). rewrite <-Hl2, <-fmap_app.
    destruct (synced.2) eqn:Hch; [destruct (findEntry _ _) as [[i current]|]|];
      cbn; eexists _, (l1 ++ l2), _; (split; [done|]); (split; [by eapply after_calls_app|]);
      (split; [done|]); intros [H1 H2]%Forall_app;
      try (by apply Hr1); rewrite (Hr2 H2) in Hch; done.
Qed.

(** One pass over a healthy database, with what it leaves when every call
    it made was rejected. *)
Lemma sync_pass_rejected w :
  idb_status w = Healthy →
  ∃ synced l w1,
    after_calls w l w1
    ∧ l.*1 = flat_map routine_requests (store_getAll (idb_routines w))
    ∧ (Forall (λ c, rejected c = true) l → synced = (store_getAll (idb_routines w), false))
    ∧ calls_since w (syncOfflineChanges serve false w).2 = l
    ∧ (syncOfflineChanges serve false w).2
      = if synced.2
        then set_routines synced.1
               (set_idb_routines (foldl (put Routine.id) (idb_routines w) synced.1) w1)
        else w1.
Proof.
  intros Hst.
  destruct (for_of_rejected (sync_routine serve) routine_requests (store_getAll (idb_routines w))
              (λ a x v _, sync_routine_rejected a x v) (store_getAll (idb_routines w), false) w)
    as (synced & l & w1 & Hrun & Hw1 & Hl & Hr).
  exists synced, l, w1. split; [done|]. split; [done|]. split; [done|].
  destruct (after_calls_local _ _ _ Hw1) as (Hst1 & Hr1 & _).
  assert (Hw' : (syncOfflineChanges serve false w).2
      = if synced.2
        then set_routines synced.1
               (set_idb_routines (foldl (put Routine.id) (idb_routines w) synced.1) w1)
        else w1).
  { unfold syncOfflineChanges, try_catch.
    rewrite (bind_resolved _ _ _ _ _ (getAll_healthy _ _ Hst)).
    change (contents STORES_ROUTINES w) with (idb_routines w).
    rewrite (bind_resolved _ _ _ _ _ Hrun).
    destruct (synced.2); [|done].
    unfold bind. rewrite save_healthy by congruence. cbn. by rewrite Hr1. }
  split; [|done]. rewrite Hw'.
  destruct (synced.2); [|by apply calls_since_after].
  destruct Hw1 as [s ->]. unfold calls_since. cbn. by rewrite drop_app_length.
Qed.

(** X14.  A sync pass of the routines over a healthy database resolves
    whatever the service answers, and leaves the error, the loading flag and
    the state of the database alone: a rejected replay is reported nowhere. *)
Theorem sync_hides_service_failures w :
  idb_status w = Healthy →
  let run := syncOfflineChanges serve false w in
  run.1 = Resolved tt
  ∧ routinesError run.2 = routinesError w
  ∧ routinesLoading run.2 = routinesLoading w
  ∧ idb_status run.2 = Healthy.
Proof.
  intros Hst. cbn zeta. split; [apply sync_resolves|].
  destruct (sync_pass_rejected w Hst) as (synced & l & w1 & [s ->] & _ & _ & _ & ->).
  by destruct (synced.2).
Qed.

(** X15.  A sync pass that cannot read the Local Store makes no call.  When
    the read request fails, the pass resolves, having set the error 'Failed
    to sync offline changes' and nothing else; when the database does not
    open, the read degrades to an empty list and the pass resolves leaving
    the world exactly as it was. *)
Theorem sync_with_unreadable_store w e :
  let broken := set_idb_status (RequestFails e) w in
  let closed := set_idb_status (OpenFails e) w in
  syncOfflineChanges serve false broken
  = (Resolved tt, set_routinesError (Some "Failed to sync offline changes") broken)
  ∧ syncOfflineChanges serve false closed = (Resolved tt, closed).
Proof. done. Qed.

Lemma for_of_unmarked (l : list Routine.t) acc w :
  (∀ routine, routine ∈ l → unmarked routine = true) →
  for_of l (sync_routine serve) acc w = (Resolved acc, w).
Proof.
  intros Hclean. apply for_of_skip. intros x Hx a v.
  apply sync_routine_unmarked. by apply Hclean.
Qed.

(** X16.  A pass over a healthy store in which no routine and no slot carries
    a marker does nothing at all: no call, no write, no change of the view. *)
Theorem sync_without_markers_is_idle isOffline w :
  idb_status w = Healthy →
  forallb unmarked (store_getAll (idb_routines w)) = true →
  syncOfflineChanges serve isOffline w = (Resolved tt, w).
Proof.
  intros Hst Hclean. destruct isOffline; [done|].
  assert (∀ routine, routine ∈ store_getAll (idb_routines w) → unmarked routine = true)
    as Hall.
  { intros routine Hin. rewrite forallb_forall in Hclean. by apply Hclean, list_elem_of_In. }
  unfold syncOfflineChanges, try_catch.
  rewrite (bind_resolved _ _ _ _ _ (getAll_healthy _ _ Hst)).
  change (contents STORES_ROUTINES w) with (idb_routines w).
  by rewrite (bind_resolved _ _ _ _ _ (for_of_unmarked _ _ w Hall)).
Qed.

(** X17.  The calls of one pass are read off the markers of the stored
    routines.  The log grows by exactly the calls of the pass, and their
    requests are, routine by routine in the order the store lists them, the
    ones [routine_requests] gives. *)
Theorem sync_calls_follow_markers w :
  idb_status w = Healthy →
  let w' := (syncOfflineChanges serve false w).2 in
  log w' = log w ++ calls_since w w'
  ∧ requests (calls_since w w')
    = flat_map routine_requests (store_getAll (idb_routines w)).
Proof.
  intros Hst. cbn zeta.
  destruct (sync_pass_rejected w Hst) as (synced & l & w1 & [s Hw1] & Hl & _ & Hcalls & Hw').
  rewrite Hcalls. split; [|done]. rewrite Hw', Hw1. by destruct (synced.2).
Qed.

(** X18.  A pass every call of which was rejected leaves the Local Store, the
    view and the error as they were; the next pass finds the same markers. *)
Theorem rejected_pass_changes_nothing w :
  idb_status w = Healthy →
  forallb rejected (calls_since w (syncOfflineChanges serve false w).2) = true →
  let w' := (syncOfflineChanges serve false w).2 in
  idb_routines w' = idb_routines w ∧ routines w' = routines w
  ∧ routinesError w' = routinesError w.
Proof.
  intros Hst. cbn zeta.
  destruct (sync_pass_rejected w Hst) as (synced & l & w1 & [s Hw1] & Hl & Hr & Hcalls & Hw').
  rewrite Hcalls. intros Hrej.
  assert (Forall (λ c, rejected c = true) l) as Hall.
  { apply Forall_forall. intros c Hc. rewrite forallb_forall in Hrej.
    by apply Hrej, list_elem_of_In. }
  rewrite Hw', (Hr Hall), Hw1. done.
Qed.

End Sync.

Section RoutineHook.
Context {Srv : Type} (serve : Srv → ∀ q : Request, Srv * (string + Reply q)).
Implicit Types w : World Srv.

(** X19.  [deleteRoutine] while online, the service accepting the delete: the
    routine leaves the view, but the Local Store is exactly what it was, the
    deleted routine included, because the store is only ever written to with
    [put]. *)
Theorem online_delete_keeps_cached_routine w id s :
  idb_status w = Healthy → keyed Routine.id (idb_routines w) →
  serve (srv w) (DeleteRoutine id) = (s, inr tt) →
  let run := deleteRoutine serve false id w in
  run.1 = Resolved tt
  ∧ idb_routines run.2 = idb_routines w
  ∧ routines run.2 = List.filter (λ routine, negb (hasId id routine)) (routines w).
Proof.
  intros Hst Hk Hok. cbn zeta.
  unfold deleteRoutine, try_catch, bind, modify, deleteRoutineService, call, setRoutines.
  cbn. rewrite Hok. cbn.
  rewrite getAll_healthy by done. cbn -[store_getAll].
  rewrite save_healthy by done. cbn -[store_getAll].
  split; [done|]. split; [|done].
  apply foldl_put_stored. intros x Hx.
  apply list_elem_of_In, filter_In in Hx as [Hx _].
  by apply (getAll_lookup Routine.id), list_elem_of_In.
Qed.

(** X20.  [deleteRoutineSlot] while offline, on a stored routine.  In the
    store, a slot with that id that was created offline is dropped, any other
    slot with that id stays and is marked deleted, and the slots with another
    id are what they were.  In the view the routine shows no slot with that
    id. *)
Theorem offline_slot_delete w routineId slotId r :
  idb_status w = Healthy → keyed Routine.id (idb_routines w) →
  idb_routines w !! routineId = Some r →
  let w' := (deleteRoutineSlot serve true routineId slotId w).2 in
  ∃ r',
    idb_routines w' !! routineId = Some r'
    ∧ (∀ slot, slot ∈ default [] (Routine.slots r') → Slot.id slot = slotId →
         Slot._isOffline slot = false ∧ Slot._isOfflineDeleted slot = true)
    ∧ (∀ slot, slot ∈ default [] (Routine.slots r) → Slot.id slot = slotId →
         Slot._isOffline slot = false →
         Slot.with_isOfflineDeleted true slot ∈ default [] (Routine.slots r'))
    ∧ (∀ slot, Slot.id slot ≠ slotId →
         (slot ∈ default [] (Routine.slots r')) ↔ (slot ∈ default [] (Routine.slots r)))
    ∧ (∀ routine slot, routine ∈ routines w' → Routine.id routine = routineId →
         slot ∈ default [] (Routine.slots routine) → Slot.id slot ≠ slotId).
Proof.
  intros Hst Hk Hr. cbn zeta. rewrite (deleteRoutineSlot_offline serve w routineId slotId r) by done.
  cbn. exists (markSlotDeleted slotId r). split; [by rewrite lookup_insert_eq|].
  unfold markSlotDeleted, mapSlot. cbn.
  assert (Hview : ∀ routine slot,
            routine ∈ mapRoutine routineId
              (λ routine0,
                 Routine.with_slots
                   (List.filter (λ slot0, negb (slotHasId slotId slot0)) <$>
                    Routine.slots routine0) routine0) (routines w) →
            Routine.id routine = routineId →
            slot ∈ default [] (Routine.slots routine) → Slot.id slot ≠ slotId).
  { intros routine slot Hin Hid Hslot.
    apply elem_of_map in Hin as (r0 & -> & Hr0).
    unfold hasId, eqb_id in *.
    destruct (bool_decide (Routine.id r0 = routineId)) eqn:Hr0id; cbn in *.
    - destruct (Routine.slots r0) as [slots0|]; cbn in Hslot; [|by apply elem_of_nil in Hslot].
      apply list_elem_of_In, filter_In in Hslot as [_ Hne].
      apply negb_true_iff in Hne. unfold slotHasId, eqb_id in Hne.
      by apply bool_decide_eq_false in Hne.
    - apply bool_decide_eq_false in Hr0id. done. }
  destruct (Routine.slots r) as [slots|]; cbn.
  - split; [|split; [|split; [|exact Hview]]].
    + intros slot Hin Hid.
      apply list_elem_of_In, filter_In in Hin as [Hin Hkeep].
      apply in_map_iff in Hin as (s0 & <- & Hs0).
      unfold slotHasId, eqb_id in *.
      destruct (bool_decide (Slot.id s0 = slotId)) eqn:Hs; cbn in *.
      * rewrite Hs in Hkeep. cbn in Hkeep. by apply negb_true_iff in Hkeep.
      * apply bool_decide_eq_false in Hs. done.
    + intros slot Hin Hid Hoff. apply list_elem_of_In, filter_In. split.
      * apply in_map_iff. exists slot. split; [|by apply list_elem_of_In].
        unfold slotHasId, eqb_id. by rewrite bool_decide_eq_true_2.
      * cbn. rewrite Hoff. by rewrite andb_false_r.
    + intros slot Hid. rewrite !list_elem_of_In, filter_In, in_map_iff. split.
      * intros [(s0 & <- & Hs0) _]. unfold slotHasId, eqb_id in *.
        destruct (bool_decide (Slot.id s0 = slotId)) eqn:Hs; cbn in *; [|done].
        by apply bool_decide_eq_true in Hs.
      * intros Hin. split.
        -- exists slot. split; [|done]. unfold slotHasId, eqb_id.
           by rewrite bool_decide_eq_false_2.
        -- unfold slotHasId, eqb_id. by rewrite bool_decide_eq_false_2.
  - split; [|split; [|split; [|exact Hview]]].
    + intros slot Hin. by apply elem_of_nil in Hin.
    + intros slot Hin. by apply elem_of_nil in Hin.
    + done.
Qed.

(** X21.  [addRoutineSlot] while offline needs the routine in the Local
    Store.  If it is not stored, the call rejects with 'Routine not found'
    and only the error is set.  If it is stored, the call resolves to a new
    slot of that routine under the provisional id
    [temp-slot-<now>-<random>], marked as created offline, which is appended
    to the stored routine and to the routine in the view. *)
Theorem offline_slot_needs_stored_routine clock routineId slot w :
  idb_status w = Healthy → keyed Routine.id (idb_routines w) →
  let run := addRoutineSlot serve true clock routineId slot w in
  match idb_routines w !! routineId with
  | None =>
      run = (Rejected "Routine not found", set_routinesError (Some "Routine not found") w)
  | Some r =>
      ∃ newSlot,
        run.1 = Resolved newSlot
        ∧ Slot._isOffline newSlot = true
        ∧ Slot.routineId newSlot = routineId
        ∧ Slot.id newSlot = "temp-slot-" +:+ dateNow clock +:+ "-" +:+ mathRandom clock
        ∧ idb_routines run.2 = <[routineId := pushSlot newSlot r]> (idb_routines w)
        ∧ routines run.2 = mapRoutine routineId (pushSlot newSlot) (routines w)
  end.
Proof.
  intros Hst Hk. cbn zeta.
  destruct (idb_routines w !! routineId) as [r|] eqn:Hr.
  - destruct (find_routine_stored _ _ _ Hk Hr) as [i Hi].
    unfold addRoutineSlot, try_catch, bind, modify, setRoutines.
    rewrite getAll_healthy by done. cbn -[store_getAll]. rewrite Hi. cbn -[store_getAll].
    rewrite save_healthy by done. cbn -[store_getAll].
    apply findEntry_Some in Hi as [Hi _].
    rewrite (foldl_put_getAll_insert Routine.id _ i r) by done.
    rewrite (Hk _ _ Hr). eexists. repeat (split; [done|]). done.
  - pose proof (find_routine_not_stored _ _ Hk Hr) as Hf.
    unfold addRoutineSlot, try_catch, bind, modify.
    rewrite getAll_healthy by done. cbn -[store_getAll]. by rewrite Hf.
Qed.

End RoutineHook.

Lemma stops_nil : stops_at_first_rejection [] true [].
Proof. done. Qed.

Lemma stops_one q b : stops_at_first_rejection [q] b [(q, b)].
Proof. destruct b; [done|]. by exists [], q, []. Qed.

Lemma stops_app plan1 plan2 l1 l2 b :
  stops_at_first_rejection plan1 true l1 → stops_at_first_rejection plan2 b l2 →
  stops_at_first_rejection (plan1 ++ plan2) b (l1 ++ l2).
Proof.
  unfold stops_at_first_rejection. intros ->. destruct b.
  - intros ->. by rewrite map_app.
  - intros (before & q & after & -> & ->).
    exists (plan1 ++ before), q, after. by rewrite map_app, !app_assoc.
Qed.

Lemma stops_early plan1 plan2 l1 :
  stops_at_first_rejection plan1 false l1 →
  stops_at_first_rejection (plan1 ++ plan2) false l1.
Proof.
  intros (before & q & after & -> & ->).
  exists before, q, (after ++ plan2). by rewrite <-app_assoc.
Qed.

Lemma isActive_setActive offline routineId routine :
  isActive (setActive offline routineId routine) = hasId routineId routine.
Proof.
  unfold isActive, setActive. cbn.
  destruct offline; [destruct (hasId routineId routine)|].
  - rewrite lookup_insert_ne by done. by rewrite lookup_insert_eq.
  - rewrite lookup_delete_ne by done. by rewrite lookup_insert_eq.
  - rewrite lookup_insert_eq. by destruct (hasId routineId routine).
Qed.

Lemma isActive_setInactive offline routineId routine :
  isActive (setInactive offline routineId routine)
  = isActive routine && negb (hasId routineId routine).
Proof.
  unfold isActive, setInactive. cbn.
  destruct offline; destruct (hasId routineId routine); cbn;
    rewrite ?lookup_insert_ne, ?lookup_delete_ne, ?lookup_insert_eq by done; cbn;
    by rewrite ?andb_false_r, ?andb_true_r.
Qed.

Lemma unmarked_setActive offline routineId routine :
  unmarked (setActive offline routineId routine) = unmarked routine.
Proof. done. Qed.

Lemma unmarked_setInactive offline routineId routine :
  unmarked (setInactive offline routineId routine) = unmarked routine.
Proof. done. Qed.

Section Activation.
Context {Srv : Type} (serve : Srv → ∀ q : Request, Srv * (string + Reply q)).
Implicit Types w : World Srv.

Lemma call_stops q w :
  after_calls w [(q, is_resolved (call serve q w).1)] (call serve q w).2.
Proof. unfold call. destruct (serve (srv w) q) as [s [e|a]]; by exists s. Qed.

Lemma deactivate_loop routineId xs w :
  let run :=
    for_of xs
      (λ (_ : unit) routine,
         if isActive routine && negb (hasId routineId routine)
         then updateRoutineService serve (Routine.id routine) (activeFlag false)
         else ret tt) tt w in
  ∃ l, after_calls w l run.2
       ∧ stops_at_first_rejection (deactivations routineId xs) (is_resolved run.1) l.
Proof.
  cbn zeta. revert w. induction xs as [|x xs IH]; intros w.
  - exists []. split; [apply after_calls_nil|done].
  - cbn [for_of]. unfold deactivations. cbn [flat_map]. fold (deactivations routineId xs).
    destruct (isActive x && negb (hasId routineId x)).
    + unfold bind, updateRoutineService.
      pose proof (call_stops (UpdateRoutine (Routine.id x) (activeFlag false)) w) as Hc.
      destruct (call serve _ w) as [[[]|e] w1]; cbn in Hc |- *.
      * destruct (IH w1) as (l & Hl & Hs).
        exists ([(UpdateRoutine (Routine.id x) (activeFlag false), true)] ++ l).
        split; [by eapply after_calls_app|].
        apply (stops_app [_] _ [_]); [done|done].
      * exists [(UpdateRoutine (Routine.id x) (activeFlag false), false)]. split; [done|].
        apply (stops_early [_]). apply stops_one.
    + unfold bind, ret. cbn. apply IH.
Qed.

Lemma activateRoutineService_spec routineId w :
  ∃ o l w',
    activateRoutineService serve routineId w = (o, w')
    ∧ after_calls w l w'
    ∧ ∀ s1 rows, serve (srv w) FetchRoutines = (s1, inr rows) →
        stops_at_first_rejection (activation_plan routineId rows) (is_resolved o) l.
Proof.
  unfold activateRoutineService, try_catch, fetchRoutines.
  pose proof (call_stops FetchRoutines w) as Hc.
  destruct (call serve FetchRoutines w) as [[rows|e] w1] eqn:Hcall; cbn in Hc.
  - destruct (deactivate_loop routineId (map routine_of_row rows) w1) as (l & Hl & Hs).
    cbn zeta in Hl, Hs.
    destruct (for_of _ _ tt w1) as [[[]|e] w2] eqn:Hloop; cbn in Hl, Hs.
    + pose proof (call_stops (UpdateRoutine routineId (activeFlag true)) w2) as Hu.
      destruct (call serve (UpdateRoutine _ _) w2) as [o3 w3] eqn:Hupd; cbn in Hu.
      exists o3, ([(FetchRoutines, true)] ++ l
                  ++ [(UpdateRoutine routineId (activeFlag true), is_resolved o3)]), w3.
      split.
      { rewrite (bind_resolved _ _ w (map routine_of_row rows) w1)
          by (unfold bind; by rewrite Hcall).
        rewrite (bind_resolved _ _ _ _ _ Hloop).
        unfold updateRoutineService. rewrite Hupd. by destruct o3. }
      split; [eapply after_calls_app; [done|]; by eapply after_calls_app|].
      intros s1 rows' Hf. unfold call in Hcall. rewrite Hf in Hcall.
      injection Hcall as <- _. unfold activation_plan.
      apply (stops_app [_] _ [_]); [done|]. apply stops_app; [done|apply stops_one].
    + exists (Rejected e), ([(FetchRoutines, true)] ++ l), w2.
      split.
      { rewrite (bind_resolved _ _ w (map routine_of_row rows) w1)
          by (unfold bind; by rewrite Hcall).
        unfold bind. by rewrite Hloop. }
      split; [by eapply after_calls_app|].
      intros s1 rows' Hf. unfold call in Hcall. rewrite Hf in Hcall.
      injection Hcall as <- _. unfold activation_plan.
      apply (stops_app [_] _ [_]); [done|]. by apply stops_early.
  - exists (Rejected e), [(FetchRoutines, false)], w1.
    split; [unfold bind; by rewrite Hcall|]. split; [done|].
    intros s1 rows' Hf. unfold call in Hcall. by rewrite Hf in Hcall.
Qed.

(** X22.  The calls of the service's [activateRoutine] once its fetch has
    succeeded.  It sets out to fetch, to deactivate every other active
    routine in the order fetched, then to activate the target, and it stops
    at the first rejected call: if it resolved, all these calls were made and
    accepted; if it rejected, the calls made are an accepted part of that
    sequence followed by the rejected call.  Nothing but the service and the
    log has moved. *)
Theorem activation_calls routineId w s1 rows :
  serve (srv w) FetchRoutines = (s1, inr rows) →
  let run := activateRoutineService serve routineId w in
  after_calls w (calls_since w run.2) run.2
  ∧ stops_at_first_rejection (activation_plan routineId rows) (is_resolved run.1)
      (calls_since w run.2).
Proof.
  intros Hf. cbn zeta.
  destruct (activateRoutineService_spec routineId w) as (o & l & w' & -> & Hl & Hs).
  cbn. rewrite (calls_since_after _ _ _ Hl). split; [done|]. by eapply Hs.
Qed.

Lemma activateRoutine_offline routineId w :
  idb_status w = Healthy → keyed Routine.id (idb_routines w) →
  activateRoutine serve true routineId w
  = (Resolved tt,
     set_idb_routines (setActive true routineId <$> idb_routines w)
       (set_routines (map (setActive true routineId) (routines w))
          (set_routinesError None w))).
Proof.
  intros Hst Hk. unfold activateRoutine, try_catch, bind, modify, setRoutines.
  cbn -[store_getAll]. rewrite getAll_healthy by done. cbn -[store_getAll].
  rewrite save_healthy by done. cbn -[store_getAll].
  by rewrite (foldl_put_fmap Routine.id).
Qed.

Lemma deactivateRoutine_offline routineId w :
  idb_status w = Healthy → keyed Routine.id (idb_routines w) →
  deactivateRoutine serve true routineId w
  = (Resolved tt,
     set_idb_routines (setInactive true routineId <$> idb_routines w)
       (set_routines (map (setInactive true routineId) (routines w))
          (set_routinesError None w))).
Proof.
  intros Hst Hk. unfold deactivateRoutine, try_catch, bind, modify, setRoutines.
  cbn -[store_getAll]. rewrite getAll_healthy by done. cbn -[store_getAll].
  rewrite save_healthy by done. cbn -[store_getAll].
  by rewrite (foldl_put_fmap Routine.id).
Qed.

Lemma activateRoutine_online routineId w :
  idb_status w = Healthy → keyed Routine.id (idb_routines w) →
  is_resolved (activateRoutine serve false routineId w).1 = true →
  ∃ l w1,
    after_calls (set_routinesError None w) l w1
    ∧ activateRoutine serve false routineId w
      = (Resolved tt,
         set_idb_routines (setActive false routineId <$> idb_routines w)
           (set_routines (map (setActive false routineId) (routines w)) w1)).
Proof.
  intros Hst Hk.
  destruct (activateRoutineService_spec routineId (set_routinesError None w))
    as (o & l & w1 & Hrun & Hl & _).
  unfold activateRoutine, try_catch, bind at 1, modify at 1. cbn beta iota.
  unfold bind at 1. rewrite Hrun. destruct o as [[]|e]; [|done]. intros _.
  exists l, w1. split; [done|].
  destruct (after_calls_local _ _ _ Hl) as (Hst1 & Hr1 & _ & Hv1 & _). cbn in Hst1, Hr1, Hv1.
  unfold activateRoutine, try_catch, bind, modify, setRoutines.
  cbn -[store_getAll]. rewrite Hrun.
  cbn -[store_getAll]. rewrite getAll_healthy by (cbn; congruence). cbn -[store_getAll].
  rewrite save_healthy by (cbn; congruence). cbn -[store_getAll].
  rewrite Hr1, Hv1. by rewrite (foldl_put_fmap Routine.id).
Qed.

Lemma deactivateRoutine_online routineId w :
  idb_status w = Healthy → keyed Routine.id (idb_routines w) →
  is_resolved (deactivateRoutine serve false routineId w).1 = true →
  ∃ l w1,
    after_calls (set_routinesError None w) l w1
    ∧ deactivateRoutine serve false routineId w
      = (Resolved tt,
         set_idb_routines (setInactive false routineId <$> idb_routines w)
           (set_routines (map (setInactive false routineId) (routines w)) w1)).
Proof.
  intros Hst Hk.
  pose proof (call_stops (UpdateRoutine routineId (activeFlag false)) (set_routinesError None w))
    as Hl.
  unfold deactivateRoutine, try_catch, bind, modify, setRoutines, deactivateRoutineService,
    try_catch, updateRoutineService.
  cbn -[store_getAll].
  destruct (call serve _ (set_routinesError None w)) as [[[]|e] w1]; [|done]. intros _.
  cbn in Hl.
  exists [(UpdateRoutine routineId (activeFlag false), true)], w1. split; [done|].
  destruct (after_calls_local _ _ _ Hl) as (Hst1 & Hr1 & _ & Hv1 & _). cbn in Hst1, Hr1, Hv1.
  cbn -[store_getAll]. rewrite getAll_healthy by (cbn; congruence). cbn -[store_getAll].
  rewrite save_healthy by (cbn; congruence). cbn -[store_getAll].
  rewrite Hr1, Hv1. by rewrite (foldl_put_fmap Routine.id).
Qed.

(** X23.  Whenever the hook's [activateRoutine] resolves over a healthy
    store, offline or online, the store and the view hold [setActive] of
    what they held; hence a stored routine is active exactly when it is the
    target, and likewise a routine of the view. *)
Theorem activation_leaves_one_active isOffline routineId w :
  idb_status w = Healthy → keyed Routine.id (idb_routines w) →
  is_resolved (activateRoutine serve isOffline routineId w).1 = true →
  let run := activateRoutine serve isOffline routineId w in
  idb_routines run.2 = setActive isOffline routineId <$> idb_routines w
  ∧ routines run.2 = map (setActive isOffline routineId) (routines w)
  ∧ (∀ k r, idb_routines run.2 !! k = Some r → isActive r = bool_decide (k = routineId))
  ∧ (∀ r, r ∈ routines run.2 → isActive r = hasId routineId r).
Proof.
  intros Hst Hk Hres. cbn zeta.
  assert (idb_routines (activateRoutine serve isOffline routineId w).2
          = setActive isOffline routineId <$> idb_routines w
          ∧ routines (activateRoutine serve isOffline routineId w).2
            = map (setActive isOffline routineId) (routines w)) as [Hstore Hview].
  { destruct isOffline.
    - by rewrite activateRoutine_offline.
    - destruct (activateRoutine_online routineId w Hst Hk Hres) as (l & w1 & Hl & ->).
      done. }
  split; [done|]. split; [done|]. split.
  - intros k r. rewrite Hstore, lookup_fmap.
    destruct (idb_routines w !! k) as [r0|] eqn:Hr0; [|done]. cbn. intros [= <-].
    rewrite isActive_setActive. unfold hasId, eqb_id. by rewrite (Hk k r0 Hr0).
  - intros r. rewrite Hview. intros (r0 & -> & _)%elem_of_map.
    by rewrite isActive_setActive.
Qed.

(** X24.  Whenever the hook's [deactivateRoutine] resolves over a healthy
    store, offline or online, a stored routine is active afterwards exactly
    when it was active before and is not the target; in the view the target
    is inactive. *)
Theorem deactivation_touches_only_target isOffline routineId w :
  idb_status w = Healthy → keyed Routine.id (idb_routines w) →
  is_resolved (deactivateRoutine serve isOffline routineId w).1 = true →
  let run := deactivateRoutine serve isOffline routineId w in
  (∀ k, isActive <$> (idb_routines run.2 !! k)
        = (λ r, isActive r && negb (bool_decide (k = routineId))) <$> (idb_routines w !! k))
  ∧ routines run.2 = map (setInactive isOffline routineId) (routines w)
  ∧ (∀ r, r ∈ routines run.2 → hasId routineId r = true → isActive r = false).
Proof.
  intros Hst Hk Hres. cbn zeta.
  assert (idb_routines (deactivateRoutine serve isOffline routineId w).2
          = setInactive isOffline routineId <$> idb_routines w
          ∧ routines (deactivateRoutine serve isOffline routineId w).2
            = map (setInactive isOffline routineId) (routines w)) as [Hstore Hview].
  { destruct isOffline.
    - by rewrite deactivateRoutine_offline.
    - destruct (deactivateRoutine_online routineId w Hst Hk Hres) as (l & w1 & Hl & ->).
      done. }
  split; [|split; [done|]].
  - intros k. rewrite Hstore, lookup_fmap.
    destruct (idb_routines w !! k) as [r0|] eqn:Hr0; [|done]. cbn.
    rewrite isActive_setInactive. unfold hasId, eqb_id. by rewrite (Hk k r0 Hr0).
  - intros r. rewrite Hview. intros (r0 & -> & _)%elem_of_map Hid.
    rewrite isActive_setInactive. change (hasId routineId r0 = true) in Hid.
    rewrite Hid. by rewrite andb_false_r.
Qed.

Lemma sync_clean v :
  idb_status v = Healthy →
  (∀ routine, routine ∈ store_getAll (idb_routines v) → unmarked routine = true) →
  syncOfflineChanges serve false v = (Resolved tt, v).
Proof.
  intros Hst Hclean. unfold syncOfflineChanges, try_catch.
  rewrite (bind_resolved _ _ _ _ _ (getAll_healthy _ _ Hst)).
  change (contents STORES_ROUTINES v) with (idb_routines v).
  by rewrite (bind_resolved _ _ _ _ _ (for_of_unmarked serve _ _ v Hclean)).
Qed.

(** X25.  An activation or deactivation made offline is never replayed.  The
    stored target then carries [_needsActivationSync], resp.
    [_needsDeactivationSync]; yet a sync pass over the resulting store, which
    has no other marker, makes no call and changes nothing. *)
Theorem offline_activation_is_never_replayed routineId w r :
  idb_status w = Healthy → keyed Routine.id (idb_routines w) →
  forallb unmarked (store_getAll (idb_routines w)) = true →
  idb_routines w !! routineId = Some r →
  let w1 := (activateRoutine serve true routineId w).2 in
  let w2 := (deactivateRoutine serve true routineId w).2 in
  (∃ r1, idb_routines w1 !! routineId = Some r1
         ∧ Routine.fields r1 !! "_needsActivationSync" = Some (VBool true))
  ∧ (∃ r2, idb_routines w2 !! routineId = Some r2
           ∧ Routine.fields r2 !! "_needsDeactivationSync" = Some (VBool true))
  ∧ syncOfflineChanges serve false w1 = (Resolved tt, w1)
  ∧ syncOfflineChanges serve false w2 = (Resolved tt, w2).
Proof.
  intros Hst Hk Hall Hr. cbn zeta.
  assert (∀ routine, routine ∈ store_getAll (idb_routines w) → unmarked routine = true)
    as Hclean.
  { intros routine Hin. rewrite forallb_forall in Hall. by apply Hall, list_elem_of_In. }
  rewrite activateRoutine_offline, deactivateRoutine_offline by done. cbn [snd].
  assert (Hid : hasId routineId r = true).
  { unfold hasId, eqb_id. apply bool_decide_eq_true. by apply (Hk routineId r). }
  split; [|split; [|split]].
  - exists (setActive true routineId r). cbn. rewrite lookup_fmap, Hr. split; [done|].
    unfold setActive. rewrite Hid. cbn. by rewrite lookup_insert_eq.
  - exists (setInactive true routineId r). cbn. rewrite lookup_fmap, Hr. split; [done|].
    unfold setInactive. rewrite Hid. cbn. by rewrite lookup_insert_eq.
  - apply sync_clean; [done|]. cbn. intros routine (k & Hin)%elem_of_getAll.
    rewrite lookup_fmap in Hin.
    destruct (idb_routines w !! k) as [r0|] eqn:Hr0; [|done]. injection Hin as <-.
    rewrite unmarked_setActive. apply Hclean, elem_of_getAll. eauto.
  - apply sync_clean; [done|]. cbn. intros routine (k & Hin)%elem_of_getAll.
    rewrite lookup_fmap in Hin.
    destruct (idb_routines w !! k) as [r0|] eqn:Hr0; [|done]. injection Hin as <-.
    rewrite unmarked_setInactive. apply Hclean, elem_of_getAll. eauto.
Qed.

End Activation.

Lemma filter_length_disjoint {A} (p q : A → bool) (l : list A) :
  (∀ x, p x = true → q x = true → False) →
  (length (List.filter p l) + length (List.filter q l) ≤ length l)%nat.
Proof.
  intros Hpq. induction l as [|x l IH]; [done|]. cbn.
  destruct (p x) eqn:Hp, (q x) eqn:Hq; cbn; try lia.
  destruct (Hpq x Hp Hq).
Qed.

Lemma filter_length_le {A} (p : A → bool) (l : list A) :
  (length (List.filter p l) ≤ length l)%nat.
Proof. induction l as [|x l IH]; [done|]. cbn. destruct (p x); cbn; lia. Qed.

Lemma filter_filter_length {A} (p q : A → bool) (l : list A) :
  (length (List.filter p (List.filter q l)) ≤ length (List.filter p l))%nat.
Proof.
  induction l as [|x l IH]; [done|]. cbn.
  destruct (q x); cbn; destruct (p x); cbn; lia.
Qed.

Lemma filter_sublist {A} (p : A → bool) (l : list A) : sublist (List.filter p l) l.
Proof.
  induction l as [|x l IH]; [done|]. cbn.
  destruct (p x); [by apply sublist_skip|by apply sublist_cons].
Qed.

Lemma categoryCounts_snoc tasks task :
  categoryCounts (tasks ++ [task]) = fileUnder (categoryCounts tasks) (categoryKey task).
Proof. unfold categoryCounts. by rewrite foldl_app. Qed.

Lemma lookup_fileUnder_ne acc key key' :
  key ≠ key' → fileUnder acc key !! key' = acc !! key'.
Proof.
  intros Hne. unfold fileUnder.
  destruct (acc !! key) as [[n|ones]|]; repeat case_bool_decide;
    by rewrite ?lookup_insert_ne.
Qed.

(** X26.  [categoryCounts] files under each key the number of tasks whose
    category is that key, and has no entry for a key without tasks -- for
    every key that is not the name of a property inherited from
    [Object.prototype].  Under such a name no number is ever filed: nothing
    at all under [__proto__], and under the name of an inherited function a
    string, the function's text followed by one digit 1 per task. *)
Theorem category_counts_count tasks category :
  let n := length (List.filter (λ task, bool_decide (categoryKey task = category)) tasks) in
  categoryCounts tasks !! category
  = if decide (n = 0) then None
    else if decide (category = "__proto__") then None
    else if decide (category ∈ objectPrototypeKeys) then Some (Text n)
    else Some (Count n).
Proof.
  cbn zeta. induction tasks as [|task tasks IH] using rev_ind; [done|].
  rewrite categoryCounts_snoc, List.filter_app, List.length_app. cbn [List.filter].
  destruct (decide (categoryKey task = category)) as [Heq|Hne].
  - rewrite (bool_decide_eq_true_2 _ Heq). cbn [length]. rewrite <-Heq in *. clear Heq.
    set (key := categoryKey task) in *.
    set (n := length (List.filter _ tasks)) in *.
    destruct (decide (n + 1 = 0)) as [?|_]; [lia|].
    unfold fileUnder. rewrite IH.
    destruct (decide (n = 0)) as [Hz|Hz], (decide (key = "__proto__")) as [Hp|Hp],
      (decide (key ∈ objectPrototypeKeys)) as [Hi|Hi];
      rewrite ?(bool_decide_eq_true_2 _ Hp), ?(bool_decide_eq_false_2 _ Hp),
        ?(bool_decide_eq_true_2 _ Hi), ?(bool_decide_eq_false_2 _ Hi), ?lookup_insert_eq,
        ?IH, ?Hz;
      repeat case_decide; try done; try lia.
  - rewrite lookup_fileUnder_ne, IH, (bool_decide_eq_false_2 _ Hne) by done. cbn [length].
    by rewrite Nat.add_0_r.
Qed.

(** X27.  The stat cards do not overcount: the in-progress and the completed
    tasks together, and the overdue and the completed tasks together, never
    exceed the total. *)
Theorem stats_are_bounded (isOverdue : option value → bool) tasks :
  let stats := taskStats isOverdue tasks in
  (inProgress stats + completed stats ≤ total stats)%nat
  ∧ (overdue stats + completed stats ≤ total stats)%nat.
Proof.
  cbn. split; apply filter_length_disjoint; intros task.
  - unfold hasStatus. intros H1%bool_decide_eq_true H2%bool_decide_eq_true. congruence.
  - unfold overdueOpen. intros [_ H1%negb_true_iff]%andb_true_iff H2. congruence.
Qed.

(** X28.  [getFilteredTasks] lists tasks of [tasks], in their order.  The
    number listed never exceeds the number on the card of the selected stat
    and equals it when no category is selected; with a category selected,
    every listed task is of that category. *)
Theorem listed_tasks_match_the_cards (isOverdue : option value → bool) tasks
    selectedCategory statFilter :
  let shown := getFilteredTasks isOverdue tasks selectedCategory statFilter in
  sublist shown tasks
  ∧ (length shown ≤ cardCount statFilter (taskStats isOverdue tasks))%nat
  ∧ (truthy selectedCategory = None →
       length shown = cardCount statFilter (taskStats isOverdue tasks))
  ∧ (∀ category, truthy selectedCategory = Some category →
       ∀ task, task ∈ shown → inCategory category task = true).
Proof.
  cbn zeta. unfold getFilteredTasks.
  destruct (truthy selectedCategory) as [category|].
  - split; [|split; [|split; [done|]]].
    + destruct statFilter; [apply filter_sublist|..];
        (etrans; [apply filter_sublist|apply filter_sublist]).
    + destruct statFilter; cbn; try apply filter_filter_length. apply filter_length_le.
    + intros ? [= <-] task Hin.
      assert (task ∈ List.filter (inCategory category) tasks) as Hc.
      { destruct statFilter; [done|..];
          by apply list_elem_of_In, filter_In in Hin as [Hin%list_elem_of_In _]. }
      by apply list_elem_of_In, filter_In in Hc as [_ Hc].
  - split; [|split; [|split; [|done]]].
    + destruct statFilter; [done|..]; apply filter_sublist.
    + by destruct statFilter.
    + by destruct statFilter.
Qed.

Section Reconnect.
Context {Srv : Type} (serve : Srv → ∀ q : Request, Srv * (string + Reply q)).
Implicit Types w : World Srv.

Lemma quiet_try_finally {A} (m : Async Srv A) (final : Async Srv unit) :
  quiet m → quiet final → quiet (try_finally m final).
Proof.
  intros Hm Hf w. unfold try_finally. specialize (Hm w).
  destruct (m w) as [o w1]. specialize (Hf w1).
  destruct (final w1) as [[[]|e] w2]; cbn in *; split; etrans; (apply Hf || apply Hm).
Qed.

Lemma quiet_loadTasks_offline userId : quiet (loadTasks serve userId true).
Proof.
  unfold loadTasks. destruct (truthy userId); [|apply quiet_ret].
  apply quiet_try_finally; [|apply quiet_modify; by intros ?].
  unfold setTasks. repeat quiet_step.
Qed.

Lemma timeout_below_cap (retryCount : N) :
  (retryCount < 3)%N →
  N.min (1000 * 2 ^ retryCount) 10000 = (1000 * 2 ^ retryCount)%N
  ∧ (1000 * 2 ^ retryCount ≤ 4000)%N.
Proof.
  intros Hlt.
  assert (retryCount = 0 ∨ retryCount = 1 ∨ retryCount = 2)%N as Hcases by lia.
  destruct Hcases as [-> | [-> | ->]]; by compute.
Qed.

(** X29.  The retry timer of [loadTasks], over a healthy database.
    [loadTasks_timed] leaves the world that [loadTasks] leaves.  It sets
    the timer exactly when it ran online for a signed-in user, its
    connection test or its fetch failed, and [retryCount] is below 3; the
    delay is then [1000 * 2 ^ retryCount], which is at most 4000, so the
    cap of 10000 never applies.  Offline, without a user, after a load that
    got its data, and from the third retry on, no timer is set. *)
Theorem retry_follows_failed_online_load userId isOffline retryCount w :
  idb_status w = Healthy →
  let run := loadTasks_timed serve userId isOffline retryCount w in
  let failed :=
    match truthy userId with
    | Some uid => negb isOffline && fetch_fails serve uid w
    | None => false
    end in
  run.2 = (loadTasks serve userId isOffline w).2
  ∧ run.1 = Resolved (if failed && bool_decide (retryCount < 3)%N
                      then Some (1000 * 2 ^ retryCount)%N else None)
  ∧ (∀ delay, run.1 = Resolved (Some delay) → (delay ≤ 4000)%N).
Proof.
  intros Hst. cbn zeta.
  assert (loadTasks_timed serve userId isOffline retryCount w
          = (Resolved (if match truthy userId with
                          | Some uid => negb isOffline && fetch_fails serve uid w
                          | None => false
                          end && bool_decide (retryCount < 3)%N
                       then Some (1000 * 2 ^ retryCount)%N else None),
             (loadTasks serve userId isOffline w).2)) as ->.
  { unfold loadTasks_timed, loadTasks, fetch_fails.
    destruct (truthy userId) as [uid|]; [|done].
    unfold try_finally, try_catch, bind, modify, testConnection, fetchTasks, call, setTasks,
      getAllFromIndexedDB, saveToIndexedDB, initDB, request_getAll, transaction_put, throw,
      ret, bind, try_catch.
    destruct isOffline; cbn -[N.min N.mul N.pow N.lt].
    - by repeat (rewrite Hst; cbn -[N.min N.mul N.pow N.lt]).
    - destruct (serve (srv w) TestConnection) as [s1 [e1|[|]]]; cbn -[N.min N.mul N.pow N.lt];
        [|destruct (serve s1 (FetchTasks uid)) as [s2 [e2|data]];
          cbn -[N.min N.mul N.pow N.lt]|];
        repeat (rewrite Hst; cbn -[N.min N.mul N.pow N.lt]);
        try done;
        (case_bool_decide as Hlen; cbn -[N.min N.mul N.pow N.lt];
         case_bool_decide as Hlt; cbn -[N.min N.mul N.pow N.lt];
         by rewrite ?(proj1 (timeout_below_cap retryCount Hlt))). }
  cbn [fst snd]. split; [done|]. split; [done|].
  intros delay. destruct (_ && bool_decide _) eqn:Hc; [|done]. intros [= <-].
  apply andb_true_iff in Hc as [_ Hlt%bool_decide_eq_true].
  by apply timeout_below_cap.
Qed.

(** X30.  The reconnect handler of the application never rejects; while
    offline it makes no call to the service. *)
Theorem reconnect_handler_never_rejects userId isOffline w :
  (syncAllOfflineChanges serve userId isOffline w).1 = Resolved tt
  ∧ quiet (syncAllOfflineChanges serve userId true).
Proof.
  split.
  - unfold syncAllOfflineChanges, try_catch, bind, syncOfflineChanges_tasks.
    pose proof (sync_resolves serve isOffline (loadTasks serve userId isOffline w).2) as Hs.
    destruct (syncOfflineChanges serve isOffline _) as [[[]|e] w1]; done.
  - intros v. unfold syncAllOfflineChanges, try_catch, bind, syncOfflineChanges_tasks.
    cbn. apply (quiet_loadTasks_offline userId v).
Qed.

End Reconnect.


(** ** The further properties, at the scenarios *)

Lemma save_then_get_witness :
  let w' := (saveToIndexedDB STORES_TASKS (One task7) world0).2 in
  (getByIdFromIndexedDB STORES_TASKS "srv-7" w').1 = Resolved (Some task7)
  ∧ ∀ id, id ≠ "srv-7" →
      (getByIdFromIndexedDB STORES_TASKS id w').1
      = (getByIdFromIndexedDB STORES_TASKS id world0).1.
Proof.
  refine (save_then_get STORES_TASKS task7 world0 _ _).
  - intros m w. split; reflexivity.
  - reflexivity.
Defined.

Lemma save_batch_then_get_witness :
  let w' := (saveToIndexedDB STORES_TASKS (Many [staleTask; freshTask]) sharedDevice).2 in
  (∀ id, id ∉ map Task.id [staleTask; freshTask] →
     (getByIdFromIndexedDB STORES_TASKS id w').1
     = (getByIdFromIndexedDB STORES_TASKS id sharedDevice).1)
  ∧ (∀ before x after,
       [staleTask; freshTask] = before ++ x :: after → Task.id x ∉ map Task.id after →
       (getByIdFromIndexedDB STORES_TASKS (Task.id x) w').1 = Resolved (Some x)).
Proof.
  refine (save_batch_then_get STORES_TASKS [staleTask; freshTask] sharedDevice _ _).
  - intros m w. split; reflexivity.
  - reflexivity.
Defined.

Lemma writes_propagate_failure_witness :
  ∃ error,
    (idb_status brokenDB = OpenFails error ∨ idb_status brokenDB = RequestFails error)
    ∧ saveToIndexedDB STORES_TASKS (One task7) brokenDB = (Rejected error, brokenDB)
    ∧ deleteFromIndexedDB STORES_TASKS "srv-7" brokenDB = (Rejected error, brokenDB)
    ∧ clearIndexedDBStore STORES_TASKS brokenDB = (Rejected error, brokenDB).
Proof.
  refine (writes_propagate_failure STORES_TASKS (One task7) "srv-7" brokenDB _).
  discriminate.
Defined.

Lemma delete_then_get_witness :
  let w' := (deleteFromIndexedDB STORES_TASKS "srv-7" synced7).2 in
  (deleteFromIndexedDB STORES_TASKS "srv-7" synced7).1 = Resolved tt
  ∧ (getByIdFromIndexedDB STORES_TASKS "srv-7" w').1 = Resolved None
  ∧ (∀ id', id' ≠ "srv-7" →
       (getByIdFromIndexedDB STORES_TASKS id' w').1
       = (getByIdFromIndexedDB STORES_TASKS id' synced7).1)
  ∧ (idb_tasks synced7 !! "srv-7" = None → idb_tasks w' = idb_tasks synced7).
Proof.
  refine (delete_then_get STORES_TASKS "srv-7" synced7 _ _).
  - intros m w. split; reflexivity.
  - reflexivity.
Defined.

Lemma clear_then_getAll_witness :
  let w' := (clearIndexedDBStore STORES_ROUTINES synced7).2 in
  (getAllFromIndexedDB STORES_ROUTINES w').1 = Resolved []
  ∧ ∀ id, (getByIdFromIndexedDB STORES_ROUTINES id w').1 = Resolved None.
Proof.
  refine (clear_then_getAll STORES_ROUTINES synced7 _ _).
  - intros m w. split; reflexivity.
  - reflexivity.
Defined.

Lemma getAll_agrees_with_getById_witness :
  ∃ items,
    (getAllFromIndexedDB STORES_TASKS sharedDevice).1 = Resolved items
    ∧ NoDup (map Task.id items)
    ∧ ∀ x, x ∈ items
           ↔ (getByIdFromIndexedDB STORES_TASKS (Task.id x) sharedDevice).1
             = Resolved (Some x).
Proof.
  refine (getAll_agrees_with_getById STORES_TASKS sharedDevice _ _).
  - reflexivity.
  - unfold keyed. compute_done.
Defined.

Lemma writes_keep_items_keyed_witness :
  keyed Task.id (idb_tasks (saveToIndexedDB STORES_TASKS (One task7) sharedDevice).2)
  ∧ keyed Task.id (idb_tasks (deleteFromIndexedDB STORES_TASKS "srv-3" sharedDevice).2)
  ∧ keyed Task.id (idb_tasks (clearIndexedDBStore STORES_TASKS sharedDevice).2).
Proof.
  refine (writes_keep_items_keyed STORES_TASKS (One task7) "srv-3" sharedDevice _ _).
  - intros m w. split; reflexivity.
  - unfold keyed. compute_done.
Defined.

Lemma load_falls_back_to_cache_witness :
  let w' := (loadTasks unreachable alice false sharedDevice).2 in
  let own := List.filter (ownedBy "alice") (store_getAll (idb_tasks sharedDevice)) in
  idb_tasks w' = idb_tasks sharedDevice
  ∧ (own ≠ [] → tasks w' = own ∧ tasksError w' = None)
  ∧ (own = [] → tasks w' = tasks sharedDevice ∧ is_Some (tasksError w')).
Proof.
  refine (load_falls_back_to_cache unreachable alice "alice" sharedDevice _ _ _);
    reflexivity.
Defined.

Lemma offline_update_of_task_witness :
  let run := handleUpdateTask online alice true clock0 "srv-7" autumn synced7 in
  ∃ updated,
    run.1 = Resolved updated
    ∧ Task.id updated = Task.id task7
    ∧ Task.userId updated = Task.userId task7
    ∧ Task.fields updated !! "updatedAt" = Some (VStr (toISOString clock0))
    ∧ (∀ k, k ≠ "updatedAt" →
         Task.fields updated !! k
         = match autumn !! k with
           | Some v => Some v
           | None => Task.fields task7 !! k
           end)
    ∧ idb_tasks run.2 = <[Task.id task7 := updated]> (idb_tasks synced7)
    ∧ tasks run.2
      = map (λ task, if eqb_id (Task.id task) "srv-7" then updated else task) (tasks synced7).
Proof.
  refine (offline_update_of_task online alice clock0 "srv-7" autumn synced7 _).
  reflexivity.
Defined.

Lemma deleted_task_is_gone_witness :
  let run := handleDeleteTask online false "srv-7" synced7 in
  run.1 = Resolved true
  ∧ idb_tasks run.2 !! "srv-7" = None
  ∧ ("srv-7" ∉ map Task.id (tasks run.2))
  ∧ (∀ id, id ≠ "srv-7" → idb_tasks run.2 !! id = idb_tasks synced7 !! id)
  ∧ (∀ task, Task.id task ≠ "srv-7" → (task ∈ tasks run.2) ↔ (task ∈ tasks synced7)).
Proof.
  refine (deleted_task_is_gone online false "srv-7" synced7 tt _ _).
  - reflexivity.
  - intros _. reflexivity.
Defined.

Lemma offline_created_task_survives_reload_witness :
  let created := handleCreateTask online alice true clock0 labReport world0 in
  let reloaded := (loadTasks online alice true created.2).2 in
  ∃ task,
    created.1 = Resolved task
    ∧ Task.id task = "temp_" +:+ dateNow clock0 +:+ "_" +:+ mathRandom clock0
    ∧ task ∈ tasks created.2
    ∧ task ∈ tasks reloaded
    ∧ idb_tasks reloaded !! Task.id task = Some task.
Proof.
  refine (offline_created_task_survives_reload online alice "alice" clock0 labReport world0
            _ _); reflexivity.
Defined.

Lemma sync_hides_service_failures_witness :
  let run := syncOfflineChanges unreachable false twoMarked in
  run.1 = Resolved tt
  ∧ routinesError run.2 = routinesError twoMarked
  ∧ routinesLoading run.2 = routinesLoading twoMarked
  ∧ idb_status run.2 = Healthy.
Proof. refine (sync_hides_service_failures unreachable twoMarked _). reflexivity. Defined.

Lemma sync_without_markers_is_idle_witness :
  syncOfflineChanges online false synced7 = (Resolved tt, synced7).
Proof.
  refine (sync_without_markers_is_idle online false synced7 _ _); reflexivity.
Defined.

Lemma sync_calls_follow_markers_witness :
  let w' := (syncOfflineChanges unreachable false twoMarked).2 in
  log w' = log twoMarked ++ calls_since twoMarked w'
  ∧ requests (calls_since twoMarked w')
    = flat_map routine_requests (store_getAll (idb_routines twoMarked)).
Proof. refine (sync_calls_follow_markers unreachable twoMarked _). reflexivity. Defined.

Lemma rejected_pass_changes_nothing_witness :
  let w' := (syncOfflineChanges unreachable false twoMarked).2 in
  idb_routines w' = idb_routines twoMarked ∧ routines w' = routines twoMarked
  ∧ routinesError w' = routinesError twoMarked.
Proof.
  refine (rejected_pass_changes_nothing unreachable twoMarked _ _).
  - reflexivity.
  - vm_compute. reflexivity.
Defined.

Lemma online_delete_keeps_cached_routine_witness :
  let run := deleteRoutine online false "srv-7" synced7 in
  run.1 = Resolved tt
  ∧ idb_routines run.2 = idb_routines synced7
  ∧ routines run.2 = List.filter (λ routine, negb (hasId "srv-7" routine)) (routines synced7).
Proof.
  refine (online_delete_keeps_cached_routine online synced7 "srv-7" tt _ _ _).
  - reflexivity.
  - unfold keyed. compute_done.
  - reflexivity.
Defined.

Lemma offline_slot_delete_witness :
  let w' := (deleteRoutineSlot online true "srv-7" (Slot.id draftSlot) withTimetable).2 in
  ∃ r',
    idb_routines w' !! "srv-7" = Some r'
    ∧ (∀ slot, slot ∈ default [] (Routine.slots r') → Slot.id slot = Slot.id draftSlot →
         Slot._isOffline slot = false ∧ Slot._isOfflineDeleted slot = true)
    ∧ (∀ slot, slot ∈ default [] (Routine.slots timetable) → Slot.id slot = Slot.id draftSlot →
         Slot._isOffline slot = false →
         Slot.with_isOfflineDeleted true slot ∈ default [] (Routine.slots r'))
    ∧ (∀ slot, Slot.id slot ≠ Slot.id draftSlot →
         (slot ∈ default [] (Routine.slots r')) ↔ (slot ∈ default [] (Routine.slots timetable)))
    ∧ (∀ routine slot, routine ∈ routines w' → Routine.id routine = "srv-7" →
         slot ∈ default [] (Routine.slots routine) → Slot.id slot ≠ Slot.id draftSlot).
Proof.
  refine (offline_slot_delete online withTimetable "srv-7" (Slot.id draftSlot) timetable _ _ _).
  - reflexivity.
  - unfold keyed. compute_done.
  - reflexivity.
Defined.

Lemma offline_slot_needs_stored_routine_witness :
  addRoutineSlot online true clock0 "srv-9" spring synced7
  = (Rejected "Routine not found", set_routinesError (Some "Routine not found") synced7).
Proof.
  refine (offline_slot_needs_stored_routine online clock0 "srv-9" spring synced7 _ _).
  - reflexivity.
  - unfold keyed. compute_done.
Defined.

Lemma activation_calls_witness :
  let run := activateRoutineService twoOnServer "srv-8" world0 in
  after_calls world0 (calls_since world0 run.2) run.2
  ∧ stops_at_first_rejection
      (activation_plan "srv-8" [("srv-7", activeSpring, Some []); ("srv-8", autumn, Some [])])
      (is_resolved run.1) (calls_since world0 run.2).
Proof.
  refine (activation_calls twoOnServer "srv-8" world0 tt
            [("srv-7", activeSpring, Some []); ("srv-8", autumn, Some [])] _).
  reflexivity.
Defined.

Lemma activation_leaves_one_active_witness :
  let run := activateRoutine twoOnServer false "srv-8" twoCached in
  idb_routines run.2 = setActive false "srv-8" <$> idb_routines twoCached
  ∧ routines run.2 = map (setActive false "srv-8") (routines twoCached)
  ∧ (∀ k r, idb_routines run.2 !! k = Some r → isActive r = bool_decide (k = "srv-8"))
  ∧ (∀ r, r ∈ routines run.2 → isActive r = hasId "srv-8" r).
Proof.
  refine (activation_leaves_one_active twoOnServer false "srv-8" twoCached _ _ _).
  - reflexivity.
  - unfold keyed. compute_done.
  - reflexivity.
Defined.

Lemma deactivation_touches_only_target_witness :
  let run := deactivateRoutine twoOnServer true "srv-7" twoCached in
  (∀ k, isActive <$> (idb_routines run.2 !! k)
        = (λ r, isActive r && negb (bool_decide (k = "srv-7"))) <$> (idb_routines twoCached !! k))
  ∧ routines run.2 = map (setInactive true "srv-7") (routines twoCached)
  ∧ (∀ r, r ∈ routines run.2 → hasId "srv-7" r = true → isActive r = false).
Proof.
  refine (deactivation_touches_only_target twoOnServer true "srv-7" twoCached _ _ _).
  - reflexivity.
  - unfold keyed. compute_done.
  - reflexivity.
Defined.

Lemma offline_activation_is_never_replayed_witness :
  let w1 := (activateRoutine online true "srv-7" synced7).2 in
  let w2 := (deactivateRoutine online true "srv-7" synced7).2 in
  (∃ r1, idb_routines w1 !! "srv-7" = Some r1
         ∧ Routine.fields r1 !! "_needsActivationSync" = Some (VBool true))
  ∧ (∃ r2, idb_routines w2 !! "srv-7" = Some r2
           ∧ Routine.fields r2 !! "_needsDeactivationSync" = Some (VBool true))
  ∧ syncOfflineChanges online false w1 = (Resolved tt, w1)
  ∧ syncOfflineChanges online false w2 = (Resolved tt, w2).
Proof.
  refine (offline_activation_is_never_replayed online "srv-7" synced7 srv7 _ _ _ _).
  - reflexivity.
  - unfold keyed. compute_done.
  - reflexivity.
  - reflexivity.
Defined.

Lemma retry_follows_failed_online_load_witness :
  let run := loadTasks_timed unreachable alice false 2 sharedDevice in
  let failed := negb false && fetch_fails unreachable "alice" sharedDevice in
  run.2 = (loadTasks unreachable alice false sharedDevice).2
  ∧ run.1 = Resolved (if failed && bool_decide (2 < 3)%N
                      then Some (1000 * 2 ^ 2)%N else None)
  ∧ (∀ delay, run.1 = Resolved (Some delay) → (delay ≤ 4000)%N).
Proof.
  refine (retry_follows_failed_online_load unreachable alice false 2 sharedDevice _).
  reflexivity.
Defined.
